(** * Entity forms of the university administration app

    A shallow embedding of the two dialog forms of the repository, the
    academic period form ([PeriodForm]) and the professor form
    ([ProfessorForm]): their zod schemas, their [handleSubmit] functions and
    the dialog buttons that trigger them, with the properties the
    specification states about validation and submission.

    The forms are TypeScript over three libraries: zod (schemas),
    react-hook-form ([useForm], [zodResolver]) and React ([useState]).  The
    parts of the language and of the libraries the forms rely on are in the
    modules [JS], [RegExp] and [Zod]; [Effects] has the calls a handler
    makes and the async functions, [Dialog] the events of an open dialog. *)

From Stdlib Require Import List String Ascii ZArith NArith QArith Bool Lia.
From Stdlib Require DecimalString.
Import ListNotations.
Local Close Scope Q_scope.
Local Open Scope list_scope.

Set Implicit Arguments.

(* ================================================================== *)
(** * JavaScript data *)
(* ================================================================== *)

Module JS.

(** A JavaScript string is a sequence of UTF-16 code units; [.length]
    counts them and a RegExp without the [u] flag matches them one by one. *)
Definition code_unit := N.
Definition jsstring := list code_unit.

(** An ASCII literal of the source as a sequence of code units. *)
Definition lit (s : string) : jsstring :=
  map N_of_ascii (list_ascii_of_string s).

Definition jsstring_eqb (a b : jsstring) : bool :=
  if list_eq_dec N.eq_dec a b then true else false.

(** A number is NaN, an infinity or a finite value; the finite doubles are
    rationals and are compared as such. *)
Inductive number :=
| NaN
| PosInfinity
| NegInfinity
| Finite (q : Q).

Definition of_Z (z : Z) : number := Finite (inject_Z z).

(** [a < b] on numbers: false as soon as one side is NaN. *)
Definition num_lt (a b : number) : bool :=
  match a, b with
  | NaN, _ | _, NaN => false
  | PosInfinity, _ => false
  | _, NegInfinity => false
  | NegInfinity, _ => true
  | _, PosInfinity => true
  | Finite x, Finite y => negb (Qle_bool y x)
  end.

Definition num_gt (a b : number) : bool := num_lt b a.

(** The values a form field, a callback argument or a property can hold.
    A [Date] object carries its time value in milliseconds, [None] for an
    invalid date; objects are plain data objects. *)
#[local] Unset Elimination Schemes.
Inductive value :=
| VUndefined
| VNull
| VBoolean (b : bool)
| VNumber (n : number)
| VString (s : jsstring)
| VDate (t : option Z)
| VObject (props : list (string * value)).
#[local] Set Elimination Schemes.

(** Thrown values. *)
Inductive exn :=
| TypeError (what : string)
| Fault (reason : string).

(** The completion of an evaluation: a value, or a throw. *)
Inductive completion (A : Type) :=
| Normal (a : A)
| Throw (e : exn).
Arguments Throw {A} e.

Definition bind {A B} (m : completion A) (k : A -> completion B)
  : completion B :=
  match m with
  | Normal a => k a
  | Throw e => Throw e
  end.

Fixpoint lookup (props : list (string * value)) (key : string) : value :=
  match props with
  | [] => VUndefined
  | (k, v) :: rest => if String.eqb k key then v else lookup rest key
  end.

(** [o.key]: reading a property of [undefined] or [null] throws a
    TypeError; a data object yields the property or [undefined]; the
    primitives have none of the properties the forms read. *)
Definition get_prop (o : value) (key : string) : completion value :=
  match o with
  | VUndefined | VNull => Throw (TypeError key)
  | VObject props => Normal (lookup props key)
  | _ => Normal VUndefined
  end.

(** The i-th argument of a call; parameters beyond the arguments passed
    are [undefined]. *)
Definition arg (i : nat) (args : list value) : value :=
  nth i args VUndefined.

Section Coercions.

(** [Number(s)] on a string (StringToNumber of the language) is a
    parameter of the development. *)
Variable StringToNumber : jsstring -> number.

(** The string a plain object converts to. *)
Definition object_Object : jsstring := lit "[object Object]".

(** [Number(v)]. *)
Definition ToNumber (v : value) : number :=
  match v with
  | VUndefined => NaN
  | VNull => of_Z 0
  | VBoolean b => of_Z (if b then 1 else 0)
  | VNumber n => n
  | VString s => StringToNumber s
  | VDate (Some t) => of_Z t
  | VDate None => NaN
  | VObject _ => StringToNumber object_Object
  end.

(** ToPrimitive with hint number: a Date gives its time value, a plain
    object its string. *)
Definition ToPrimitive (v : value) : value :=
  match v with
  | VDate (Some t) => VNumber (of_Z t)
  | VDate None => VNumber NaN
  | VObject _ => VString object_Object
  | _ => v
  end.

Fixpoint str_lt (a b : jsstring) : bool :=
  match a, b with
  | _, [] => false
  | [], _ :: _ => true
  | x :: a', y :: b' =>
      if (x <? y)%N then true
      else if (y <? x)%N then false
      else str_lt a' b'
  end.

(** [a > b]: both sides to primitives; two strings compare by code
    units, anything else as numbers. *)
Definition js_gt (a b : value) : bool :=
  match ToPrimitive a, ToPrimitive b with
  | VString x, VString y => str_lt y x
  | pa, pb => num_gt (ToNumber pa) (ToNumber pb)
  end.

End Coercions.

(** The truthiness of an optional object: [undefined] is falsy. *)
Definition given (o : option value) : bool :=
  match o with
  | Some _ => true
  | None => false
  end.

(** ToBoolean of an optional string, as [||] sees it: [undefined] and the
    empty string are falsy. *)
Definition or_else (s : option string) (fallback : string) : string :=
  match s with
  | Some t => if String.eqb t EmptyString then fallback else t
  | None => fallback
  end.

End JS.

Import JS.

Declare Scope js_scope.
Delimit Scope js_scope with js.
Notation "x <- m ;; k" := (JS.bind m (fun x => k))
(at level 61, m at next level, right associativity) : js_scope.

(* ================================================================== *)
(** * Regular expressions *)
(* ================================================================== *)

Module RegExp.

(** The fragment of the pattern syntax the source uses: character
    classes, concatenation, alternation and the bounded quantifier
    [r{lo,lo+extra}].  [Never] and [Empty] only arise as derivatives. *)
Inductive regex :=
| Never
| Empty
| Class (p : code_unit -> bool)
| Seq (r1 r2 : regex)
| Or (r1 r2 : regex)
| Quant (lo extra : nat) (r : regex).

Fixpoint nullable (r : regex) : bool :=
  match r with
  | Never => false
  | Empty => true
  | Class _ => false
  | Seq a b => nullable a && nullable b
  | Or a b => nullable a || nullable b
  | Quant lo _ a => Nat.eqb lo 0 || nullable a
  end.

Fixpoint deriv (r : regex) (c : code_unit) : regex :=
  match r with
  | Never => Never
  | Empty => Never
  | Class p => if p c then Empty else Never
  | Seq a b =>
      if nullable a then Or (Seq (deriv a c) b) (deriv b c)
      else Seq (deriv a c) b
  | Or a b => Or (deriv a c) (deriv b c)
  | Quant 0 0 _ => Never
  | Quant 0 (S e) a => Seq (deriv a c) (Quant 0 e a)
  | Quant (S l) e a => Seq (deriv a c) (Quant l e a)
  end.

(** [/^r$/.test(s)]: without the [m] flag the anchors are the two ends of
    the input, so the test is a match of the whole string. *)
Fixpoint test (r : regex) (s : jsstring) : bool :=
  match s with
  | [] => nullable r
  | c :: s' => test (deriv r c) s'
  end.

(** The strings a pattern denotes. *)
Fixpoint power (L : jsstring -> Prop) (n : nat) (s : jsstring) : Prop :=
  match n with
  | O => s = []
  | S n' => exists s1 s2, s = s1 ++ s2 /\ L s1 /\ power L n' s2
  end.

Fixpoint matches (r : regex) (s : jsstring) : Prop :=
  match r with
  | Never => False
  | Empty => s = []
  | Class p => exists c, s = [c] /\ p c = true
  | Seq a b => exists s1 s2, s = s1 ++ s2 /\ matches a s1 /\ matches b s2
  | Or a b => matches a s \/ matches b s
  | Quant lo extra a =>
      exists n, lo <= n <= lo + extra /\ power (matches a) n s
  end.

End RegExp.


(* ================================================================== *)
(** * The zod schemas the forms use *)
(* ================================================================== *)

Module Zod.

Local Open Scope js_scope.

Inductive issue_code :=
| invalid_type
| invalid_date
| invalid_string
| invalid_enum_value
| too_small
| too_big
| custom.

(** An issue: the path of the field, the code, and the message the schema
    declares for it ([None]: zod's default error map words it). *)
Record issue := mkIssue {
  path : list string;
  code : issue_code;
  message : option string
}.

Definition raise (c : issue_code) (msg : option string) : issue :=
  mkIssue [] c msg.

(** What [_parse] returns: a value with the issues its checks raised (status
    valid when there are none, dirty otherwise), or INVALID (status aborted). *)
Inductive parsed :=
| Parsed (v : value) (issues : list issue)
| Invalid (issues : list issue).

Definition issues_of (r : parsed) : list issue :=
  match r with
  | Parsed _ l => l
  | Invalid l => l
  end.

Definition schema := value -> completion parsed.

(** A schema accepts an input when the parse raises no issue. *)
Definition accepts (s : schema) (input : value) : Prop :=
  exists out, s input = Normal (Parsed out []).

(** The message of an [invalid_type] issue: [required_error] when the input
    is [undefined]; no [invalid_type_error] is declared anywhere. *)
Definition wrong_type (required_error : option string) (input : value)
  : parsed :=
  match input with
  | VUndefined => Invalid [raise invalid_type required_error]
  | _ => Invalid [raise invalid_type None]
  end.

(** ** z.string() *)

Inductive string_check :=
| min (length : nat) (msg : option string)
| regex (re : RegExp.regex) (msg : option string)
| email (test : jsstring -> bool) (msg : option string).

Definition run_string_check (s : jsstring) (c : string_check) : list issue :=
  match c with
  | min n msg =>
      if Nat.ltb (List.length s) n then [raise too_small msg] else []
  | regex re msg =>
      if RegExp.test re s then [] else [raise invalid_string msg]
  | email test msg =>
      if test s then [] else [raise invalid_string msg]
  end.

Definition z_string (required_error : option string)
  (checks : list string_check) : schema :=
  fun input =>
    match input with
    | VString s => Normal (Parsed input (flat_map (run_string_check s) checks))
    | _ => Normal (wrong_type required_error input)
    end.

(** ** z.coerce.number() *)

Inductive number_check :=
| nmin (bound : Z)
| nmax (bound : Z).

Definition run_number_check (n : number) (c : number_check) : list issue :=
  match c with
  | nmin b => if num_lt n (of_Z b) then [raise too_small None] else []
  | nmax b => if num_gt n (of_Z b) then [raise too_big None] else []
  end.

(** The input is replaced by [Number(input)]; NaN is not of type number. *)
Definition z_coerce_number (StringToNumber : jsstring -> number)
  (checks : list number_check) : schema :=
  fun input =>
    match ToNumber StringToNumber input with
    | NaN => Normal (Invalid [raise invalid_type None])
    | n => Normal (Parsed (VNumber n) (flat_map (run_number_check n) checks))
    end.

(** ** z.enum([...]) *)

Definition z_enum (options : list jsstring) : schema :=
  fun input =>
    match input with
    | VString s =>
        if existsb (jsstring_eqb s) options
        then Normal (Parsed input [])
        else Normal (Invalid [raise invalid_enum_value None])
    | _ => Normal (wrong_type None input)
    end.

(** ** z.date() *)

Definition z_date (required_error : option string) : schema :=
  fun input =>
    match input with
    | VDate (Some t) => Normal (Parsed (VDate (Some t)) [])
    | VDate None => Normal (Invalid [raise invalid_date None])
    | _ => Normal (wrong_type required_error input)
    end.

(** ** z.boolean() and .default(v) *)

Definition z_boolean : schema :=
  fun input =>
    match input with
    | VBoolean _ => Normal (Parsed input [])
    | _ => Normal (wrong_type None input)
    end.

Definition default (inner : schema) (d : value) : schema :=
  fun input =>
    match input with
    | VUndefined => inner d
    | _ => inner input
    end.

(** ** .refine(check, { message })

    zod wraps the check as
    [_refinement((val, ctx) => { const result = check(val); ... })]: the
    check is called with the parsed value as its only argument, and only
    when the inner schema did not abort.  A falsy result adds a [custom]
    issue; what the check throws is not caught. *)
Definition refine (inner : schema) (check : list value -> completion bool)
  (msg : option string) : schema :=
  fun input =>
    r <- inner input ;;
    match r with
    | Invalid issues => Normal (Invalid issues)
    | Parsed v issues =>
        ok <- check [v] ;;
        Normal (Parsed v (issues ++ if ok then [] else [raise custom msg]))
    end.

(** ** z.object({...}) *)

Definition at_key (key : string) (i : issue) : issue :=
  mkIssue (key :: path i) (code i) (message i).

Fixpoint has_key (props : list (string * value)) (key : string) : bool :=
  match props with
  | [] => false
  | (k, _) :: rest => String.eqb k key || has_key rest key
  end.

(** The fields are parsed in the order of the shape.  Every field is parsed
    even after another one failed; the issues add up; a throw ends the parse.
    The result is INVALID as soon as one field is, and the output holds the
    keys of the shape only (unknown keys are stripped), a key being set when
    it is in the input or its parsed value is not [undefined]. *)
Fixpoint parse_shape (shape : list (string * schema))
  (data : list (string * value))
  : completion (option (list (string * value)) * list issue) :=
  match shape with
  | [] => Normal (Some [], [])
  | (key, s) :: rest =>
      r <- s (lookup data key) ;;
      tl <- parse_shape rest data ;;
      let here := map (at_key key) (issues_of r) in
      match r, fst tl with
      | Parsed v _, Some out =>
          let set :=
            match v with
            | VUndefined => has_key data key
            | _ => true
            end in
          Normal (Some (if set then (key, v) :: out else out), here ++ snd tl)
      | _, _ => Normal (None, here ++ snd tl)
      end
  end.

Definition z_object (shape : list (string * schema)) : schema :=
  fun input =>
    match input with
    | VObject data =>
        r <- parse_shape shape data ;;
        match r with
        | (Some out, issues) => Normal (Parsed (VObject out) issues)
        | (None, issues) => Normal (Invalid issues)
        end
    | _ => Normal (wrong_type None input)
    end.

(** ** zodResolver(schema)

    The resolver of react-hook-form: the parsed values when the parse
    raised no issue, the issues as field errors otherwise.  Only a ZodError
    is turned into field errors; any other throw is rethrown. *)
Inductive resolved :=
| Values (values : value)
| Errors (errors : list issue).

Definition zodResolver (s : schema) (fieldValues : value)
  : completion resolved :=
  r <- s fieldValues ;;
  match r with
  | Parsed v [] => Normal (Values v)
  | Parsed _ issues => Normal (Errors issues)
  | Invalid issues => Normal (Errors issues)
  end.

Definition has_error (key : string) (errors : list issue) : bool :=
  existsb (fun i => match path i with
                    | k :: _ => String.eqb k key
                    | [] => false
                    end) errors.

End Zod.


(* ================================================================== *)
(** * Effects of a form component *)
(* ================================================================== *)

Module Effects.

Inductive toast_variant :=
| plain
| destructive.

(** The argument of [toast({ variant, title, description })]. *)
Record toast_props := mkToast {
  variant : toast_variant;
  title : string;
  description : string
}.

(** Modelled from the spec: the result of the gateway functions
    [savePeriod] and [saveProfessor] of [lib/data-service], which is not
    among the sources.  The specification has them return "a discriminated
    result: success, or failure carrying a human-readable reason"; the
    handlers read [result.success] and [result.error]. *)
Record result := mkResult {
  success : bool;
  error : option string
}.

(** The calls a handler makes to its surroundings, in the order made. *)
Inductive event :=
| SetIsSubmitting (b : bool)
| Gateway (payload : value)
| ToastShown (t : toast_props)
| OnSubmit (values : value)
| FormReset
| OnClose
| ConsoleError (label : string) (error : exn).

(** The state of one form instance: the [isSubmitting] state variable, the
    field mapping and the field errors kept by [useForm], and the calls made
    so far. *)
Record world := mkWorld {
  isSubmitting : bool;
  fieldValues : value;
  errors : list Zod.issue;
  trace : list event
}.

Definition log (e : event) (w : world) : world :=
  mkWorld (isSubmitting w) (fieldValues w) (errors w) (trace w ++ [e]).

(** How the promise of a gateway call settles. *)
Inductive settlement :=
| Resolved (r : result)
| Rejected (e : exn).

(** An async function either has completed, or is suspended at an [await]
    and goes on, from the state of that later moment, when the promise
    settles. *)
Inductive proc (A : Type) :=
| Ret (w : world) (c : completion A)
| Await (w : world) (k : settlement -> world -> proc A).

Definition M (A : Type) := world -> proc A.

Definition ret {A} (a : A) : M A := fun w => Ret w (Normal a).

Fixpoint bind_proc {A B} (p : proc A) (f : A -> M B) : proc B :=
  match p with
  | Ret w (Normal a) => f a w
  | Ret w (Throw e) => Ret w (Throw e)
  | Await w k => Await w (fun s w' => bind_proc (k s w') f)
  end.

Definition bind {A B} (m : M A) (f : A -> M B) : M B :=
  fun w => bind_proc (m w) f.

(** [try { body } catch (error) { handler }] *)
Fixpoint catch_proc {A} (p : proc A) (handler : exn -> M A) : proc A :=
  match p with
  | Ret w (Normal a) => Ret w (Normal a)
  | Ret w (Throw e) => handler e w
  | Await w k => Await w (fun s w' => catch_proc (k s w') handler)
  end.

Definition try_catch {A} (body : M A) (handler : exn -> M A) : M A :=
  fun w => catch_proc (body w) handler.

(** [try { body } finally { finalizer }]: the finalizer runs however the
    body completes, and the completion of the body stands unless the
    finalizer throws. *)
Fixpoint finally_proc {A} (p : proc A) (finalizer : M unit) : proc A :=
  match p with
  | Ret w c => bind_proc (finalizer w) (fun _ w' => Ret w' c)
  | Await w k => Await w (fun s w' => finally_proc (k s w') finalizer)
  end.

Definition try_finally {A} (body : M A) (finalizer : M unit) : M A :=
  fun w => finally_proc (body w) finalizer.

Definition emit (e : event) : M unit := fun w => Ret (log e w) (Normal tt).

(** [setIsSubmitting(b)] *)
Definition setIsSubmitting (b : bool) : M unit :=
  fun w =>
    Ret (mkWorld b (fieldValues w) (errors w) (trace w ++ [SetIsSubmitting b]))
        (Normal tt).

(** The callbacks [toast] (of [useToast]), [onSubmit] and [onClose] (props)
    and [console.error] are calls that return normally. *)
Definition toast (t : toast_props) : M unit := emit (ToastShown t).
Definition onSubmit (values : value) : M unit := emit (OnSubmit values).
Definition onClose : M unit := emit OnClose.
Definition console_error (label : string) (error : exn) : M unit :=
  emit (ConsoleError label error).

(** [form.reset()]: the field mapping goes back to the default values of
    [useForm] and the field errors are cleared. *)
Definition form_reset (defaultValues : value) : M unit :=
  fun w =>
    Ret (mkWorld (isSubmitting w) defaultValues [] (trace w ++ [FormReset]))
        (Normal tt).

(** The promise a gateway call hands back. *)
Inductive promise := Pending.

(** Modelled from the spec: a call of [savePeriod] or [saveProfessor] of
    [lib/data-service], "a single asynchronous operation" that may also
    fault synchronously: the call throws at once, or hands back a promise.
    [throws] is that synchronous behaviour, given the calls made so far and
    the payload; how the promise settles is an event of the dialog. *)
Definition call_gateway (throws : list event -> value -> option exn)
  (payload : value) : M promise :=
  fun w =>
    match throws (trace w) payload with
    | Some e => Ret (log (Gateway payload) w) (Throw e)
    | None => Ret (log (Gateway payload) w) (Normal Pending)
    end.

(** [await promise] *)
Definition await (p : promise) : M result :=
  fun w =>
    Await w (fun s w' =>
      match s with
      | Resolved r => Ret w' (Normal r)
      | Rejected e => Ret w' (Throw e)
      end).

(** Where a handler stands: suspended at its [await] or completed, the
    state it left, and how a suspended handler goes on when the promise
    settles with [s] while the form is in state [w']. *)
Definition is_suspended {A} (p : proc A) : bool :=
  match p with
  | Await _ _ => true
  | Ret _ _ => false
  end.

Definition state_of {A} (p : proc A) : world :=
  match p with
  | Await w _ => w
  | Ret w _ => w
  end.

Definition resume {A} (p : proc A) (s : settlement) (w' : world) : proc A :=
  match p with
  | Await _ k => k s w'
  | Ret _ _ => p
  end.

End Effects.

Declare Scope fx_scope.
Delimit Scope fx_scope with fx.
Notation "x <- m ;; k" := (Effects.bind m (fun x => k))
(at level 61, m at next level, right associativity) : fx_scope.
Notation "m ;; k" := (Effects.bind m (fun _ => k))
(at level 61, right associativity) : fx_scope.


(* ================================================================== *)
(** * The dialog around a form *)
(* ================================================================== *)

(** Both components render the same dialog:
    [<Dialog open={isOpen} onOpenChange={onClose}>] around
    [<form onSubmit={form.handleSubmit(handleSubmit)}>] with a footer of two
    buttons, Cancel ([onClick={onClose}]) and submit, both
    [disabled={isSubmitting}].  The state variable is read as it stands when
    an event is dispatched: a state update is rendered before the next
    event. *)

Module Dialog.

Import Effects.

(** What can happen to an open dialog: a click on the submit button (or
    the implicit submission of the form, which goes through that button), a
    click on Cancel, a request of the dialog itself to close (Escape, a
    click outside), a change of a field, and the settlement of the promise
    of the i-th gateway call in flight. *)
Inductive ui_event :=
| ClickSubmit
| ClickCancel
| OpenChange
| Change (name : string) (v : value)
| Settle (i : nat) (s : settlement).

(** A form instance: its state and the handlers suspended at their [await],
    one per gateway call in flight. *)
Record instance := mkInstance {
  state : world;
  in_flight : list (settlement -> world -> proc unit)
}.

Definition initial (defaultValues : value) : instance :=
  mkInstance (mkWorld false defaultValues [] []) [].

(** A handler that ran as far as it could: its state is kept, and a
    suspended handler joins the calls in flight.  How it completed is
    dropped (a throw out of [handleSubmit] is an unhandled rejection). *)
Definition settle_in (p : proc unit)
  (others : list (settlement -> world -> proc unit)) : instance :=
  match p with
  | Ret w _ => mkInstance w others
  | Await w k => mkInstance w (others ++ [k])
  end.

Fixpoint set_prop (props : list (string * value)) (key : string) (v : value)
  : list (string * value) :=
  match props with
  | [] => [(key, v)]
  | (k, x) :: rest =>
      if String.eqb k key then (k, v) :: rest
      else (k, x) :: set_prop rest key v
  end.

Definition change (name : string) (v : value) (w : world) : world :=
  match fieldValues w with
  | VObject props =>
      mkWorld (isSubmitting w) (VObject (set_prop props name v)) (errors w)
              (trace w)
  | _ => w
  end.

Fixpoint remove_nth {A} (i : nat) (l : list A) : list A :=
  match i, l with
  | _, [] => []
  | O, _ :: rest => rest
  | S j, x :: rest => x :: remove_nth j rest
  end.

Section Form.

Variable formSchema : Zod.schema.
Variable handleSubmit : value -> M unit.

(** [form.handleSubmit(handleSubmit)]: the resolver runs on the field
    mapping; with no field error the handler is called with the parsed
    values, otherwise the errors are stored and the handler is not called.
    A throw of the resolver rejects the submission and nothing else happens. *)
Definition submit (s : instance) : instance :=
  match Zod.zodResolver formSchema (fieldValues (state s)) with
  | Throw _ => s
  | Normal (Zod.Errors errs) =>
      let w := state s in
      mkInstance (mkWorld (isSubmitting w) (fieldValues w) errs (trace w))
                 (in_flight s)
  | Normal (Zod.Values values) =>
      let w := state s in
      settle_in
        (handleSubmit values
           (mkWorld (isSubmitting w) (fieldValues w) [] (trace w)))
        (in_flight s)
  end.

(** Modelled from the spec: the [Button] and [Dialog] components of
    [components/ui] are not among the sources.  A button with
    [disabled={isSubmitting}] does nothing while the flag is set ("while
    Submitting, the submit and cancel actions are disabled"); the dialog
    calls [onOpenChange], which is [onClose], whenever it asks to close. *)
Definition step (s : instance) (e : ui_event) : instance :=
  match e with
  | ClickSubmit =>
      if isSubmitting (state s) then s else submit s
  | ClickCancel =>
      if isSubmitting (state s) then s
      else mkInstance (log OnClose (state s)) (in_flight s)
  | OpenChange =>
      mkInstance (log OnClose (state s)) (in_flight s)
  | Change name v =>
      mkInstance (change name v (state s)) (in_flight s)
  | Settle i r =>
      match nth_error (in_flight s) i with
      | Some k => settle_in (k r (state s)) (remove_nth i (in_flight s))
      | None => s
      end
  end.

Definition run (s : instance) (es : list ui_event) : instance :=
  fold_left step es s.

End Form.

(** The gateway calls made so far. *)
Definition gateway_calls (t : list event) : nat :=
  List.length (filter (fun e => match e with
                                | Gateway _ => true
                                | _ => false
                                end) t).

(** Single flight: while [isSubmitting] is set exactly one handler is
    suspended, and it clears the flag and completes when its promise
    settles; while the flag is clear no handler is suspended. *)
Definition clears_flag (k : settlement -> world -> proc unit) : Prop :=
  forall r w', exists w'' c, k r w' = Ret w'' c /\ isSubmitting w'' = false.

Definition single_flight (s : instance) : Prop :=
  if isSubmitting (state s)
  then exists k, in_flight s = [k] /\ clears_flag k
  else in_flight s = [].

End Dialog.


(* ================================================================== *)
(** * PeriodForm *)
(* ================================================================== *)

Module PeriodForm.

Import Zod Effects.
Local Open Scope string_scope.

Section Schema.

Variable StringToNumber : jsstring -> number.

(** The check of [endDate]:
    [(date, ctx) => { const startDate = ctx.parent.startDate;
                      return date > startDate }] *)
Definition endDate_check (args : list value) : completion bool :=
  let date := arg 0 args in
  let ctx := arg 1 args in
  (parent <- get_prop ctx "parent" ;;
   startDate <- get_prop parent "startDate" ;;
   Normal (js_gt StringToNumber date startDate))%js.

(** The check of [enrollmentEndDate], on [ctx.parent.enrollmentStartDate]. *)
Definition enrollmentEndDate_check (args : list value) : completion bool :=
  let date := arg 0 args in
  let ctx := arg 1 args in
  (parent <- get_prop ctx "parent" ;;
   startDate <- get_prop parent "enrollmentStartDate" ;;
   Normal (js_gt StringToNumber date startDate))%js.

Definition id_schema : schema :=
  z_string None [min 1 (Some "El ID es obligatorio.")].

Definition name_schema : schema :=
  z_string None [min 3 (Some "El nombre debe tener al menos 3 caracteres.")].

Definition year_schema : schema :=
  z_coerce_number StringToNumber [nmin 2000; nmax 2100].

Definition trimester_schema : schema :=
  z_enum [lit "1"; lit "2"; lit "3"].

Definition startDate_schema : schema :=
  z_date (Some "La fecha de inicio es obligatoria.").

Definition endDate_schema : schema :=
  refine (z_date (Some "La fecha de fin es obligatoria."))
    endDate_check
    (Some "La fecha de fin debe ser posterior a la fecha de inicio.").

Definition enrollmentStartDate_schema : schema :=
  z_date (Some "La fecha de inicio de inscripciones es obligatoria.").

Definition enrollmentEndDate_schema : schema :=
  refine (z_date (Some "La fecha de fin de inscripciones es obligatoria."))
    enrollmentEndDate_check
    (Some "La fecha de fin de inscripciones debe ser posterior a la fecha de inicio.").

Definition isActive_schema : schema :=
  default z_boolean (VBoolean false).

(** [z.object({ id: ..., name: ..., ... })] *)
Definition shape : list (string * schema) :=
  [ ("id", id_schema);
    ("name", name_schema);
    ("year", year_schema);
    ("trimester", trimester_schema);
    ("startDate", startDate_schema);
    ("endDate", endDate_schema);
    ("enrollmentStartDate", enrollmentStartDate_schema);
    ("enrollmentEndDate", enrollmentEndDate_schema);
    ("isActive", isActive_schema) ].

Definition formSchema : schema := z_object shape.

End Schema.

(** What [new Date()] gives when the component mounts: the year, and the
    time values of today, of today with the month advanced by three, and of
    today with the day of the month moved back by 14 and by 7. *)
Record clock := mkClock {
  fullYear : Z;
  today : Z;
  three_months_on : Z;
  fourteen_days_back : Z;
  seven_days_back : Z
}.

(** [defaultValues: initialData || { ... }] *)
Definition defaultValues (initialData : option value) (c : clock) : value :=
  match initialData with
  | Some data => data
  | None =>
      VObject
        [ ("id", VString (lit ""));
          ("name", VString (lit ""));
          ("year", VNumber (of_Z (fullYear c)));
          ("trimester", VString (lit "1"));
          ("startDate", VDate (Some (today c)));
          ("endDate", VDate (Some (three_months_on c)));
          ("enrollmentStartDate", VDate (Some (fourteen_days_back c)));
          ("enrollmentEndDate", VDate (Some (seven_days_back c)));
          ("isActive", VBoolean false) ]
  end.

Section Component.

Variable initialData : option value.
(** What [new Date()] gave when the form was mounted. *)
Variable mounted : clock.
Variable savePeriod_throws : list event -> value -> option exn.

Definition savePeriod : value -> M promise := call_gateway savePeriod_throws.

(** [values.key], inside the [try] block. *)
Definition read (o : value) (key : string) : M value :=
  fun w => Ret w (get_prop o key).

Definition handleSubmit (values : value) : M unit :=
  (setIsSubmitting true ;;
   try_finally
     (try_catch
        (code <- read values "id" ;;
         name <- read values "name" ;;
         year <- read values "year" ;;
         trimester <- read values "trimester" ;;
         startDate <- read values "startDate" ;;
         endDate <- read values "endDate" ;;
         enrollmentStartDate <- read values "enrollmentStartDate" ;;
         enrollmentEndDate <- read values "enrollmentEndDate" ;;
         isActive <- read values "isActive" ;;
         p <- savePeriod
                (VObject
                   [ ("code", code);
                     ("name", name);
                     ("year", year);
                     ("trimester", trimester);
                     ("startDate", startDate);
                     ("endDate", endDate);
                     ("enrollmentStartDate", enrollmentStartDate);
                     ("enrollmentEndDate", enrollmentEndDate);
                     ("isActive", isActive) ]) ;;
         result <- await p ;;
         if success result then
           toast (mkToast plain
                    (if given initialData then "Período actualizado"
                     else "Período registrado")
                    (if given initialData
                     then "Los datos del período han sido actualizados correctamente."
                     else "El período ha sido registrado correctamente.")) ;;
           onSubmit values ;;
           form_reset (defaultValues initialData mounted) ;;
           onClose
         else
           toast (mkToast destructive "Error"
                    (or_else (error result)
                       "No se pudo guardar los datos del período.")))
        (fun error =>
           console_error "Error al guardar período:" error ;;
           toast (mkToast destructive "Error"
                    "Ocurrió un error al procesar la solicitud.")))
     (setIsSubmitting false))%fx.

End Component.

End PeriodForm.


(* ================================================================== *)
(** * ProfessorForm *)
(* ================================================================== *)

Module ProfessorForm.

Import Zod Effects.
Local Open Scope string_scope.

(** [/^[VE]-\d{7,8}$/] *)
Definition V_or_E (c : code_unit) : bool := (c =? 86)%N || (c =? 69)%N.
Definition dash (c : code_unit) : bool := (c =? 45)%N.
Definition digit (c : code_unit) : bool := (48 <=? c)%N && (c <=? 57)%N.

Definition cedula_regex : RegExp.regex :=
  RegExp.Seq (RegExp.Class V_or_E)
    (RegExp.Seq (RegExp.Class dash)
       (RegExp.Quant 7 1 (RegExp.Class digit))).

Section Schema.

(** The pattern behind [.email()], which differs between zod releases. *)
Variable emailRegex : jsstring -> bool.

Definition id_schema : schema :=
  z_string None [min 2 (Some "El ID debe tener al menos 2 caracteres.")].

Definition firstName_schema : schema :=
  z_string None [min 2 (Some "El nombre debe tener al menos 2 caracteres.")].

Definition lastName_schema : schema :=
  z_string None [min 2 (Some "El apellido debe tener al menos 2 caracteres.")].

Definition cedula_schema : schema :=
  z_string None
    [regex cedula_regex
       (Some "La cédula debe tener el formato V-1234567 o E-1234567.")].

Definition department_schema : schema :=
  z_string (Some "Por favor seleccione un departamento.") [].

Definition education_schema : schema :=
  z_string None
    [min 2 (Some "El grado académico debe tener al menos 2 caracteres.")].

Definition specialization_schema : schema :=
  z_string None
    [min 2 (Some "La especialización debe tener al menos 2 caracteres.")].

Definition email_schema : schema :=
  z_string None [email emailRegex (Some "Correo electrónico inválido.")].

Definition phone_schema : schema :=
  z_string None [min 10 (Some "Número de teléfono inválido.")].

Definition hireDateMonth_schema : schema := z_string None [].

Definition hireDateYear_schema : schema := z_string None [].

Definition contractType_schema : schema :=
  z_enum [lit "tiempo_completo"; lit "tiempo_parcial"; lit "por_hora"].

(** The third option is "sabático"; its fourth letter is the code unit 225. *)
Definition status_schema : schema :=
  z_enum [lit "activo"; lit "inactivo";
          (lit "sab" ++ [225%N] ++ lit "tico")%list; lit "permiso"].

(** [z.object({ id: ..., firstName: ..., ... })] *)
Definition shape : list (string * schema) :=
  [ ("id", id_schema);
    ("firstName", firstName_schema);
    ("lastName", lastName_schema);
    ("cedula", cedula_schema);
    ("department", department_schema);
    ("education", education_schema);
    ("specialization", specialization_schema);
    ("email", email_schema);
    ("phone", phone_schema);
    ("hireDateMonth", hireDateMonth_schema);
    ("hireDateYear", hireDateYear_schema);
    ("contractType", contractType_schema);
    ("status", status_schema) ].

Definition formSchema : schema := z_object shape.

End Schema.

(** [n.toString()] on an integer. *)
Definition toString (n : Z) : jsstring :=
  lit (DecimalString.NilZero.string_of_int (Z.to_int n)).

(** What [new Date()] gives when the component mounts: the month (0 to 11)
    and the year. *)
Record clock := mkClock {
  month : Z;
  fullYear : Z
}.

(** [defaultValues: initialData || { ... }] *)
Definition defaultValues (initialData : option value) (c : clock) : value :=
  match initialData with
  | Some data => data
  | None =>
      VObject
        [ ("id", VString (lit ""));
          ("firstName", VString (lit ""));
          ("lastName", VString (lit ""));
          ("cedula", VString (lit ""));
          ("department", VString (lit ""));
          ("education", VString (lit ""));
          ("specialization", VString (lit ""));
          ("email", VString (lit ""));
          ("phone", VString (lit ""));
          ("hireDateMonth", VString (toString (month c)));
          ("hireDateYear", VString (toString (fullYear c)));
          ("contractType", VString (lit "tiempo_completo"));
          ("status", VString (lit "activo")) ]
  end.

(** The values the two hire-date selects offer: the indexes of the twelve
    month names, and
    [Array.from({ length: currentYear - 1990 + 1 },
                (_, i) => (currentYear - i).toString())]. *)
Definition months : list string :=
  [ "Enero"; "Febrero"; "Marzo"; "Abril"; "Mayo"; "Junio"; "Julio";
    "Agosto"; "Septiembre"; "Octubre"; "Noviembre"; "Diciembre" ].

Definition month_options : list jsstring :=
  map (fun index => toString (Z.of_nat index)) (seq 0 (List.length months)).

Definition years (currentYear : Z) : list jsstring :=
  map (fun i => toString (currentYear - Z.of_nat i))
      (seq 0 (Z.to_nat (currentYear - 1990 + 1))).

Section Component.

Variable initialData : option value.
(** What [new Date()] gave when the form was mounted. *)
Variable mounted : clock.
Variable saveProfessor_throws : list event -> value -> option exn.

Definition saveProfessor : value -> M promise :=
  call_gateway saveProfessor_throws.

Definition handleSubmit (values : value) : M unit :=
  (setIsSubmitting true ;;
   try_finally
     (try_catch
        (p <- saveProfessor values ;;
         result <- await p ;;
         if success result then
           toast (mkToast plain
                    (if given initialData then "Profesor actualizado"
                     else "Profesor registrado")
                    (if given initialData
                     then "Los datos del profesor han sido actualizados correctamente."
                     else "El profesor ha sido registrado correctamente.")) ;;
           onSubmit values ;;
           form_reset (defaultValues initialData mounted) ;;
           onClose
         else
           toast (mkToast destructive "Error"
                    (or_else (error result)
                       "No se pudo guardar los datos del profesor.")))
        (fun error =>
           console_error "Error al guardar profesor:" error ;;
           toast (mkToast destructive "Error"
                    "Ocurrió un error al procesar la solicitud.")))
     (setIsSubmitting false))%fx.

End Component.

End ProfessorForm.


(* ================================================================== *)
(** * The constraints as the specification words them *)
(* ================================================================== *)

Module Stated.

Local Open Scope string_scope.
Local Open Scope list_scope.

Definition is_char (a : ascii) (c : code_unit) : bool :=
  (c =? N_of_ascii a)%N.

Definition is_decimal_digit (c : code_unit) : bool :=
  existsb (N.eqb c) (lit "0123456789").

(** The cedula format: the letter V or E, a dash, then 7 to 8 digits. *)
Definition cedula_format (s : jsstring) : bool :=
  match s with
  | letter :: sep :: digits =>
      (is_char "V" letter || is_char "E" letter)
      && is_char "-" sep
      && forallb is_decimal_digit digits
      && (7 <=? List.length digits)%nat
      && (List.length digits <=? 8)%nat
  | _ => false
  end.

(** White space and line terminators of the language, as [trim] strips
    them. *)
Definition is_whitespace (c : code_unit) : bool :=
  existsb (N.eqb c)
    [9; 10; 11; 12; 13; 32; 160; 5760; 8192; 8193; 8194; 8195; 8196; 8197;
     8198; 8199; 8200; 8201; 8202; 8232; 8233; 8239; 8287; 12288; 65279]%N.

(** The fields declared with a minimum length, and that length. *)
Definition period_min_lengths : list (string * nat) :=
  [ ("id", 1); ("name", 3) ]%nat.

Definition professor_min_lengths : list (string * nat) :=
  [ ("id", 2); ("firstName", 2); ("lastName", 2); ("education", 2);
    ("specialization", 2); ("phone", 10) ]%nat.

(** The fields of the object handed to the period gateway, each with the
    validated field it carries: [id] goes out as [code], the others keep
    their names. *)
Definition period_gateway_fields : list (string * string) :=
  [ ("code", "id"); ("name", "name"); ("year", "year");
    ("trimester", "trimester"); ("startDate", "startDate");
    ("endDate", "endDate"); ("enrollmentStartDate", "enrollmentStartDate");
    ("enrollmentEndDate", "enrollmentEndDate"); ("isActive", "isActive") ].

Definition period_payload (props : list (string * value)) : value :=
  VObject (map (fun f => (fst f, lookup props (snd f))) period_gateway_fields).

(** The year range. *)
Definition year_in_range (n : number) : bool :=
  match n with
  | Finite q => Qle_bool (inject_Z 2000) q && Qle_bool q (inject_Z 2100)
  | _ => false
  end.

End Stated.


(* ================================================================== *)
(** * Sample inputs *)
(* ================================================================== *)

Module Samples.

Local Open Scope string_scope.
Local Open Scope list_scope.

(** The period of the specification's scenario, with the end date left
    open: 2024-01-01 is 1704067200000, 2024-04-01 is 1711929600000,
    2023-12-15 is 1702598400000 and 2023-12-22 is 1703203200000. *)
Definition period_fields (id : string) (endDate : Z)
  : list (string * value) :=
  [ ("id", VString (lit id));
    ("name", VString (lit "Trimester I 2024"));
    ("year", VNumber (of_Z 2024));
    ("trimester", VString (lit "1"));
    ("startDate", VDate (Some 1704067200000%Z));
    ("endDate", VDate (Some endDate));
    ("enrollmentStartDate", VDate (Some 1702598400000%Z));
    ("enrollmentEndDate", VDate (Some 1703203200000%Z));
    ("isActive", VBoolean false) ].

Definition period : value :=
  VObject (period_fields "2024-T1" 1711929600000%Z).

Definition professor_fields (id cedula month year : string)
  : list (string * value) :=
  [ ("id", VString (lit id));
    ("firstName", VString (lit "Ana"));
    ("lastName", VString (lit "Rojas"));
    ("cedula", VString (lit cedula));
    ("department", VString (lit "informatica"));
    ("education", VString (lit "Doctor"));
    ("specialization", VString (lit "Redes"));
    ("email", VString (lit "ana@uptma.edu"));
    ("phone", VString (lit "+58 412 1234567"));
    ("hireDateMonth", VString (lit month));
    ("hireDateYear", VString (lit year));
    ("contractType", VString (lit "tiempo_completo"));
    ("status", VString (lit "activo")) ].

Definition professor : value :=
  VObject (professor_fields "PROF-001" "V-12345678" "3" "2015").

(** A gateway whose calls always hand back a promise, and one whose calls
    always throw. *)
Definition returns_promise : list Effects.event -> value -> option exn :=
  fun _ _ => None.

Definition throws_at_call : list Effects.event -> value -> option exn :=
  fun _ _ => Some (Fault "offline").

(** Stand-ins for the two library functions the schemas are given. *)
Definition no_numeric_strings : jsstring -> number := fun _ => NaN.

Definition has_at_sign : jsstring -> bool := existsb (N.eqb 64).

Definition idle (fields : value) : Effects.world :=
  Effects.mkWorld false fields [] [].

(** A form of which a call is in flight. *)
Definition busy (fields : value) : Effects.world :=
  Effects.mkWorld true fields [] [Effects.SetIsSubmitting true].

(** The default values of the two forms opened to create an entity on
    2026-11-02 (1793577600000). *)
Definition period_clock : PeriodForm.clock :=
  PeriodForm.mkClock 2026 1793577600000 1801526400000 1792368000000
    1792972800000.

Definition professor_clock : ProfessorForm.clock :=
  ProfessorForm.mkClock 10 2026.

Definition period_defaults : value :=
  PeriodForm.defaultValues None period_clock.

Definition professor_defaults : value :=
  ProfessorForm.defaultValues None professor_clock.

End Samples.


(* ================================================================== *)
(** * The date pickers *)
(* ================================================================== *)

Module Widgets.

(** [a < b]: both sides to primitives; two strings compare by code units,
    anything else as numbers. *)
Definition js_lt (StringToNumber : jsstring -> number) (a b : value) : bool :=
  match ToPrimitive a, ToPrimitive b with
  | VString x, VString y => str_lt x y
  | pa, pb => num_lt (ToNumber StringToNumber pa) (ToNumber StringToNumber pb)
  end.

(** [new Date("2000-01-01")]: a date-only string is read as UTC midnight,
    946684800000 milliseconds after the epoch. *)
Definition first_day : value := VDate (Some 946684800000%Z).

(** The four calendars of the period form:
    [disabled={(date) => date < new Date("2000-01-01")}] *)
Definition calendar_disabled (StringToNumber : jsstring -> number)
  (date : value) : bool :=
  js_lt StringToNumber date first_day.

End Widgets.


(* ================================================================== *)
(** * Vocabulary for whole entities and whole attempts *)
(* ================================================================== *)

Module Entity.

(** The keys of a shape, in its order, and the fields of [data] under
    them. *)
Definition keys_of (shape : list (string * Zod.schema)) : list string :=
  map fst shape.

Definition fields_of (shape : list (string * Zod.schema))
  (data : list (string * value)) : list (string * value) :=
  map (fun key => (key, lookup data key)) (keys_of shape).

(** A schema that hands its input on unchanged, and accepts no missing
    value. *)
Definition keeps_input (s : Zod.schema) : Prop :=
  forall input out issues,
    s input = Normal (Zod.Parsed out issues) ->
    out = input /\ input <> VUndefined.

End Entity.

Module Course.

Import Effects.

(** The settlement of a promise, as opposed to what a user or the dialog
    does. *)
Definition is_settlement (e : Dialog.ui_event) : bool :=
  match e with
  | Dialog.Settle _ _ => true
  | _ => false
  end.

Definition no_settlement (es : list Dialog.ui_event) : bool :=
  forallb (fun e => negb (is_settlement e)) es.

(** Counting the calls of one kind among the calls made. *)
Definition count (kind : event -> bool) (t : list event) : nat :=
  List.length (filter kind t).

Definition is_gateway (e : event) : bool :=
  match e with
  | Gateway _ => true
  | _ => false
  end.

Definition is_onSubmit (e : event) : bool :=
  match e with
  | OnSubmit _ => true
  | _ => false
  end.

Definition is_reset (e : event) : bool :=
  match e with
  | FormReset => true
  | _ => false
  end.

(** What a handler adds when it goes on after its [await]: no gateway
    call, [onSubmit] at most once and [form.reset] as often, and the flag
    cleared at the end. *)
Definition completes_quietly (k : settlement -> world -> proc unit) : Prop :=
  forall r w', exists w'' c added,
    k r w' = Ret w'' c
    /\ isSubmitting w'' = false
    /\ trace w'' = trace w' ++ added
    /\ count is_gateway added = 0
    /\ count is_onSubmit added <= 1
    /\ count is_reset added = count is_onSubmit added.

(** Every [onSubmit] so far answers a gateway call of its own that is no
    longer in flight, and the form was reset as often as [onSubmit] was
    called. *)
Definition accounted (s : Dialog.instance) : Prop :=
  (if isSubmitting (Dialog.state s)
   then exists k, Dialog.in_flight s = [k] /\ completes_quietly k
   else Dialog.in_flight s = [])
  /\ count is_onSubmit (trace (Dialog.state s))
     + List.length (Dialog.in_flight s)
     <= count is_gateway (trace (Dialog.state s))
  /\ count is_reset (trace (Dialog.state s))
     = count is_onSubmit (trace (Dialog.state s)).

End Course.

(* ================================================================== *)
(** * Properties of the regular expression matcher *)
(* ================================================================== *)

Module RegExpFacts.

Import RegExp.

Lemma power_empty (L : jsstring -> Prop) (n : nat) :
  L [] -> power L n [].
Proof.
  intros H; induction n as [|n IH]; simpl; [reflexivity|].
  exists [], []; auto.
Qed.

Lemma power_of_empty (L : jsstring -> Prop) (n : nat) :
  power L (S n) [] -> L [].
Proof.
  simpl; intros (s1 & s2 & E & H1 & _).
  symmetry in E; apply app_eq_nil in E as [-> _]; exact H1.
Qed.

(** Empty repetitions can be added in front. *)
Lemma power_pad (L : jsstring -> Prop) (m n : nat) (s : jsstring) :
  L [] -> power L n s -> power L (m + n) s.
Proof.
  intros H0 H; induction m as [|m IH]; simpl; [exact H|].
  exists [], s; auto.
Qed.

(** The first non-empty repetition of a non-empty string. *)
Lemma power_head (L : jsstring -> Prop) (n : nat) (c : code_unit)
  (s : jsstring) :
  power L n (c :: s) ->
  exists s1 s2, s = s1 ++ s2 /\ L (c :: s1) /\ power L (Nat.pred n) s2.
Proof.
  induction n as [|n IH]; simpl; [discriminate|].
  intros (t1 & t2 & E & H1 & H2).
  destruct t1 as [|x t1]; simpl in E.
  - subst t2. destruct (IH H2) as (s1 & s2 & -> & Ha & Hb).
    exists s1, s2; repeat split; auto.
    destruct n as [|n]; [simpl in H2; discriminate|].
    simpl in Hb. change (power L (1 + n) s2). apply power_pad; auto.
  - injection E as -> ->. exists t1, t2; auto.
Qed.

Lemma nullable_matches (r : regex) :
  nullable r = true <-> matches r [].
Proof.
  induction r as [| |p|a IHa b IHb|a IHa b IHb|lo e a IHa]; simpl.
  - split; [discriminate|tauto].
  - split; auto.
  - split; [discriminate|]. intros (c & E & _); discriminate.
  - rewrite andb_true_iff, IHa, IHb. split.
    + intros [Ha Hb]; exists [], []; auto.
    + intros (s1 & s2 & E & Ha & Hb).
      symmetry in E; apply app_eq_nil in E as [-> ->]; auto.
  - rewrite orb_true_iff, IHa, IHb; tauto.
  - rewrite orb_true_iff, Nat.eqb_eq, IHa. split.
    + intros [->|Ha].
      * exists 0; simpl; split; [lia|reflexivity].
      * exists lo; split; [lia|]. apply power_empty; exact Ha.
    + intros (n & Hn & Hp). destruct lo as [|lo]; [left; reflexivity|].
      right. destruct n as [|n]; [lia|]. eapply power_of_empty; eauto.
Qed.

Lemma deriv_matches (r : regex) (c : code_unit) (s : jsstring) :
  matches (deriv r c) s <-> matches r (c :: s).
Proof.
  revert s; induction r as [| |p|a IHa b IHb|a IHa b IHb|lo e a IHa];
    intros s; simpl.
  - tauto.
  - split; [tauto|discriminate].
  - destruct (p c) eqn:Hp; simpl; split.
    + intros ->; exists c; auto.
    + intros (x & E & _); injection E as _ ->; reflexivity.
    + tauto.
    + intros (x & E & Hx); injection E as -> _; congruence.
  - assert (Hcons : (exists s1 s2, s = s1 ++ s2 /\
                       matches (deriv a c) s1 /\ matches b s2) ->
                    exists s1 s2, c :: s = s1 ++ s2 /\
                       matches a s1 /\ matches b s2).
    { intros (s1 & s2 & -> & Ha & Hb). exists (c :: s1), s2.
      repeat split; auto. apply IHa; exact Ha. }
    destruct (nullable a) eqn:Na; simpl; split.
    + intros [H|H]; [auto|].
      exists [], (c :: s); repeat split; auto.
      * apply nullable_matches; exact Na.
      * apply IHb; exact H.
    + intros (s1 & s2 & E & Ha & Hb). destruct s1 as [|x s1]; simpl in E.
      * right; apply IHb; subst s2; exact Hb.
      * injection E as -> ->. left; exists s1, s2; repeat split; auto.
        apply IHa; exact Ha.
    + exact Hcons.
    + intros (s1 & s2 & E & Ha & Hb). destruct s1 as [|x s1]; simpl in E.
      * apply nullable_matches in Ha; congruence.
      * injection E as -> ->. exists s1, s2; repeat split; auto.
        apply IHa; exact Ha.
  - rewrite IHa, IHb; tauto.
  - assert (Hback : forall lo' e' n', lo' <= n' <= lo' + e' ->
              S lo' >= lo -> S (lo' + e') <= lo + e ->
              forall s1 s2, s = s1 ++ s2 -> matches (deriv a c) s1 ->
              power (matches a) n' s2 ->
              exists n, lo <= n <= lo + e /\ power (matches a) n (c :: s)).
    { intros lo' e' n' Hn Hlo Hhi s1 s2 -> Ha Hp. exists (S n'); split; [lia|].
      simpl. exists (c :: s1), s2; repeat split; auto. apply IHa; exact Ha. }
    assert (Hforth : forall n, power (matches a) n (c :: s) ->
              exists s1 s2, s = s1 ++ s2 /\ matches (deriv a c) s1 /\
                            power (matches a) (Nat.pred n) s2).
    { intros n Hp. destruct (power_head _ _ _ _ Hp) as (s1 & s2 & E & Ha & Hb).
      exists s1, s2; repeat split; auto. apply IHa; exact Ha. }
    destruct lo as [|lo]; [destruct e as [|e]|]; simpl; split.
    + tauto.
    + intros (n & Hn & Hp). assert (n = 0) by lia; subst n.
      simpl in Hp; discriminate.
    + intros (s1 & s2 & E & Ha & n' & Hn & Hp).
      eapply (Hback 0 e n'); eauto; lia.
    + intros (n & Hn & Hp). destruct n as [|n]; [simpl in Hp; discriminate|].
      destruct (Hforth _ Hp) as (s1 & s2 & E & Ha & Hb).
      exists s1, s2; repeat split; auto. exists n; split; [lia|exact Hb].
    + intros (s1 & s2 & E & Ha & n' & Hn & Hp).
      eapply (Hback lo e n'); eauto; lia.
    + intros (n & Hn & Hp). destruct n as [|n]; [lia|].
      destruct (Hforth _ Hp) as (s1 & s2 & E & Ha & Hb).
      exists s1, s2; repeat split; auto. exists n; split; [lia|exact Hb].
Qed.

(** The matcher decides membership in the language of the pattern. *)
Lemma test_matches (r : regex) (s : jsstring) :
  test r s = true <-> matches r s.
Proof.
  revert r; induction s as [|c s IH]; intros r; simpl.
  - apply nullable_matches.
  - rewrite IH. apply deriv_matches.
Qed.

(** Repetitions of a character class: as many code units, all in the class. *)
Lemma power_class (p : code_unit -> bool) (n : nat) (s : jsstring) :
  power (matches (Class p)) n s <-> List.length s = n /\ forallb p s = true.
Proof.
  revert s; induction n as [|n IH]; intros s; simpl.
  - split.
    + intros ->; auto.
    + intros [H _]; destruct s; [reflexivity|discriminate].
  - split.
    + intros (s1 & s2 & -> & (c & -> & Hc) & Hp).
      apply IH in Hp as [Hl Hf]. simpl; rewrite Hc, Hf, Hl; auto.
    + intros [Hl Hf]. destruct s as [|c s]; [discriminate|].
      simpl in Hl, Hf. apply andb_true_iff in Hf as [Hc Hf].
      exists [c], s; repeat split; auto.
      * exists c; auto.
      * apply IH; split; [lia|exact Hf].
Qed.

End RegExpFacts.

(* ================================================================== *)
(** * Properties of the schemas *)
(* ================================================================== *)

Module ZodFacts.

Import Zod.
Local Open Scope string_scope.
Local Open Scope list_scope.

Lemma has_error_app (key : string) (l1 l2 : list issue) :
  has_error key (l1 ++ l2) = has_error key l1 || has_error key l2.
Proof. unfold has_error. apply existsb_app. Qed.

Lemma has_error_here (key : string) (l : list issue) :
  l <> [] -> has_error key (map (at_key key) l) = true.
Proof.
  destruct l as [|i l]; [congruence|]. intros _.
  unfold has_error; simpl. rewrite String.eqb_refl. reflexivity.
Qed.

Lemma has_error_elsewhere (key other : string) (l : list issue) :
  other <> key -> has_error key (map (at_key other) l) = false.
Proof.
  intros Hne. unfold has_error. induction l as [|i l IH]; simpl; [reflexivity|].
  rewrite IH. apply String.eqb_neq in Hne. rewrite Hne. reflexivity.
Qed.

(** A field whose schema raises issues leaves an error under its key. *)
Lemma parse_shape_reports (shape : list (string * schema))
  (data : list (string * value)) (key : string) (s : schema) (r : parsed) :
  In (key, s) shape ->
  s (lookup data key) = Normal r ->
  issues_of r <> [] ->
  forall out errs,
    parse_shape shape data = Normal (out, errs) ->
    has_error key errs = true.
Proof.
  intros Hin Hs Hne. induction shape as [|[k0 s0] rest IH]; [destruct Hin|].
  intros out errs. simpl.
  destruct (s0 (lookup data k0)) as [r0|e0] eqn:E0; simpl; [|discriminate].
  destruct (parse_shape rest data) as [[out' errs']|e1] eqn:E1; simpl;
    [|discriminate].
  intros H.
  assert (Herrs : errs = map (at_key k0) (issues_of r0) ++ errs').
  { destruct r0, out'; simpl in H; injection H as _ <-; reflexivity. }
  subst errs. rewrite has_error_app.
  destruct Hin as [Hhd|Htl].
  - injection Hhd as -> ->. rewrite E0 in Hs; injection Hs as ->.
    rewrite has_error_here by assumption. reflexivity.
  - rewrite (IH Htl _ _ eq_refl). apply orb_true_r.
Qed.

(** A field whose schema throws makes the whole parse throw. *)
Lemma parse_shape_throws (shape : list (string * schema))
  (data : list (string * value)) (key : string) (s : schema) (e : exn) :
  In (key, s) shape ->
  s (lookup data key) = Throw e ->
  exists e', parse_shape shape data = Throw e'.
Proof.
  intros Hin Hs. induction shape as [|[k0 s0] rest IH]; [destruct Hin|].
  simpl. destruct Hin as [Hhd|Htl].
  - injection Hhd as -> ->. rewrite Hs. simpl. eauto.
  - destruct (s0 (lookup data k0)) as [r0|e0]; simpl; [|eauto].
    destruct (IH Htl) as [e' ->]. simpl. eauto.
Qed.

(** Fields none of which throws make a parse that does not throw. *)
Lemma parse_shape_returns (shape : list (string * schema))
  (data : list (string * value)) :
  (forall key s, In (key, s) shape ->
     exists r, s (lookup data key) = Normal r) ->
  exists res, parse_shape shape data = Normal res.
Proof.
  induction shape as [|[k0 s0] rest IH]; intros Hall; simpl; [eauto|].
  destruct (Hall k0 s0 (or_introl eq_refl)) as [r0 ->].
  destruct IH as [[out errs] ->].
  { intros key s Hin. apply (Hall key s). right; exact Hin. }
  simpl. destruct r0, out; eauto.
Qed.

(** A key all of whose schemas are satisfied carries no error. *)
Lemma parse_shape_clean (shape : list (string * schema))
  (data : list (string * value)) (key : string) :
  (forall s, In (key, s) shape ->
     forall r, s (lookup data key) = Normal r -> issues_of r = []) ->
  forall out errs,
    parse_shape shape data = Normal (out, errs) ->
    has_error key errs = false.
Proof.
  induction shape as [|[k0 s0] rest IH]; intros Hok out errs; simpl.
  - intros H; injection H as _ <-. reflexivity.
  - destruct (s0 (lookup data k0)) as [r0|e0] eqn:E0; simpl; [|discriminate].
    destruct (parse_shape rest data) as [[out' errs']|e1] eqn:E1; simpl;
      [|discriminate].
    intros H.
    assert (Herrs : errs = map (at_key k0) (issues_of r0) ++ errs').
    { destruct r0, out'; simpl in H; injection H as _ <-; reflexivity. }
    subst errs. rewrite has_error_app.
    rewrite (IH (fun s Hin => Hok s (or_intror Hin)) _ _ eq_refl).
    rewrite orb_false_r.
    destruct (String.eqb_spec k0 key) as [->|Hne].
    + rewrite (Hok s0 (or_introl eq_refl) r0 E0). reflexivity.
    + apply has_error_elsewhere; exact Hne.
Qed.

(** What the resolver makes of an object parse. *)
Lemma resolver_of_object (shape : list (string * schema))
  (data : list (string * value)) (out : option (list (string * value)))
  (errs : list issue) :
  parse_shape shape data = Normal (out, errs) ->
  errs <> [] ->
  zodResolver (z_object shape) (VObject data) = Normal (Errors errs).
Proof.
  intros H Hne. unfold zodResolver, z_object. rewrite H. simpl.
  destruct out; simpl; [|reflexivity].
  destruct errs; [congruence|reflexivity].
Qed.

Lemma has_error_nonempty (key : string) (errs : list issue) :
  has_error key errs = true -> errs <> [].
Proof. intros H ->. discriminate. Qed.

(** A string shorter than the minimum raises that check's issue. *)
Lemma string_min_short (n : nat) (msg : option string) (s : jsstring) :
  List.length s < n ->
  z_string None [min n msg] (VString s) =
  Normal (Parsed (VString s) [raise too_small msg]).
Proof.
  intros H. unfold z_string; simpl.
  apply Nat.ltb_lt in H. rewrite H. reflexivity.
Qed.

Lemma z_string_returns (req : option string) (checks : list string_check)
  (v : value) : exists r, z_string req checks v = Normal r.
Proof. unfold z_string; destruct v; eauto. Qed.

Lemma z_enum_returns (options : list jsstring) (v : value) :
  exists r, z_enum options v = Normal r.
Proof.
  unfold z_enum; destruct v; eauto.
  destruct (existsb _ _); eauto.
Qed.

End ZodFacts.

(* ================================================================== *)
(** * The cedula pattern *)
(* ================================================================== *)

Module CedulaFacts.

Import Zod RegExp RegExpFacts ProfessorForm Stated.
Local Open Scope string_scope.
Local Open Scope list_scope.

Lemma V_or_E_stated (c : code_unit) :
  V_or_E c = is_char "V" c || is_char "E" c.
Proof. reflexivity. Qed.

Lemma dash_stated (c : code_unit) : dash c = is_char "-" c.
Proof. reflexivity. Qed.

Lemma digit_stated (c : code_unit) : digit c = is_decimal_digit c.
Proof.
  unfold digit, is_decimal_digit. cbn [lit list_ascii_of_string map existsb].
  change (N_of_ascii "0") with 48%N. change (N_of_ascii "1") with 49%N.
  change (N_of_ascii "2") with 50%N. change (N_of_ascii "3") with 51%N.
  change (N_of_ascii "4") with 52%N. change (N_of_ascii "5") with 53%N.
  change (N_of_ascii "6") with 54%N. change (N_of_ascii "7") with 55%N.
  change (N_of_ascii "8") with 56%N. change (N_of_ascii "9") with 57%N.
  destruct (N.leb_spec 48 c), (N.leb_spec c 57); simpl;
    repeat match goal with
           | |- context [N.eqb c ?k] => destruct (N.eqb_spec c k)
           end; simpl; try reflexivity; lia.
Qed.

Lemma forallb_digit_stated (s : jsstring) :
  forallb digit s = forallb is_decimal_digit s.
Proof.
  induction s as [|c s IH]; simpl; [reflexivity|].
  rewrite digit_stated, IH. reflexivity.
Qed.

(** The pattern of the source denotes the format as the specification
    words it. *)
Lemma cedula_regex_format (s : jsstring) :
  test cedula_regex s = cedula_format s.
Proof.
  apply eq_true_iff_eq. rewrite test_matches. unfold cedula_regex. simpl.
  split.
  - intros (s1 & s2 & -> & (l & -> & Hl) & t1 & t2 & -> & (d & -> & Hd)
            & n & Hn & Hp).
    apply power_class in Hp as [Hlen Hall]. simpl.
    rewrite <- V_or_E_stated, Hl, <- dash_stated, Hd.
    rewrite <- forallb_digit_stated, Hall, Hlen.
    assert (n = 7 \/ n = 8) as [-> | ->] by lia; reflexivity.
  - destruct s as [|l [|d ds]]; cbn [cedula_format]; try discriminate.
    rewrite !andb_true_iff, !Nat.leb_le.
    rewrite <- V_or_E_stated, <- dash_stated, <- forallb_digit_stated.
    intros [[[[Hl Hd] Hall] H7] H8].
    exists [l], (d :: ds); repeat split; [exists l; auto|].
    exists [d], ds; repeat split; [exists d; auto|].
    exists (List.length ds); split; [lia|]. apply power_class; auto.
Qed.

Lemma whitespace_not_letter (c : code_unit) :
  is_whitespace c = true -> is_char "V" c || is_char "E" c = false.
Proof.
  unfold is_whitespace, is_char. simpl existsb.
  change (N_of_ascii "V") with 86%N. change (N_of_ascii "E") with 69%N.
  intros H.
  destruct (N.eqb_spec c 86) as [->|_]; [discriminate|].
  destruct (N.eqb_spec c 69) as [->|_]; [discriminate|]. reflexivity.
Qed.

Lemma whitespace_not_digit (c : code_unit) :
  is_whitespace c = true -> is_decimal_digit c = false.
Proof.
  rewrite <- digit_stated. unfold is_whitespace, digit. simpl existsb.
  intros H.
  destruct (N.leb_spec 48 c), (N.leb_spec c 57); simpl; try reflexivity.
  repeat match type of H with
         | context [N.eqb c ?k] => destruct (N.eqb_spec c k); [lia|]
         end.
  discriminate.
Qed.

Lemma forallb_digit_padded (digits post : jsstring) :
  post <> [] -> forallb is_whitespace post = true ->
  forallb is_decimal_digit (digits ++ post) = false.
Proof.
  intros Hne Hws. rewrite forallb_app.
  destruct post as [|c post]; [congruence|]. simpl in *.
  apply andb_true_iff in Hws as [Hc _].
  rewrite (whitespace_not_digit _ Hc). simpl. apply andb_false_r.
Qed.

(** No white space is tolerated around a cedula. *)
Lemma cedula_format_padded (pre s post : jsstring) :
  cedula_format s = true ->
  forallb is_whitespace pre = true -> forallb is_whitespace post = true ->
  pre ++ post <> [] ->
  cedula_format (pre ++ s ++ post) = false.
Proof.
  intros Hs Hpre Hpost Hne.
  destruct pre as [|c pre].
  - simpl in *. destruct s as [|l [|d ds]]; try discriminate. simpl.
    rewrite (forallb_digit_padded ds Hne Hpost).
    rewrite andb_false_r. reflexivity.
  - simpl in Hpre. apply andb_true_iff in Hpre as [Hc _].
    simpl. destruct (pre ++ s ++ post); [reflexivity|].
    rewrite (whitespace_not_letter _ Hc). reflexivity.
Qed.

Lemma cedula_schema_format (s : jsstring) :
  cedula_schema (VString s) =
  Normal (Parsed (VString s)
            (if cedula_format s then []
             else [raise invalid_string
                     (Some "La cédula debe tener el formato V-1234567 o E-1234567.")])).
Proof.
  unfold cedula_schema, z_string. simpl.
  rewrite cedula_regex_format. destruct (cedula_format s); reflexivity.
Qed.

End CedulaFacts.

(* ================================================================== *)
(** * What the two handlers do *)
(* ================================================================== *)

Module HandlerFacts.

Import Effects.
Local Open Scope string_scope.
Local Open Scope list_scope.

Ltac run_handler :=
  cbv [Effects.bind try_finally try_catch setIsSubmitting bind_proc
       catch_proc finally_proc call_gateway await toast onSubmit onClose
       console_error form_reset emit log PeriodForm.read get_prop
       PeriodForm.savePeriod ProfessorForm.saveProfessor
       is_suspended state_of resume];
  cbn [isSubmitting fieldValues errors trace].

Ltac spell_payload :=
  unfold Stated.period_payload, Stated.period_gateway_fields in *;
  cbn [map fst snd] in *.

Ltac tidy_trace :=
  repeat (progress cbn [isSubmitting fieldValues errors trace app]
          || rewrite <- app_assoc).

Section Professor.

Variable initialData : option value.
Variable mounted : ProfessorForm.clock.
Variable throws : list event -> value -> option exn.

Lemma professor_suspended (values : value) (w : world) :
  is_suspended (ProfessorForm.handleSubmit initialData mounted throws values w) = true <->
  throws (trace w ++ [SetIsSubmitting true]) values = None.
Proof.
  unfold ProfessorForm.handleSubmit. run_handler.
  destruct (throws _ _); split; intros; congruence.
Qed.

Lemma professor_call_throws (values : value) (w : world) (e : exn) :
  throws (trace w ++ [SetIsSubmitting true]) values = Some e ->
  ProfessorForm.handleSubmit initialData mounted throws values w =
  Ret (mkWorld false (fieldValues w) (errors w)
         (trace w ++
          [ SetIsSubmitting true; Gateway values;
            ConsoleError "Error al guardar profesor:" e;
            ToastShown (mkToast destructive "Error"
                          "Ocurrió un error al procesar la solicitud.");
            SetIsSubmitting false ]))
      (Normal tt).
Proof.
  intros H. unfold ProfessorForm.handleSubmit. run_handler.
  rewrite H. tidy_trace. reflexivity.
Qed.

Lemma professor_call_pending (values : value) (w : world) :
  is_suspended (ProfessorForm.handleSubmit initialData mounted throws values w) = true ->
  state_of (ProfessorForm.handleSubmit initialData mounted throws values w) =
  mkWorld true (fieldValues w) (errors w)
    (trace w ++ [SetIsSubmitting true; Gateway values]).
Proof.
  unfold ProfessorForm.handleSubmit. run_handler.
  destruct (throws _ _); [discriminate|]. intros _. tidy_trace. reflexivity.
Qed.

Lemma professor_resolved_success (values : value) (w w' : world)
  (r : result) :
  is_suspended (ProfessorForm.handleSubmit initialData mounted throws values w) = true ->
  success r = true ->
  resume (ProfessorForm.handleSubmit initialData mounted throws values w) (Resolved r) w' =
  Ret (mkWorld false (ProfessorForm.defaultValues initialData mounted) []
         (trace w' ++
          [ ToastShown
              (mkToast plain
                 (if given initialData then "Profesor actualizado"
                  else "Profesor registrado")
                 (if given initialData
                  then "Los datos del profesor han sido actualizados correctamente."
                  else "El profesor ha sido registrado correctamente."));
            OnSubmit values; FormReset; OnClose; SetIsSubmitting false ]))
      (Normal tt).
Proof.
  unfold ProfessorForm.handleSubmit. run_handler.
  destruct (throws _ _); [discriminate|]. intros _ Hr. rewrite Hr.
  tidy_trace. reflexivity.
Qed.

Lemma professor_resolved_failure (values : value) (w w' : world)
  (r : result) :
  is_suspended (ProfessorForm.handleSubmit initialData mounted throws values w) = true ->
  success r = false ->
  resume (ProfessorForm.handleSubmit initialData mounted throws values w) (Resolved r) w' =
  Ret (mkWorld false (fieldValues w') (errors w')
         (trace w' ++
          [ ToastShown
              (mkToast destructive "Error"
                 (or_else (error r)
                    "No se pudo guardar los datos del profesor."));
            SetIsSubmitting false ]))
      (Normal tt).
Proof.
  unfold ProfessorForm.handleSubmit. run_handler.
  destruct (throws _ _); [discriminate|]. intros _ Hr. rewrite Hr.
  tidy_trace. reflexivity.
Qed.

Lemma professor_rejected (values : value) (w w' : world) (e : exn) :
  is_suspended (ProfessorForm.handleSubmit initialData mounted throws values w) = true ->
  resume (ProfessorForm.handleSubmit initialData mounted throws values w) (Rejected e) w' =
  Ret (mkWorld false (fieldValues w') (errors w')
         (trace w' ++
          [ ConsoleError "Error al guardar profesor:" e;
            ToastShown (mkToast destructive "Error"
                          "Ocurrió un error al procesar la solicitud.");
            SetIsSubmitting false ]))
      (Normal tt).
Proof.
  unfold ProfessorForm.handleSubmit. run_handler.
  destruct (throws _ _); [discriminate|]. intros _.
  tidy_trace. reflexivity.
Qed.

End Professor.

Section Period.

Variable initialData : option value.
Variable mounted : PeriodForm.clock.
Variable throws : list event -> value -> option exn.

Lemma period_suspended (props : list (string * value)) (w : world) :
  is_suspended (PeriodForm.handleSubmit initialData mounted throws (VObject props) w) = true <->
  throws (trace w ++ [SetIsSubmitting true]) (Stated.period_payload props) = None.
Proof.
  spell_payload. unfold PeriodForm.handleSubmit. run_handler.
  destruct (throws _ _); split; intros; congruence.
Qed.

Lemma period_call_throws (props : list (string * value)) (w : world)
  (e : exn) :
  throws (trace w ++ [SetIsSubmitting true]) (Stated.period_payload props) = Some e ->
  PeriodForm.handleSubmit initialData mounted throws (VObject props) w =
  Ret (mkWorld false (fieldValues w) (errors w)
         (trace w ++
          [ SetIsSubmitting true; Gateway (Stated.period_payload props);
            ConsoleError "Error al guardar período:" e;
            ToastShown (mkToast destructive "Error"
                          "Ocurrió un error al procesar la solicitud.");
            SetIsSubmitting false ]))
      (Normal tt).
Proof.
  intros H. spell_payload. unfold PeriodForm.handleSubmit. run_handler.
  rewrite H. tidy_trace. reflexivity.
Qed.

Lemma period_call_pending (props : list (string * value)) (w : world) :
  is_suspended (PeriodForm.handleSubmit initialData mounted throws (VObject props) w) = true ->
  state_of (PeriodForm.handleSubmit initialData mounted throws (VObject props) w) =
  mkWorld true (fieldValues w) (errors w)
    (trace w ++ [SetIsSubmitting true; Gateway (Stated.period_payload props)]).
Proof.
  spell_payload. unfold PeriodForm.handleSubmit. run_handler.
  destruct (throws _ _); [discriminate|]. intros _. tidy_trace. reflexivity.
Qed.

Lemma period_resolved_success (values : value) (w w' : world) (r : result) :
  is_suspended (PeriodForm.handleSubmit initialData mounted throws values w) = true ->
  success r = true ->
  resume (PeriodForm.handleSubmit initialData mounted throws values w) (Resolved r) w' =
  Ret (mkWorld false (PeriodForm.defaultValues initialData mounted) []
         (trace w' ++
          [ ToastShown
              (mkToast plain
                 (if given initialData then "Período actualizado"
                  else "Período registrado")
                 (if given initialData
                  then "Los datos del período han sido actualizados correctamente."
                  else "El período ha sido registrado correctamente."));
            OnSubmit values; FormReset; OnClose; SetIsSubmitting false ]))
      (Normal tt).
Proof.
  unfold PeriodForm.handleSubmit.
  destruct values; run_handler; try discriminate;
    (destruct (throws _ _); [discriminate|]); intros _ Hr; rewrite Hr;
    tidy_trace; reflexivity.
Qed.

Lemma period_resolved_failure (values : value) (w w' : world) (r : result) :
  is_suspended (PeriodForm.handleSubmit initialData mounted throws values w) = true ->
  success r = false ->
  resume (PeriodForm.handleSubmit initialData mounted throws values w) (Resolved r) w' =
  Ret (mkWorld false (fieldValues w') (errors w')
         (trace w' ++
          [ ToastShown
              (mkToast destructive "Error"
                 (or_else (error r)
                    "No se pudo guardar los datos del período."));
            SetIsSubmitting false ]))
      (Normal tt).
Proof.
  unfold PeriodForm.handleSubmit.
  destruct values; run_handler; try discriminate;
    (destruct (throws _ _); [discriminate|]); intros _ Hr; rewrite Hr;
    tidy_trace; reflexivity.
Qed.

Lemma period_rejected (values : value) (w w' : world) (e : exn) :
  is_suspended (PeriodForm.handleSubmit initialData mounted throws values w) = true ->
  resume (PeriodForm.handleSubmit initialData mounted throws values w) (Rejected e) w' =
  Ret (mkWorld false (fieldValues w') (errors w')
         (trace w' ++
          [ ConsoleError "Error al guardar período:" e;
            ToastShown (mkToast destructive "Error"
                          "Ocurrió un error al procesar la solicitud.");
            SetIsSubmitting false ]))
      (Normal tt).
Proof.
  unfold PeriodForm.handleSubmit.
  destruct values; run_handler; try discriminate;
    (destruct (throws _ _); [discriminate|]); intros _;
    tidy_trace; reflexivity.
Qed.

(** A handler that is not suspended has completed with the flag cleared
    last, whatever it was called with. *)
Lemma period_completed (values : value) (w : world) :
  is_suspended (PeriodForm.handleSubmit initialData mounted throws values w) = false ->
  exists t,
    PeriodForm.handleSubmit initialData mounted throws values w =
    Ret (mkWorld false (fieldValues w) (errors w) (t ++ [SetIsSubmitting false]))
        (Normal tt).
Proof.
  unfold PeriodForm.handleSubmit.
  destruct values; run_handler;
    try (destruct (throws _ _); [|discriminate]); intros _;
    tidy_trace;
    match goal with
    | |- exists t, Ret (mkWorld _ _ _ (?a ++ ?l)) _ = _ =>
        exists (a ++ removelast l)
    end; tidy_trace; reflexivity.
Qed.

End Period.

Section ProfessorCompleted.

Variable initialData : option value.
Variable mounted : ProfessorForm.clock.
Variable throws : list event -> value -> option exn.

Lemma professor_completed (values : value) (w : world) :
  is_suspended
    (ProfessorForm.handleSubmit initialData mounted throws values w) = false ->
  exists t,
    ProfessorForm.handleSubmit initialData mounted throws values w =
    Ret (mkWorld false (fieldValues w) (errors w) (t ++ [SetIsSubmitting false]))
        (Normal tt).
Proof.
  unfold ProfessorForm.handleSubmit. run_handler.
  destruct (throws _ _); [|discriminate]. intros _. tidy_trace.
  match goal with
  | |- exists t, Ret (mkWorld _ _ _ (?a ++ ?l)) _ = _ =>
      exists (a ++ removelast l)
  end. tidy_trace. reflexivity.
Qed.

End ProfessorCompleted.

End HandlerFacts.

(* ================================================================== *)
(** * The dialog keeps a single call in flight *)
(* ================================================================== *)

Module DialogFacts.

Import Effects Dialog.
Local Open Scope list_scope.

Lemma gateway_calls_app (t1 t2 : list event) :
  gateway_calls (t1 ++ t2) = gateway_calls t1 + gateway_calls t2.
Proof.
  unfold gateway_calls. rewrite filter_app, length_app. reflexivity.
Qed.

Lemma initial_single_flight (defaultValues : value) :
  single_flight (initial defaultValues).
Proof. reflexivity. Qed.

(** A disabled button does nothing. *)
Lemma busy_click (formSchema : Zod.schema) (handleSubmit : value -> M unit)
  (s : instance) :
  isSubmitting (state s) = true ->
  step formSchema handleSubmit s ClickSubmit = s /\
  step formSchema handleSubmit s ClickCancel = s.
Proof. intros H; simpl; rewrite H; auto. Qed.

Section Form.

Variable formSchema : Zod.schema.
Variable handleSubmit : value -> M unit.

(** What the invariant needs of a handler: it sets the flag before it
    suspends, and however its promise settles it completes with the flag
    cleared. *)
Hypothesis handler_sets_flag : forall values w,
  is_suspended (handleSubmit values w) = true ->
  isSubmitting (state_of (handleSubmit values w)) = true.

Hypothesis handler_clears_flag : forall values w r w',
  exists w'' c,
    resume (handleSubmit values w) r w' = Ret w'' c /\
    isSubmitting w'' = false.

Lemma started_single_flight (values : value) (w : world) :
  single_flight (settle_in (handleSubmit values w) []).
Proof.
  pose proof (handler_sets_flag values w) as Hset.
  pose proof (handler_clears_flag values w) as Hclr.
  destruct (handleSubmit values w) as [w1 c|w1 k]; simpl in *;
    unfold single_flight; simpl.
  - destruct (Hclr (Rejected (Fault EmptyString)) w) as (w'' & c' & E & Hf).
    injection E as -> _. rewrite Hf. reflexivity.
  - rewrite (Hset eq_refl). exists k; split; [reflexivity|exact Hclr].
Qed.

Lemma step_single_flight (s : instance) (e : ui_event) :
  single_flight s -> single_flight (step formSchema handleSubmit s e).
Proof.
  unfold single_flight. destruct s as [w fl]; simpl.
  destruct (isSubmitting w) eqn:Hw; intros H.
  - destruct H as (k & -> & Hk).
    destruct e as [| | |name v|i r]; simpl; rewrite ?Hw; simpl; rewrite ?Hw.
    + eauto.
    + eauto.
    + eauto.
    + unfold change. destruct (fieldValues w); simpl; rewrite Hw; eauto.
    + destruct i as [|i]; simpl.
      * destruct (Hk r w) as (w'' & c & -> & Hf). simpl. rewrite Hf.
        reflexivity.
      * destruct i; simpl; rewrite Hw; eauto.
  - subst fl.
    destruct e as [| | |name v|i r]; simpl; rewrite ?Hw; simpl; rewrite ?Hw.
    + unfold submit; simpl.
      destruct (Zod.zodResolver formSchema (fieldValues w)) as [[v|errs]|ex];
        simpl; rewrite ?Hw; try reflexivity.
      apply started_single_flight.
    + reflexivity.
    + reflexivity.
    + unfold change. destruct (fieldValues w); simpl; rewrite Hw; reflexivity.
    + destruct i; simpl; rewrite Hw; reflexivity.
Qed.

Lemma run_single_flight (es : list ui_event) (s : instance) :
  single_flight s -> single_flight (run formSchema handleSubmit s es).
Proof.
  revert s; induction es as [|e es IH]; intros s H; simpl; [exact H|].
  apply IH, step_single_flight, H.
Qed.

Lemma single_flight_count (s : instance) :
  single_flight s ->
  List.length (in_flight s) = if isSubmitting (state s) then 1 else 0.
Proof.
  unfold single_flight. destruct (isSubmitting (state s)).
  - intros (k & -> & _); reflexivity.
  - intros ->; reflexivity.
Qed.

Hypothesis handler_calls_once : forall values w,
  is_suspended (handleSubmit values w) = true ->
  gateway_calls (trace (state_of (handleSubmit values w)))
  = gateway_calls (trace w) + 1.

(** Every state an instance can reach keeps a single call in flight: as
    many handlers are suspended as the flag says, a click on a disabled
    button changes nothing, and two clicks on submit in a row leave at most
    one call in flight, the second click doing nothing when the first left
    its call in flight. *)
Lemma reachable_single_flight (defaultValues : value) (es : list ui_event) :
  let s := run formSchema handleSubmit (initial defaultValues) es in
  let once := step formSchema handleSubmit s ClickSubmit in
  let twice := step formSchema handleSubmit once ClickSubmit in
  List.length (in_flight s) = (if isSubmitting (state s) then 1 else 0)
  /\ (isSubmitting (state s) = true ->
      step formSchema handleSubmit s ClickSubmit = s
      /\ step formSchema handleSubmit s ClickCancel = s)
  /\ List.length (in_flight twice) <= 1
  /\ (isSubmitting (state once) = true ->
      twice = once
      /\ gateway_calls (trace (state twice))
         <= gateway_calls (trace (state s)) + 1).
Proof.
  intros s once twice.
  assert (Hs : single_flight s).
  { apply run_single_flight; auto. apply initial_single_flight. }
  assert (Honce : single_flight once).
  { apply step_single_flight; auto. }
  assert (Htwice : single_flight twice).
  { apply step_single_flight; auto. }
  split; [apply single_flight_count; exact Hs|].
  split; [apply busy_click|].
  split.
  - rewrite single_flight_count by exact Htwice.
    destruct (isSubmitting (state twice)); lia.
  - intros Hbusy.
    assert (E : twice = once) by (apply busy_click; exact Hbusy).
    split; [exact E|]. rewrite E.
    subst once. simpl in *.
    destruct (isSubmitting (state s)) eqn:Hflag; [lia|].
    unfold submit in *.
    destruct (Zod.zodResolver formSchema (fieldValues (state s)))
      as [[v|errs]|ex]; simpl in *; try congruence; try lia.
    pose proof (handler_sets_flag v
      (mkWorld (isSubmitting (state s)) (fieldValues (state s)) []
         (trace (state s)))) as Hset.
    pose proof (handler_calls_once v
      (mkWorld (isSubmitting (state s)) (fieldValues (state s)) []
         (trace (state s)))) as Hone.
    pose proof (handler_clears_flag v
      (mkWorld (isSubmitting (state s)) (fieldValues (state s)) []
         (trace (state s))) (Rejected (Fault EmptyString)) (state s)) as Hclr.
    destruct (handleSubmit v _) as [w1 c|w1 k]; simpl in *.
    + destruct Hclr as (w'' & c' & E' & Hf). injection E' as -> _.
      congruence.
    + rewrite (Hone eq_refl). lia.
Qed.

End Form.

(** A submission the resolver does not let through calls no handler. *)
Lemma rejected_submission (formSchema : Zod.schema)
  (handleSubmit : value -> M unit) (s : instance) :
  (forall values,
     Zod.zodResolver formSchema (fieldValues (state s))
     <> Normal (Zod.Values values)) ->
  trace (state (step formSchema handleSubmit s ClickSubmit)) = trace (state s)
  /\ in_flight (step formSchema handleSubmit s ClickSubmit) = in_flight s.
Proof.
  intros H. simpl. destruct (isSubmitting (state s)); [auto|].
  unfold submit.
  destruct (Zod.zodResolver formSchema (fieldValues (state s)))
    as [[v|errs]|ex]; simpl; auto.
  exfalso; exact (H v eq_refl).
Qed.

End DialogFacts.

(* ================================================================== *)
(** * Validation *)
(* ================================================================== *)

Module Validation.

Import Zod Effects ZodFacts CedulaFacts Stated.
Local Open Scope string_scope.
Local Open Scope list_scope.

(** ** The period schema *)

Lemma period_fields_return (StringToNumber : jsstring -> number)
  (key : string) (s : schema) :
  In (key, s) (PeriodForm.shape StringToNumber) ->
  key <> "endDate" -> key <> "enrollmentEndDate" ->
  forall v, exists r, s v = Normal r.
Proof.
  unfold PeriodForm.shape. simpl.
  intros [H|[H|[H|[H|[H|[H|[H|[H|[H|[]]]]]]]]]] H1 H2 v;
    injection H as <- <-; try congruence.
  - apply z_string_returns.
  - apply z_string_returns.
  - unfold PeriodForm.year_schema, z_coerce_number.
    destruct (ToNumber StringToNumber v); eauto.
  - apply z_enum_returns.
  - unfold PeriodForm.startDate_schema, z_date.
    destruct v as [| | | | |[t|]|]; eauto.
  - unfold PeriodForm.enrollmentStartDate_schema, z_date.
    destruct v as [| | | | |[t|]|]; eauto.
  - unfold PeriodForm.isActive_schema, default, z_boolean.
    destruct v; eauto.
Qed.

(** A refined date schema on anything but a valid date: the refinement is
    not run and an issue is raised. *)
Lemma refined_date_invalid (req msg : option string)
  (check : list value -> completion bool) (v : value) :
  (forall t, v <> VDate (Some t)) ->
  exists issues,
    refine (z_date req) check msg v = Normal (Invalid issues) /\ issues <> [].
Proof.
  intros H. unfold refine, z_date.
  destruct v as [| | | | |[t|]|]; simpl;
    try (eexists; split; [reflexivity|discriminate]).
  exfalso; exact (H t eq_refl).
Qed.

(** The period schema lets nothing through: a valid end date makes its
    check throw, any other end date is an issue. *)
Lemma period_never_valid (StringToNumber : jsstring -> number)
  (input values : value) :
  zodResolver (PeriodForm.formSchema StringToNumber) input
  <> Normal (Values values).
Proof.
  unfold PeriodForm.formSchema.
  destruct input as [| | | | | |data];
    try (unfold zodResolver, z_object; simpl; discriminate).
  assert (Hcase : (exists t, lookup data "endDate" = VDate (Some t)) \/
                  (forall t, lookup data "endDate" <> VDate (Some t))).
  { destruct (lookup data "endDate") as [| | | | |[t|]|]; eauto;
      right; intros; discriminate. }
  destruct Hcase as [[t E]|Hnot].
  - destruct (@parse_shape_throws (PeriodForm.shape StringToNumber) data
                "endDate" (PeriodForm.endDate_schema StringToNumber)
                (TypeError "parent")) as [e' He'].
    + simpl; tauto.
    + unfold PeriodForm.endDate_schema, refine, z_date. rewrite E. reflexivity.
    + unfold zodResolver, z_object. rewrite He'. simpl. discriminate.
  - destruct (@refined_date_invalid
                (Some "La fecha de fin es obligatoria.")
                (Some "La fecha de fin debe ser posterior a la fecha de inicio.")
                (PeriodForm.endDate_check StringToNumber)
                (lookup data "endDate") Hnot) as (issues & Hs & Hne).
    destruct (parse_shape (PeriodForm.shape StringToNumber) data)
      as [[out errs]|e] eqn:Ep.
    + assert (Herr : has_error "endDate" errs = true).
      { apply (@parse_shape_reports (PeriodForm.shape StringToNumber) data
                 "endDate" (PeriodForm.endDate_schema StringToNumber)
                 (Invalid issues)) with (out := out); auto.
        simpl; tauto. }
      rewrite (resolver_of_object _ _ Ep (has_error_nonempty _ Herr)).
      discriminate.
    + unfold zodResolver, z_object. rewrite Ep. simpl. discriminate.
Qed.

(** With no valid end date to check, the period parse returns. *)
Lemma period_parse_returns (StringToNumber : jsstring -> number)
  (data : list (string * value)) :
  (forall t, lookup data "endDate" <> VDate (Some t)) ->
  (forall t, lookup data "enrollmentEndDate" <> VDate (Some t)) ->
  exists res, parse_shape (PeriodForm.shape StringToNumber) data = Normal res.
Proof.
  intros Hend Henr. apply parse_shape_returns. intros key s Hin.
  destruct (String.eqb_spec key "endDate") as [->|H1].
  - unfold PeriodForm.shape in Hin; simpl in Hin.
    destruct Hin as [H|[H|[H|[H|[H|[H|[H|[H|[H|[]]]]]]]]]];
      try discriminate H.
    injection H as <-.
    destruct (@refined_date_invalid
                (Some "La fecha de fin es obligatoria.")
                (Some "La fecha de fin debe ser posterior a la fecha de inicio.")
                (PeriodForm.endDate_check StringToNumber)
                (lookup data "endDate") Hend) as (issues & Hs & _).
    eauto.
  - destruct (String.eqb_spec key "enrollmentEndDate") as [->|H2].
    + unfold PeriodForm.shape in Hin; simpl in Hin.
      destruct Hin as [H|[H|[H|[H|[H|[H|[H|[H|[H|[]]]]]]]]]];
        try discriminate H.
      injection H as <-.
      destruct (@refined_date_invalid
                  (Some "La fecha de fin de inscripciones es obligatoria.")
                  (Some "La fecha de fin de inscripciones debe ser posterior a la fecha de inicio.")
                  (PeriodForm.enrollmentEndDate_check StringToNumber)
                  (lookup data "enrollmentEndDate") Henr)
        as (issues & Hs & _).
      eauto.
    + apply (period_fields_return Hin H1 H2).
Qed.

(** What the check of [endDate] would compute if it were handed a context
    with the object being validated in [parent]. *)
Lemma endDate_check_given_parent (StringToNumber : jsstring -> number)
  (data : list (string * value)) (startDate endDate : Z) :
  lookup data "startDate" = VDate (Some startDate) ->
  PeriodForm.endDate_check StringToNumber
    [VDate (Some endDate); VObject [("parent", VObject data)]]
  = Normal (startDate <? endDate)%Z.
Proof.
  intros H. unfold PeriodForm.endDate_check. simpl. rewrite H.
  unfold js_gt, num_gt; simpl. unfold Qle_bool; simpl.
  rewrite !Z.mul_1_r. f_equal.
  rewrite Z.ltb_antisym. reflexivity.
Qed.

(** C4 (what the code does instead).  With both dates of a pair
    present, the end-date schema does not compare them: its check reads
    [ctx.parent] of a context it is not given and throws a TypeError.  So do
    the end-date schema and the enrollment end-date schema on every valid
    date, and so does the validation of the scenario period, with the end
    date after the start date (2024-04-01) as with the end date equal to it
    (2024-01-01): it neither passes nor reports an error on the end date. *)
Theorem date_order_check_throws (StringToNumber : jsstring -> number) :
  (forall t, PeriodForm.endDate_schema StringToNumber (VDate (Some t))
             = Throw (TypeError "parent"))
  /\ (forall t, PeriodForm.enrollmentEndDate_schema StringToNumber
                  (VDate (Some t))
                = Throw (TypeError "parent"))
  /\ zodResolver (PeriodForm.formSchema StringToNumber) Samples.period
     = Throw (TypeError "parent")
  /\ zodResolver (PeriodForm.formSchema StringToNumber)
       (VObject (Samples.period_fields "2024-T1" 1704067200000%Z))
     = Throw (TypeError "parent").
Proof.
  repeat split; intros; reflexivity.
Qed.


(** ** The professor schema *)

Lemma professor_fields_return (emailRegex : jsstring -> bool)
  (key : string) (s : schema) :
  In (key, s) (ProfessorForm.shape emailRegex) ->
  forall v, exists r, s v = Normal r.
Proof.
  unfold ProfessorForm.shape. simpl.
  intros [H|[H|[H|[H|[H|[H|[H|[H|[H|[H|[H|[H|[H|[]]]]]]]]]]]]]] v;
    injection H as <- <-;
    first [apply z_string_returns | apply z_enum_returns].
Qed.

Lemma professor_parse_returns (emailRegex : jsstring -> bool)
  (data : list (string * value)) :
  exists res, parse_shape (ProfessorForm.shape emailRegex) data = Normal res.
Proof.
  apply parse_shape_returns. intros key s Hin.
  apply (professor_fields_return Hin).
Qed.

(** The schema the professor form declares for a field with a minimum
    length. *)
Lemma professor_min_declared (emailRegex : jsstring -> bool)
  (key : string) (L : nat) :
  In (key, L) professor_min_lengths ->
  exists msg,
    In (key, z_string None [min L msg]) (ProfessorForm.shape emailRegex).
Proof.
  unfold professor_min_lengths, ProfessorForm.shape. simpl.
  intros [H|[H|[H|[H|[H|[H|[]]]]]]]; injection H as <- <-;
    eexists; cbv; tauto.
Qed.

Lemma period_min_declared (StringToNumber : jsstring -> number)
  (key : string) (L : nat) :
  In (key, L) period_min_lengths ->
  exists msg,
    In (key, z_string None [min L msg]) (PeriodForm.shape StringToNumber).
Proof.
  unfold period_min_lengths, PeriodForm.shape. simpl.
  intros [H|[H|[]]]; injection H as <- <-; eexists; cbv; tauto.
Qed.

(** A field whose schema throws, after fields that all return, makes the
    parse throw what that field threw. *)
Lemma parse_shape_first_throw (data : list (string * value))
  (key : string) (s : schema) (e : exn)
  (before after : list (string * schema)) :
  (forall k s', In (k, s') before -> exists r, s' (lookup data k) = Normal r) ->
  s (lookup data key) = Throw e ->
  parse_shape (before ++ (key, s) :: after) data = Throw e.
Proof.
  intros Hbefore Hs. induction before as [|[k0 s0] before IH]; simpl.
  - rewrite Hs. reflexivity.
  - destruct (Hbefore k0 s0 (or_introl eq_refl)) as [r0 ->]. simpl.
    rewrite IH; [reflexivity|].
    intros k s' Hin. apply Hbefore. right; exact Hin.
Qed.

(** A period whose end date, or enrollment end date, is a valid date: the
    resolver throws the TypeError of the check, whatever the other fields
    hold. *)
Lemma period_end_date_throws (StringToNumber : jsstring -> number)
  (data : list (string * value)) :
  (exists t, lookup data "endDate" = VDate (Some t))
  \/ (exists t, lookup data "enrollmentEndDate" = VDate (Some t)) ->
  zodResolver (PeriodForm.formSchema StringToNumber) (VObject data)
  = Throw (TypeError "parent").
Proof.
  intros H.
  assert (Hearly : forall k s',
            In (k, s') (firstn 5 (PeriodForm.shape StringToNumber)) ->
            exists r, s' (lookup data k) = Normal r).
  { intros k s' Hin.
    assert (Hall : In (k, s') (PeriodForm.shape StringToNumber)).
    { simpl in Hin. unfold PeriodForm.shape. simpl. tauto. }
    apply (period_fields_return Hall);
      simpl in Hin;
      destruct Hin as [E|[E|[E|[E|[E|[]]]]]]; injection E as <- _;
      discriminate. }
  assert (Hparse : parse_shape (PeriodForm.shape StringToNumber) data
                   = Throw (TypeError "parent")).
  { assert (Hcase : (exists t, lookup data "endDate" = VDate (Some t)) \/
                    (forall t, lookup data "endDate" <> VDate (Some t))).
    { destruct (lookup data "endDate") as [| | | | |[t|]|]; eauto;
        right; intros; discriminate. }
    destruct Hcase as [[t E]|Hnot].
    - apply (@parse_shape_first_throw data "endDate"
               (PeriodForm.endDate_schema StringToNumber) (TypeError "parent")
               (firstn 5 (PeriodForm.shape StringToNumber))
               (skipn 6 (PeriodForm.shape StringToNumber)) Hearly).
      unfold PeriodForm.endDate_schema, refine, z_date. rewrite E.
      reflexivity.
    - destruct H as [[t E]|[t E]]; [exfalso; exact (Hnot t E)|].
      apply (@parse_shape_first_throw data "enrollmentEndDate"
               (PeriodForm.enrollmentEndDate_schema StringToNumber)
               (TypeError "parent")
               (firstn 7 (PeriodForm.shape StringToNumber))
               (skipn 8 (PeriodForm.shape StringToNumber))).
      + intros k s' Hin.
        destruct (String.eqb_spec k "endDate") as [->|Hk].
        * simpl in Hin.
          destruct Hin as [E'|[E'|[E'|[E'|[E'|[E'|[E'|[]]]]]]]];
            try discriminate E'.
          injection E' as <-.
          destruct (@refined_date_invalid
                      (Some "La fecha de fin es obligatoria.")
                      (Some "La fecha de fin debe ser posterior a la fecha de inicio.")
                      (PeriodForm.endDate_check StringToNumber)
                      (lookup data "endDate") Hnot) as (issues & Hs & _).
          eauto.
        * assert (Hall : In (k, s') (PeriodForm.shape StringToNumber)).
          { simpl in Hin. unfold PeriodForm.shape. simpl. tauto. }
          apply (period_fields_return Hall); [exact Hk|].
          simpl in Hin.
          destruct Hin as [E'|[E'|[E'|[E'|[E'|[E'|[E'|[]]]]]]]];
            injection E' as <- _; discriminate.
      + unfold PeriodForm.enrollmentEndDate_schema, refine, z_date.
        rewrite E. reflexivity. }
  unfold zodResolver, PeriodForm.formSchema, z_object. rewrite Hparse.
  reflexivity.
Qed.

(** C5 (what the code does instead).  In the professor form a string
    shorter than the minimum length declared for its field is rejected as
    stated: the resolver returns field errors with one under that field, and
    the click on submit makes no call and leaves no call in flight.  In the
    period form the schema declared for the field does raise its
    [too_small] issue on the string, but the form never gets to show it
    when an end date of the form is a valid date, as the calendars and the
    default values make it: the check of that end date throws (the defect of
    C4), the resolver rethrows the TypeError instead of returning field
    errors, and the click leaves the form as it was, with no error under the
    field.  Only when neither end date is a valid date does the resolver
    return the field errors, with one under the field.  No gateway call is
    made in any case.  So it is for every period form opened to create and
    submitted untouched, whose [id] and [name] are empty, and for the
    scenario period with its [id] emptied. *)
Theorem short_period_input_throws :
  (forall emailRegex initialData mounted throws key L data str s,
     In (key, L) professor_min_lengths ->
     fieldValues (Dialog.state s) = VObject data ->
     lookup data key = VString str ->
     List.length str < L ->
     (exists errs,
        zodResolver (ProfessorForm.formSchema emailRegex) (VObject data)
        = Normal (Errors errs)
        /\ has_error key errs = true)
     /\ trace (Dialog.state
                 (Dialog.step (ProfessorForm.formSchema emailRegex)
                    (ProfessorForm.handleSubmit initialData mounted throws)
                    s Dialog.ClickSubmit))
        = trace (Dialog.state s)
     /\ Dialog.in_flight
          (Dialog.step (ProfessorForm.formSchema emailRegex)
             (ProfessorForm.handleSubmit initialData mounted throws)
             s Dialog.ClickSubmit)
        = Dialog.in_flight s)
  /\
  (forall StringToNumber initialData mounted throws key L data str s,
     In (key, L) period_min_lengths ->
     fieldValues (Dialog.state s) = VObject data ->
     lookup data key = VString str ->
     List.length str < L ->
     (exists msg,
        In (key, z_string None [min L msg]) (PeriodForm.shape StringToNumber)
        /\ z_string None [min L msg] (VString str)
           = Normal (Parsed (VString str) [raise too_small msg]))
     /\ ((exists t, lookup data "endDate" = VDate (Some t))
         \/ (exists t, lookup data "enrollmentEndDate" = VDate (Some t)) ->
         zodResolver (PeriodForm.formSchema StringToNumber) (VObject data)
         = Throw (TypeError "parent")
         /\ Dialog.step (PeriodForm.formSchema StringToNumber)
              (PeriodForm.handleSubmit initialData mounted throws)
              s Dialog.ClickSubmit
            = s)
     /\ ((forall t, lookup data "endDate" <> VDate (Some t)) ->
         (forall t, lookup data "enrollmentEndDate" <> VDate (Some t)) ->
         exists errs,
           zodResolver (PeriodForm.formSchema StringToNumber) (VObject data)
           = Normal (Errors errs)
           /\ has_error key errs = true)
     /\ trace (Dialog.state
                 (Dialog.step (PeriodForm.formSchema StringToNumber)
                    (PeriodForm.handleSubmit initialData mounted throws)
                    s Dialog.ClickSubmit))
        = trace (Dialog.state s)
     /\ Dialog.in_flight
          (Dialog.step (PeriodForm.formSchema StringToNumber)
             (PeriodForm.handleSubmit initialData mounted throws)
             s Dialog.ClickSubmit)
        = Dialog.in_flight s)
  /\
  (forall StringToNumber mounted throws,
     zodResolver (PeriodForm.formSchema StringToNumber)
       (PeriodForm.defaultValues None mounted)
     = Throw (TypeError "parent")
     /\ Dialog.step (PeriodForm.formSchema StringToNumber)
          (PeriodForm.handleSubmit None mounted throws)
          (Dialog.initial (PeriodForm.defaultValues None mounted))
          Dialog.ClickSubmit
        = Dialog.initial (PeriodForm.defaultValues None mounted))
  /\
  (forall StringToNumber,
     PeriodForm.id_schema (VString (lit ""))
     = Normal
         (Parsed (VString (lit ""))
            [raise too_small (Some "El ID es obligatorio.")])
     /\ zodResolver (PeriodForm.formSchema StringToNumber)
          (VObject (Samples.period_fields "" 1711929600000%Z))
        = Throw (TypeError "parent")).
Proof.
  split; [|split; [|split]].
  - intros emailRegex initialData mounted throws key L data str s
           Hin Hfv Hkey Hlen.
    destruct (professor_min_declared emailRegex Hin) as [msg Hdecl].
    destruct (professor_parse_returns emailRegex data) as [[out errs] Hp].
    assert (Herr : has_error key errs = true).
    { apply (@parse_shape_reports (ProfessorForm.shape emailRegex) data key
               (z_string None [min L msg])
               (Parsed (VString str) [raise too_small msg]))
        with (out := out); auto.
      - rewrite Hkey. apply string_min_short; exact Hlen.
      - discriminate. }
    assert (Hres : zodResolver (ProfessorForm.formSchema emailRegex)
                     (VObject data) = Normal (Errors errs)).
    { apply (resolver_of_object _ _ Hp (has_error_nonempty _ Herr)). }
    split; [eauto|].
    apply DialogFacts.rejected_submission.
    intros values. rewrite Hfv, Hres. discriminate.
  - intros StringToNumber initialData mounted throws key L data str s
           Hin Hfv Hkey Hlen.
    destruct (period_min_declared StringToNumber Hin) as [msg Hdecl].
    split; [|split; [|split]].
    + exists msg; split; [exact Hdecl|]. apply string_min_short; exact Hlen.
    + intros Hdate.
      pose proof (period_end_date_throws StringToNumber data Hdate) as Hres.
      split; [exact Hres|].
      cbn [Dialog.step]. destruct (isSubmitting (Dialog.state s));
        [reflexivity|].
      unfold Dialog.submit. rewrite Hfv, Hres. reflexivity.
    + intros Hend Henr.
      destruct (period_parse_returns StringToNumber data Hend Henr)
        as [[out errs] Hp].
      assert (Herr : has_error key errs = true).
      { apply (@parse_shape_reports (PeriodForm.shape StringToNumber) data
                 key (z_string None [min L msg])
                 (Parsed (VString str) [raise too_small msg]))
          with (out := out); auto.
        - rewrite Hkey. apply string_min_short; exact Hlen.
        - discriminate. }
      exists errs. split; [|exact Herr].
      apply (resolver_of_object _ _ Hp (has_error_nonempty _ Herr)).
    + apply DialogFacts.rejected_submission.
      intros values. rewrite Hfv. apply period_never_valid.
  - intros StringToNumber mounted throws.
    assert (Hres : zodResolver (PeriodForm.formSchema StringToNumber)
                     (PeriodForm.defaultValues None mounted)
                   = Throw (TypeError "parent")).
    { apply period_end_date_throws. left. eexists. reflexivity. }
    split; [exact Hres|].
    unfold Dialog.initial, Dialog.step, Dialog.submit.
    cbn [Dialog.state isSubmitting fieldValues].
    unfold PeriodForm.formSchema in *. rewrite Hres. reflexivity.
  - intros StringToNumber. split; [reflexivity|].
    apply period_end_date_throws. left. eexists. reflexivity.
Qed.

(** C8 as stated fails: "V-1234567" has the format and a space is white
    space, yet the cedula with a space in front is not accepted. *)
Lemma cedula_leading_space_rejected :
  cedula_format (lit "V-1234567") = true
  /\ forallb is_whitespace (lit " ") = true
  /\ ~ accepts ProfessorForm.cedula_schema
         (VString (lit " " ++ lit "V-1234567")).
Proof.
  repeat split. intros [out H]. vm_compute in H. discriminate.
Qed.

(** C8, amended.  The cedula field accepts exactly the strings that are, as
    a whole, the letter V or E, a dash and 7 to 8 digits; any other string
    raises the field's [invalid_string] issue; and white space is not
    trimmed, so a string of that format with white space in front of it or
    behind it is not accepted. *)
Theorem cedula_exact_format (s : jsstring) :
  (accepts ProfessorForm.cedula_schema (VString s) <-> cedula_format s = true)
  /\ (cedula_format s = false ->
      ProfessorForm.cedula_schema (VString s)
      = Normal (Parsed (VString s)
                  [raise invalid_string
                     (Some "La cédula debe tener el formato V-1234567 o E-1234567.")]))
  /\ (forall pre post,
        cedula_format s = true ->
        forallb is_whitespace pre = true ->
        forallb is_whitespace post = true ->
        pre ++ post <> [] ->
        ~ accepts ProfessorForm.cedula_schema (VString (pre ++ s ++ post))).
Proof.
  assert (Hiff : forall x, accepts ProfessorForm.cedula_schema (VString x)
                           <-> cedula_format x = true).
  { intros x. unfold accepts. rewrite cedula_schema_format.
    destruct (cedula_format x); split.
    - reflexivity.
    - eauto.
    - intros [out H]; discriminate.
    - discriminate. }
  split; [apply Hiff|split].
  - intros H. rewrite cedula_schema_format, H. reflexivity.
  - intros pre post Hs Hpre Hpost Hne Hacc. apply Hiff in Hacc.
    rewrite (cedula_format_padded pre s post Hs Hpre Hpost Hne) in Hacc.
    discriminate.
Qed.

(** C9.  The year field is replaced by its coercion to a number, and is
    accepted exactly when that number lies between 2000 and 2100; what is
    accepted comes out as the coerced number; an input whose coercion is
    NaN is rejected with an [invalid_type] issue.  For a string the coerced
    number is that of [StringToNumber], for a number it is the number. *)
Theorem year_coerced_then_ranged (StringToNumber : jsstring -> number)
  (input : value) :
  (accepts (PeriodForm.year_schema StringToNumber) input
   <-> year_in_range (ToNumber StringToNumber input) = true)
  /\ (accepts (PeriodForm.year_schema StringToNumber) input ->
      PeriodForm.year_schema StringToNumber input
      = Normal (Parsed (VNumber (ToNumber StringToNumber input)) []))
  /\ (ToNumber StringToNumber input = NaN ->
      PeriodForm.year_schema StringToNumber input
      = Normal (Invalid [raise invalid_type None]))
  /\ (forall s, ToNumber StringToNumber (VString s) = StringToNumber s)
  /\ (forall n, ToNumber StringToNumber (VNumber n) = n).
Proof.
  unfold accepts, PeriodForm.year_schema, z_coerce_number.
  destruct (ToNumber StringToNumber input) as [| | |q] eqn:E; simpl.
  - repeat split; try discriminate; intros [out H]; discriminate.
  - repeat split; try discriminate; intros [out H]; discriminate.
  - repeat split; try discriminate; intros [out H]; discriminate.
  - unfold num_gt, num_lt, of_Z.
    destruct (Qle_bool (inject_Z 2000) q), (Qle_bool q (inject_Z 2100));
      simpl; repeat split; try discriminate; eauto;
      intros [out H]; discriminate.
Qed.

(** C10.  The two hire-date fields are plain strings: every string is
    accepted by both schemas, and whatever the other fields hold the
    resolver never reports an error under [hireDateMonth] or
    [hireDateYear] when the field is a string.  The selects of the form,
    for their part, only offer the months "0" to "11" and the years from
    1990 to the current year. *)
Theorem hire_date_any_string (emailRegex : jsstring -> bool) (s : jsstring) :
  ProfessorForm.hireDateMonth_schema (VString s)
  = Normal (Parsed (VString s) [])
  /\ ProfessorForm.hireDateYear_schema (VString s)
     = Normal (Parsed (VString s) [])
  /\ (forall data errs,
        lookup data "hireDateMonth" = VString s ->
        zodResolver (ProfessorForm.formSchema emailRegex) (VObject data)
        = Normal (Errors errs) ->
        has_error "hireDateMonth" errs = false)
  /\ (forall data errs,
        lookup data "hireDateYear" = VString s ->
        zodResolver (ProfessorForm.formSchema emailRegex) (VObject data)
        = Normal (Errors errs) ->
        has_error "hireDateYear" errs = false)
  /\ ProfessorForm.month_options
     = map lit ["0"; "1"; "2"; "3"; "4"; "5"; "6"; "7"; "8"; "9"; "10"; "11"]
  /\ (forall currentYear y,
        In y (ProfessorForm.years currentYear) ->
        exists n, (1990 <= n <= currentYear)%Z
                  /\ y = ProfessorForm.toString n).
Proof.
  assert (Hclean : forall key data errs,
            key = "hireDateMonth" \/ key = "hireDateYear" ->
            lookup data key = VString s ->
            zodResolver (ProfessorForm.formSchema emailRegex) (VObject data)
            = Normal (Errors errs) ->
            has_error key errs = false).
  { intros key data errs Hkey Hl Hres.
    unfold zodResolver, ProfessorForm.formSchema, z_object in Hres.
    destruct (parse_shape (ProfessorForm.shape emailRegex) data)
      as [[out errs']|e] eqn:Hp; simpl in Hres; [|discriminate].
    assert (Hc : has_error key errs' = false).
    { apply (@parse_shape_clean (ProfessorForm.shape emailRegex) data key)
        with (out := out); [|exact Hp].
      intros sch Hin r Hr. rewrite Hl in Hr.
      unfold ProfessorForm.shape in Hin. simpl in Hin.
      destruct Hkey as [-> | ->];
        repeat (destruct Hin as [Hin|Hin];
                [ first
                    [ discriminate Hin
                    | injection Hin as <-;
                      unfold ProfessorForm.hireDateMonth_schema,
                        ProfessorForm.hireDateYear_schema, z_string in Hr;
                      simpl in Hr; injection Hr as <-; reflexivity ] | ]);
        destruct Hin. }
    destruct out as [o|]; simpl in Hres.
    - destruct errs' as [|i errs']; [discriminate|].
      injection Hres as <-. exact Hc.
    - injection Hres as <-. exact Hc. }
  repeat split.
  - intros data errs. apply Hclean; auto.
  - intros data errs. apply Hclean; auto.
  - intros currentYear y Hin. unfold ProfessorForm.years in Hin.
    apply in_map_iff in Hin as (i & <- & Hi). apply in_seq in Hi.
    exists (currentYear - Z.of_nat i)%Z. split; [lia|reflexivity].
Qed.

(** The strings "13" for the month and "abc" or "1800" for the year pass
    the validation of a whole professor although no select offers them
    (with 2026 as the current year). *)
Lemma hire_date_examples :
  (exists values,
     zodResolver (ProfessorForm.formSchema Samples.has_at_sign)
       (VObject (Samples.professor_fields "PROF-001" "V-12345678" "13" "abc"))
     = Normal (Values values))
  /\ (exists values,
        zodResolver (ProfessorForm.formSchema Samples.has_at_sign)
          (VObject
             (Samples.professor_fields "PROF-001" "V-12345678" "13" "1800"))
        = Normal (Values values))
  /\ existsb (jsstring_eqb (lit "13")) ProfessorForm.month_options = false
  /\ existsb (jsstring_eqb (lit "abc")) (ProfessorForm.years 2026) = false
  /\ existsb (jsstring_eqb (lit "1800")) (ProfessorForm.years 2026) = false.
Proof.
  repeat split; try (vm_compute; reflexivity); eexists; vm_compute; reflexivity.
Qed.


(** ** The theorems at sample inputs *)

Lemma short_period_input_throws_witness :
  In ("id", 2) professor_min_lengths
  /\ List.length (lit "P") < 2
  /\ (exists errs,
        zodResolver (ProfessorForm.formSchema Samples.has_at_sign)
          (VObject (Samples.professor_fields "P" "V-12345678" "3" "2015"))
        = Normal (Errors errs)
        /\ has_error "id" errs = true)
  /\ In ("id", 1) period_min_lengths
  /\ List.length (lit "") < 1
  /\ zodResolver (PeriodForm.formSchema Samples.no_numeric_strings)
       (VObject (Samples.period_fields "" 1711929600000%Z))
     = Throw (TypeError "parent")
  /\ Dialog.step
       (PeriodForm.formSchema Samples.no_numeric_strings)
       (PeriodForm.handleSubmit None Samples.period_clock
          Samples.returns_promise)
       (Dialog.initial (VObject (Samples.period_fields "" 1711929600000%Z)))
       Dialog.ClickSubmit
     = Dialog.initial (VObject (Samples.period_fields "" 1711929600000%Z)).
Proof.
  assert (Hpro : In ("id", 2) professor_min_lengths) by (simpl; tauto).
  assert (Hper : In ("id", 1) period_min_lengths) by (simpl; tauto).
  assert (H1 : List.length (lit "P") < 2) by (simpl; lia).
  assert (H2 : List.length (lit "") < 1) by (simpl; lia).
  split; [exact Hpro|]. split; [exact H1|]. split.
  - exact (proj1 (proj1 short_period_input_throws
                    Samples.has_at_sign None Samples.professor_clock
                    Samples.returns_promise "id" 2
                    (Samples.professor_fields "P" "V-12345678" "3" "2015")
                    (lit "P")
                    (Dialog.initial
                       (VObject
                          (Samples.professor_fields "P" "V-12345678" "3"
                             "2015")))
                    Hpro eq_refl eq_refl H1)).
  - split; [exact Hper|]. split; [exact H2|].
    exact (proj1 (proj2 (proj1 (proj2 short_period_input_throws)
                    Samples.no_numeric_strings None Samples.period_clock
                    Samples.returns_promise "id" 1
                    (Samples.period_fields "" 1711929600000%Z)
                    (lit "")
                    (Dialog.initial
                       (VObject (Samples.period_fields "" 1711929600000%Z)))
                    Hper eq_refl eq_refl H2))
             (or_introl (ex_intro _ 1711929600000%Z eq_refl))).
Defined.

Lemma cedula_exact_format_witness :
  cedula_format (lit "E-12345678") = true
  /\ accepts ProfessorForm.cedula_schema (VString (lit "E-12345678"))
  /\ forallb is_whitespace (lit " ") = true
  /\ ~ accepts ProfessorForm.cedula_schema
         (VString ([] ++ lit "E-12345678" ++ lit " "))
  /\ cedula_format (lit "V-123456") = false
  /\ ProfessorForm.cedula_schema (VString (lit "V-123456"))
     = Normal (Parsed (VString (lit "V-123456"))
                 [raise invalid_string
                    (Some "La cédula debe tener el formato V-1234567 o E-1234567.")]).
Proof.
  assert (Hf : cedula_format (lit "E-12345678") = true) by reflexivity.
  assert (Hw : forallb is_whitespace (lit " ") = true) by reflexivity.
  assert (Hn : cedula_format (lit "V-123456") = false) by reflexivity.
  split; [exact Hf|]. split.
  - exact (proj2 (proj1 (cedula_exact_format (lit "E-12345678"))) Hf).
  - split; [exact Hw|]. split.
    + apply (proj2 (proj2 (cedula_exact_format (lit "E-12345678")))
               [] (lit " ") Hf eq_refl Hw).
      discriminate.
    + split; [exact Hn|].
      exact (proj1 (proj2 (cedula_exact_format (lit "V-123456"))) Hn).
Defined.

Lemma year_coerced_then_ranged_witness :
  year_in_range (ToNumber Samples.no_numeric_strings (VNumber (of_Z 2024)))
  = true
  /\ PeriodForm.year_schema Samples.no_numeric_strings (VNumber (of_Z 2024))
     = Normal (Parsed (VNumber (of_Z 2024)) [])
  /\ ToNumber Samples.no_numeric_strings VUndefined = NaN
  /\ PeriodForm.year_schema Samples.no_numeric_strings VUndefined
     = Normal (Invalid [raise invalid_type None]).
Proof.
  assert (Hr : year_in_range
                 (ToNumber Samples.no_numeric_strings (VNumber (of_Z 2024)))
               = true) by reflexivity.
  split; [exact Hr|]. split.
  - destruct (year_coerced_then_ranged Samples.no_numeric_strings
                (VNumber (of_Z 2024))) as (Hiff & Hout & _).
    exact (Hout (proj2 Hiff Hr)).
  - split; [reflexivity|].
    exact (proj1 (proj2 (proj2 (year_coerced_then_ranged
                                  Samples.no_numeric_strings VUndefined)))
             eq_refl).
Defined.

Lemma hire_date_any_string_witness :
  zodResolver (ProfessorForm.formSchema Samples.has_at_sign)
    (VObject (Samples.professor_fields "P" "V-12345678" "13" "abc"))
  = Normal (Errors [mkIssue ["id"] too_small
                      (Some "El ID debe tener al menos 2 caracteres.")])
  /\ has_error "hireDateMonth"
       [mkIssue ["id"] too_small
          (Some "El ID debe tener al menos 2 caracteres.")] = false
  /\ In (lit "1999") (ProfessorForm.years 2026)
  /\ exists n, (1990 <= n <= 2026)%Z /\ lit "1999" = ProfessorForm.toString n.
Proof.
  assert (Hres : zodResolver (ProfessorForm.formSchema Samples.has_at_sign)
                   (VObject
                      (Samples.professor_fields "P" "V-12345678" "13" "abc"))
                 = Normal (Errors [mkIssue ["id"] too_small
                             (Some "El ID debe tener al menos 2 caracteres.")]))
    by (vm_compute; reflexivity).
  assert (Hin : In (lit "1999") (ProfessorForm.years 2026)).
  { apply in_map_iff. exists 27. split; [reflexivity|].
    apply in_seq. vm_compute. split; [apply Nat.leb_le|apply Nat.leb_le];
      reflexivity. }
  split; [exact Hres|]. split.
  - exact (proj1 (proj2 (proj2 (hire_date_any_string Samples.has_at_sign
                                  (lit "13"))))
             (Samples.professor_fields "P" "V-12345678" "13" "abc") _
             eq_refl Hres).
  - split; [exact Hin|].
    exact (proj2 (proj2 (proj2 (proj2 (proj2
             (hire_date_any_string Samples.has_at_sign (lit "13"))))))
             2026%Z (lit "1999") Hin).
Defined.

End Validation.

(* ================================================================== *)
(** * Submission *)
(* ================================================================== *)

Module Submission.

Import Effects HandlerFacts.
Local Open Scope string_scope.
Local Open Scope list_scope.

(** C1.  When the gateway call of a submit attempt handed back a promise,
    the handler is suspended at its [await], having set the flag and called
    the gateway and nothing else.  When the promise then resolves with
    [success], the handler, from the state [w'] the form is in at that
    moment, shows the success toast, calls [onSubmit] once with the values
    it was given, resets the form, calls [onClose] once and clears the
    flag, in this order and nothing else; the field mapping is then the
    default values of [useForm].  This holds for the period form and for the
    professor form. *)
Theorem submit_success_completes
  (initialData : option value)
  (period_mounted : PeriodForm.clock) (professor_mounted : ProfessorForm.clock)
  (throws : list event -> value -> option exn)
  (props : list (string * value)) (w w' : world) (r : result) :
  success r = true ->
  (is_suspended
     (PeriodForm.handleSubmit initialData period_mounted throws
        (VObject props) w) = true ->
   state_of
     (PeriodForm.handleSubmit initialData period_mounted throws
        (VObject props) w)
   = mkWorld true (fieldValues w) (errors w)
       (trace w ++
        [SetIsSubmitting true; Gateway (Stated.period_payload props)])
   /\
   resume
     (PeriodForm.handleSubmit initialData period_mounted throws
        (VObject props) w)
     (Resolved r) w'
   = Ret (mkWorld false (PeriodForm.defaultValues initialData period_mounted)
            []
            (trace w' ++
             [ ToastShown
                 (mkToast plain
                    (if given initialData then "Período actualizado"
                     else "Período registrado")
                    (if given initialData
                     then "Los datos del período han sido actualizados correctamente."
                     else "El período ha sido registrado correctamente."));
               OnSubmit (VObject props); FormReset; OnClose;
               SetIsSubmitting false ]))
         (Normal tt))
  /\
  (is_suspended
     (ProfessorForm.handleSubmit initialData professor_mounted throws
        (VObject props) w) = true ->
   state_of
     (ProfessorForm.handleSubmit initialData professor_mounted throws
        (VObject props) w)
   = mkWorld true (fieldValues w) (errors w)
       (trace w ++ [SetIsSubmitting true; Gateway (VObject props)])
   /\
   resume
     (ProfessorForm.handleSubmit initialData professor_mounted throws
        (VObject props) w)
     (Resolved r) w'
   = Ret (mkWorld false
            (ProfessorForm.defaultValues initialData professor_mounted) []
            (trace w' ++
             [ ToastShown
                 (mkToast plain
                    (if given initialData then "Profesor actualizado"
                     else "Profesor registrado")
                    (if given initialData
                     then "Los datos del profesor han sido actualizados correctamente."
                     else "El profesor ha sido registrado correctamente."));
               OnSubmit (VObject props); FormReset; OnClose;
               SetIsSubmitting false ]))
         (Normal tt)).
Proof.
  intros Hr; split; intros Hs; split.
  - apply period_call_pending; assumption.
  - apply period_resolved_success; assumption.
  - apply professor_call_pending; assumption.
  - apply professor_resolved_success; assumption.
Qed.

(** C2.  When the promise of the gateway call resolves without [success],
    or is rejected, or the call itself throws, the handler only shows the
    destructive toast (after logging the fault to the console, when there is
    one) and clears the flag: [onSubmit], [form.reset] and [onClose] are not
    called, and the field mapping and the field errors are those the form
    had.  This holds for the period form and for the professor form. *)
Theorem submit_failure_keeps_form
  (initialData : option value)
  (period_mounted : PeriodForm.clock) (professor_mounted : ProfessorForm.clock)
  (throws : list event -> value -> option exn)
  (props : list (string * value)) (w w' : world) :
  (* the period form *)
  (forall r,
     is_suspended
       (PeriodForm.handleSubmit initialData period_mounted throws (VObject props) w)
     = true ->
     success r = false ->
     resume
       (PeriodForm.handleSubmit initialData period_mounted throws (VObject props) w)
       (Resolved r) w'
     = Ret (mkWorld false (fieldValues w') (errors w')
              (trace w' ++
               [ ToastShown
                   (mkToast destructive "Error"
                      (or_else (error r)
                         "No se pudo guardar los datos del período."));
                 SetIsSubmitting false ]))
           (Normal tt))
  /\ (forall e,
        is_suspended
          (PeriodForm.handleSubmit initialData period_mounted throws
             (VObject props) w)
        = true ->
        resume
          (PeriodForm.handleSubmit initialData period_mounted throws
             (VObject props) w)
          (Rejected e) w'
        = Ret (mkWorld false (fieldValues w') (errors w')
                 (trace w' ++
                  [ ConsoleError "Error al guardar período:" e;
                    ToastShown
                      (mkToast destructive "Error"
                         "Ocurrió un error al procesar la solicitud.");
                    SetIsSubmitting false ]))
              (Normal tt))
  /\ (forall e,
        throws (trace w ++ [SetIsSubmitting true])
          (Stated.period_payload props) = Some e ->
        PeriodForm.handleSubmit initialData period_mounted throws (VObject props) w
        = Ret (mkWorld false (fieldValues w) (errors w)
                 (trace w ++
                  [ SetIsSubmitting true;
                    Gateway (Stated.period_payload props);
                    ConsoleError "Error al guardar período:" e;
                    ToastShown
                      (mkToast destructive "Error"
                         "Ocurrió un error al procesar la solicitud.");
                    SetIsSubmitting false ]))
              (Normal tt))
  (* the professor form *)
  /\ (forall r,
        is_suspended
          (ProfessorForm.handleSubmit initialData professor_mounted throws
             (VObject props) w)
        = true ->
        success r = false ->
        resume
          (ProfessorForm.handleSubmit initialData professor_mounted throws
             (VObject props) w)
          (Resolved r) w'
        = Ret (mkWorld false (fieldValues w') (errors w')
                 (trace w' ++
                  [ ToastShown
                      (mkToast destructive "Error"
                         (or_else (error r)
                            "No se pudo guardar los datos del profesor."));
                    SetIsSubmitting false ]))
              (Normal tt))
  /\ (forall e,
        is_suspended
          (ProfessorForm.handleSubmit initialData professor_mounted throws
             (VObject props) w)
        = true ->
        resume
          (ProfessorForm.handleSubmit initialData professor_mounted throws
             (VObject props) w)
          (Rejected e) w'
        = Ret (mkWorld false (fieldValues w') (errors w')
                 (trace w' ++
                  [ ConsoleError "Error al guardar profesor:" e;
                    ToastShown
                      (mkToast destructive "Error"
                         "Ocurrió un error al procesar la solicitud.");
                    SetIsSubmitting false ]))
              (Normal tt))
  /\ (forall e,
        throws (trace w ++ [SetIsSubmitting true]) (VObject props) = Some e ->
        ProfessorForm.handleSubmit initialData professor_mounted throws
          (VObject props) w
        = Ret (mkWorld false (fieldValues w) (errors w)
                 (trace w ++
                  [ SetIsSubmitting true; Gateway (VObject props);
                    ConsoleError "Error al guardar profesor:" e;
                    ToastShown
                      (mkToast destructive "Error"
                         "Ocurrió un error al procesar la solicitud.");
                    SetIsSubmitting false ]))
              (Normal tt)).
Proof.
  repeat split; intros.
  - apply period_resolved_failure; assumption.
  - apply period_rejected; assumption.
  - apply period_call_throws; assumption.
  - apply professor_resolved_failure; assumption.
  - apply professor_rejected; assumption.
  - apply professor_call_throws; assumption.
Qed.

Ltac ends_with_clear :=
  do 2 eexists; split; [reflexivity|split; [reflexivity|]];
  cbn [trace];
  match goal with
  | |- ?a ++ ?l = _ ++ [?x] => exact (app_assoc a (removelast l) [x])
  end.

(** However a handler was called and however its promise settles, it
    completes with the flag cleared by its last call. *)
Lemma period_always_clears
  (initialData : option value) (period_mounted : PeriodForm.clock)
  (throws : list event -> value -> option exn)
  (values : value) (w w' : world) (s : settlement) :
  exists w'' t,
    resume (PeriodForm.handleSubmit initialData period_mounted throws values w) s w'
    = Ret w'' (Normal tt)
    /\ isSubmitting w'' = false
    /\ trace w'' = t ++ [SetIsSubmitting false].
Proof.
  destruct (is_suspended
              (PeriodForm.handleSubmit initialData period_mounted throws values w))
    eqn:Hs.
  - destruct s as [r|e].
    + destruct (success r) eqn:Hr.
      * rewrite (period_resolved_success _ _ _ _ _ w' _ Hs Hr). ends_with_clear.
      * rewrite (period_resolved_failure _ _ _ _ _ w' _ Hs Hr). ends_with_clear.
    + rewrite (period_rejected _ _ _ _ _ w' e Hs). ends_with_clear.
  - destruct (period_completed _ _ _ _ _ Hs) as [t Ht].
    rewrite Ht. cbn [resume]. eexists. exists t. repeat split.
Qed.

Lemma professor_always_clears
  (initialData : option value) (professor_mounted : ProfessorForm.clock)
  (throws : list event -> value -> option exn)
  (values : value) (w w' : world) (s : settlement) :
  exists w'' t,
    resume (ProfessorForm.handleSubmit initialData professor_mounted throws values w)
      s w'
    = Ret w'' (Normal tt)
    /\ isSubmitting w'' = false
    /\ trace w'' = t ++ [SetIsSubmitting false].
Proof.
  destruct (is_suspended
              (ProfessorForm.handleSubmit initialData professor_mounted throws values w))
    eqn:Hs.
  - destruct s as [r|e].
    + destruct (success r) eqn:Hr.
      * rewrite (professor_resolved_success _ _ _ _ _ w' _ Hs Hr). ends_with_clear.
      * rewrite (professor_resolved_failure _ _ _ _ _ w' _ Hs Hr). ends_with_clear.
    + rewrite (professor_rejected _ _ _ _ _ w' e Hs). ends_with_clear.
  - destruct (professor_completed _ _ _ _ _ Hs) as [t Ht].
    rewrite Ht. cbn [resume]. eexists. exists t. repeat split.
Qed.

(** C6.  Whatever [handleSubmit] is called with and from whatever state,
    the attempt ends normally with [isSubmitting] false, and clearing the
    flag is the last thing the handler does.  A handler suspended at its
    [await] ends so when it resumes, whether the promise resolved with
    success, resolved with a failure or was rejected, and in whatever state
    [w'] the form then is; a handler that is not suspended (its gateway
    call threw at once) has ended so already.  This holds for the period
    form and for the professor form. *)
Theorem submitting_flag_always_cleared
  (initialData : option value)
  (period_mounted : PeriodForm.clock) (professor_mounted : ProfessorForm.clock)
  (throws : list event -> value -> option exn)
  (values : value) (w w' : world) (s : settlement) :
  ((exists w'' t,
      resume
        (PeriodForm.handleSubmit initialData period_mounted throws values w)
        s w'
      = Ret w'' (Normal tt)
      /\ isSubmitting w'' = false
      /\ trace w'' = t ++ [SetIsSubmitting false])
   /\
   (is_suspended
      (PeriodForm.handleSubmit initialData period_mounted throws values w)
    = false ->
    exists w'' t,
      PeriodForm.handleSubmit initialData period_mounted throws values w
      = Ret w'' (Normal tt)
      /\ isSubmitting w'' = false
      /\ trace w'' = t ++ [SetIsSubmitting false]))
  /\
  ((exists w'' t,
      resume
        (ProfessorForm.handleSubmit initialData professor_mounted throws
           values w)
        s w'
      = Ret w'' (Normal tt)
      /\ isSubmitting w'' = false
      /\ trace w'' = t ++ [SetIsSubmitting false])
   /\
   (is_suspended
      (ProfessorForm.handleSubmit initialData professor_mounted throws
         values w)
    = false ->
    exists w'' t,
      ProfessorForm.handleSubmit initialData professor_mounted throws values w
      = Ret w'' (Normal tt)
      /\ isSubmitting w'' = false
      /\ trace w'' = t ++ [SetIsSubmitting false])).
Proof.
  repeat split.
  - apply period_always_clears.
  - intros Hs. destruct (period_completed _ _ _ _ _ Hs) as [t Ht].
    rewrite Ht. eexists; exists t; repeat split.
  - apply professor_always_clears.
  - intros Hs. destruct (professor_completed _ _ _ _ _ Hs) as [t Ht].
    rewrite Ht. eexists; exists t; repeat split.
Qed.

(** C7.  Called with a validated period, [handleSubmit] calls the gateway
    right after setting the flag, with an object that carries the [id] of
    the period under [code] and every other field under its own name; this
    is the payload as the specification words it.  A period whose [id] is
    "2024-T1" therefore reaches the gateway with that [code]. *)
Theorem period_id_sent_as_code
  (initialData : option value) (period_mounted : PeriodForm.clock)
  (throws : list event -> value -> option exn)
  (props : list (string * value)) (w : world) :
  let payload :=
    VObject
      [ ("code", lookup props "id");
        ("name", lookup props "name");
        ("year", lookup props "year");
        ("trimester", lookup props "trimester");
        ("startDate", lookup props "startDate");
        ("endDate", lookup props "endDate");
        ("enrollmentStartDate", lookup props "enrollmentStartDate");
        ("enrollmentEndDate", lookup props "enrollmentEndDate");
        ("isActive", lookup props "isActive") ] in
  (exists rest,
     trace (state_of
              (PeriodForm.handleSubmit initialData period_mounted throws
                 (VObject props) w))
     = trace w ++ SetIsSubmitting true :: Gateway payload :: rest
     /\ Dialog.gateway_calls rest = 0)
  /\ payload = Stated.period_payload props
  /\ (lookup props "id" = VString (lit "2024-T1") ->
      get_prop payload "code" = Normal (VString (lit "2024-T1"))).
Proof.
  intros payload. split; [|split].
  - destruct (throws (trace w ++ [SetIsSubmitting true])
                (Stated.period_payload props)) as [e|] eqn:Ht.
    + rewrite (period_call_throws _ _ _ _ _ Ht). cbn [state_of trace].
      eexists; split; reflexivity.
    + apply (proj2 (period_suspended initialData period_mounted throws props w)) in Ht.
      rewrite (period_call_pending _ _ _ _ _ Ht).
      exists []; split; reflexivity.
  - reflexivity.
  - intros H. subst payload. simpl. rewrite H. reflexivity.
Qed.


(** ** A single call in flight *)

Lemma period_suspended_state
  (initialData : option value) (period_mounted : PeriodForm.clock)
  (throws : list event -> value -> option exn) (values : value) (w : world) :
  is_suspended (PeriodForm.handleSubmit initialData period_mounted throws values w)
  = true ->
  isSubmitting
    (state_of (PeriodForm.handleSubmit initialData period_mounted throws values w))
  = true
  /\ Dialog.gateway_calls
       (trace (state_of
                 (PeriodForm.handleSubmit initialData period_mounted throws values w)))
     = Dialog.gateway_calls (trace w) + 1.
Proof.
  unfold PeriodForm.handleSubmit.
  destruct values; run_handler; try discriminate;
    (destruct (throws _ _); [discriminate|]); intros _; tidy_trace;
    rewrite DialogFacts.gateway_calls_app; split; reflexivity.
Qed.

Lemma professor_suspended_state
  (initialData : option value) (professor_mounted : ProfessorForm.clock)
  (throws : list event -> value -> option exn) (values : value) (w : world) :
  is_suspended
    (ProfessorForm.handleSubmit initialData professor_mounted throws values w) = true ->
  isSubmitting
    (state_of
       (ProfessorForm.handleSubmit initialData professor_mounted throws values w))
  = true
  /\ Dialog.gateway_calls
       (trace (state_of
                 (ProfessorForm.handleSubmit initialData professor_mounted throws
                    values w)))
     = Dialog.gateway_calls (trace w) + 1.
Proof.
  intros Hs. rewrite (professor_call_pending _ _ _ _ _ Hs). cbn [isSubmitting trace].
  rewrite DialogFacts.gateway_calls_app. split; reflexivity.
Qed.

(** C3.  In every state a form instance can reach from its initial state,
    by clicks on its buttons, requests of the dialog to close, changes of
    fields and settlements of gateway promises in any order, at most one
    gateway call is in flight: exactly one while [isSubmitting] is set and
    none otherwise.  While the flag is set a click on submit and a click on
    Cancel leave the instance as it is.  Two clicks on submit in a row leave
    at most one call in flight, and when the first click left its call in
    flight the second one does nothing, so that both together made at most
    one gateway call.  This holds for the period form and for the professor
    form. *)
Theorem single_flight_submission
  (StringToNumber : jsstring -> number) (emailRegex : jsstring -> bool)
  (initialData : option value)
  (period_mounted : PeriodForm.clock) (professor_mounted : ProfessorForm.clock)
  (throws : list event -> value -> option exn)
  (es : list Dialog.ui_event) :
  (let step :=
     Dialog.step (PeriodForm.formSchema StringToNumber)
       (PeriodForm.handleSubmit initialData period_mounted throws) in
   let s :=
     Dialog.run (PeriodForm.formSchema StringToNumber)
       (PeriodForm.handleSubmit initialData period_mounted throws)
       (Dialog.initial (PeriodForm.defaultValues initialData period_mounted))
       es in
   let once := step s Dialog.ClickSubmit in
   let twice := step once Dialog.ClickSubmit in
   List.length (Dialog.in_flight s)
   = (if isSubmitting (Dialog.state s) then 1 else 0)
   /\ (isSubmitting (Dialog.state s) = true ->
       step s Dialog.ClickSubmit = s /\ step s Dialog.ClickCancel = s)
   /\ List.length (Dialog.in_flight twice) <= 1
   /\ (isSubmitting (Dialog.state once) = true ->
       twice = once
       /\ Dialog.gateway_calls (trace (Dialog.state twice))
          <= Dialog.gateway_calls (trace (Dialog.state s)) + 1))
  /\
  (let step :=
     Dialog.step (ProfessorForm.formSchema emailRegex)
       (ProfessorForm.handleSubmit initialData professor_mounted throws) in
   let s :=
     Dialog.run (ProfessorForm.formSchema emailRegex)
       (ProfessorForm.handleSubmit initialData professor_mounted throws)
       (Dialog.initial
          (ProfessorForm.defaultValues initialData professor_mounted))
       es in
   let once := step s Dialog.ClickSubmit in
   let twice := step once Dialog.ClickSubmit in
   List.length (Dialog.in_flight s)
   = (if isSubmitting (Dialog.state s) then 1 else 0)
   /\ (isSubmitting (Dialog.state s) = true ->
       step s Dialog.ClickSubmit = s /\ step s Dialog.ClickCancel = s)
   /\ List.length (Dialog.in_flight twice) <= 1
   /\ (isSubmitting (Dialog.state once) = true ->
       twice = once
       /\ Dialog.gateway_calls (trace (Dialog.state twice))
          <= Dialog.gateway_calls (trace (Dialog.state s)) + 1)).
Proof.
  split.
  - apply DialogFacts.reachable_single_flight.
    + intros values w Hs. apply period_suspended_state; exact Hs.
    + intros values w r w'.
      destruct (period_always_clears initialData period_mounted throws values w w' r)
        as (w'' & t & E & Hf & _). eauto.
    + intros values w Hs. apply period_suspended_state; exact Hs.
  - apply DialogFacts.reachable_single_flight.
    + intros values w Hs. apply professor_suspended_state; exact Hs.
    + intros values w r w'.
      destruct (professor_always_clears initialData professor_mounted throws values w
                  w' r) as (w'' & t & E & Hf & _). eauto.
    + intros values w Hs. apply professor_suspended_state; exact Hs.
Qed.


(** ** The theorems at sample inputs *)

Lemma submit_success_completes_witness :
  success (mkResult true None) = true
  /\ is_suspended
       (PeriodForm.handleSubmit None Samples.period_clock
          Samples.returns_promise Samples.period
          (Samples.idle Samples.period))
     = true
  /\ resume
       (PeriodForm.handleSubmit None Samples.period_clock
          Samples.returns_promise Samples.period
          (Samples.idle Samples.period))
       (Resolved (mkResult true None)) (Samples.busy Samples.period)
     = Ret (mkWorld false Samples.period_defaults []
              [ SetIsSubmitting true;
                ToastShown
                  (mkToast plain "Período registrado"
                     "El período ha sido registrado correctamente.");
                OnSubmit Samples.period; FormReset; OnClose;
                SetIsSubmitting false ])
           (Normal tt)
  /\ resume
       (ProfessorForm.handleSubmit (Some Samples.professor)
          Samples.professor_clock Samples.returns_promise Samples.professor
          (Samples.idle Samples.professor))
       (Resolved (mkResult true None)) (Samples.busy Samples.professor)
     = Ret (mkWorld false Samples.professor []
              [ SetIsSubmitting true;
                ToastShown
                  (mkToast plain "Profesor actualizado"
                     "Los datos del profesor han sido actualizados correctamente.");
                OnSubmit Samples.professor; FormReset; OnClose;
                SetIsSubmitting false ])
           (Normal tt).
Proof.
  split; [reflexivity|]. split; [reflexivity|]. split.
  - exact (proj2 (proj1 (submit_success_completes None Samples.period_clock
                           Samples.professor_clock Samples.returns_promise
                           (Samples.period_fields "2024-T1" 1711929600000%Z)
                           (Samples.idle Samples.period)
                           (Samples.busy Samples.period)
                           (mkResult true None) eq_refl) eq_refl)).
  - exact (proj2 (proj2 (submit_success_completes (Some Samples.professor)
                           Samples.period_clock Samples.professor_clock
                           Samples.returns_promise
                           (Samples.professor_fields "PROF-001" "V-12345678"
                              "3" "2015")
                           (Samples.idle Samples.professor)
                           (Samples.busy Samples.professor)
                           (mkResult true None) eq_refl) eq_refl)).
Defined.

Lemma submit_failure_keeps_form_witness :
  success (mkResult false (Some "Ya existe un profesor con ese ID")) = false
  /\ resume
       (ProfessorForm.handleSubmit None Samples.professor_clock
          Samples.returns_promise Samples.professor
          (Samples.idle Samples.professor))
       (Resolved (mkResult false (Some "Ya existe un profesor con ese ID")))
       (Samples.busy Samples.professor)
     = Ret (mkWorld false Samples.professor []
              [ SetIsSubmitting true;
                ToastShown
                  (mkToast destructive "Error"
                     "Ya existe un profesor con ese ID");
                SetIsSubmitting false ])
           (Normal tt)
  /\ resume
       (PeriodForm.handleSubmit None Samples.period_clock
          Samples.returns_promise Samples.period
          (Samples.idle Samples.period))
       (Rejected (Fault "timeout")) (Samples.busy Samples.period)
     = Ret (mkWorld false Samples.period []
              [ SetIsSubmitting true;
                ConsoleError "Error al guardar período:" (Fault "timeout");
                ToastShown
                  (mkToast destructive "Error"
                     "Ocurrió un error al procesar la solicitud.");
                SetIsSubmitting false ])
           (Normal tt)
  /\ ProfessorForm.handleSubmit None Samples.professor_clock
       Samples.throws_at_call Samples.professor
       (Samples.idle Samples.professor)
     = Ret (mkWorld false Samples.professor []
              [ SetIsSubmitting true; Gateway Samples.professor;
                ConsoleError "Error al guardar profesor:" (Fault "offline");
                ToastShown
                  (mkToast destructive "Error"
                     "Ocurrió un error al procesar la solicitud.");
                SetIsSubmitting false ])
           (Normal tt).
Proof.
  split; [reflexivity|]. split; [|split].
  - destruct (submit_failure_keeps_form None Samples.period_clock
                Samples.professor_clock
                Samples.returns_promise
                (Samples.professor_fields "PROF-001" "V-12345678" "3" "2015")
                (Samples.idle Samples.professor)
                (Samples.busy Samples.professor))
      as (_ & _ & _ & H & _).
    exact (H (mkResult false (Some "Ya existe un profesor con ese ID"))
             eq_refl eq_refl).
  - destruct (submit_failure_keeps_form None Samples.period_clock
                Samples.professor_clock
                Samples.returns_promise
                (Samples.period_fields "2024-T1" 1711929600000%Z)
                (Samples.idle Samples.period)
                (Samples.busy Samples.period))
      as (_ & H & _).
    exact (H (Fault "timeout") eq_refl).
  - destruct (submit_failure_keeps_form None Samples.period_clock
                Samples.professor_clock
                Samples.throws_at_call
                (Samples.professor_fields "PROF-001" "V-12345678" "3" "2015")
                (Samples.idle Samples.professor)
                (Samples.busy Samples.professor))
      as (_ & _ & _ & _ & _ & H).
    exact (H (Fault "offline") eq_refl).
Defined.

Lemma submitting_flag_always_cleared_witness :
  is_suspended
    (PeriodForm.handleSubmit None Samples.period_clock Samples.throws_at_call
       Samples.period (Samples.idle Samples.period))
  = false
  /\ exists w'' t,
       PeriodForm.handleSubmit None Samples.period_clock
         Samples.throws_at_call Samples.period (Samples.idle Samples.period)
       = Ret w'' (Normal tt)
       /\ isSubmitting w'' = false
       /\ trace w'' = t ++ [SetIsSubmitting false].
Proof.
  split; [reflexivity|].
  exact (proj2 (proj1 (submitting_flag_always_cleared None
                         Samples.period_clock Samples.professor_clock
                         Samples.throws_at_call Samples.period
                         (Samples.idle Samples.period)
                         (Samples.idle Samples.period)
                         (Rejected (Fault "offline"))))
           eq_refl).
Defined.

Lemma single_flight_submission_witness :
  let step :=
    Dialog.step (ProfessorForm.formSchema Samples.has_at_sign)
      (ProfessorForm.handleSubmit (Some Samples.professor)
         Samples.professor_clock Samples.returns_promise) in
  let s :=
    Dialog.run (ProfessorForm.formSchema Samples.has_at_sign)
      (ProfessorForm.handleSubmit (Some Samples.professor)
         Samples.professor_clock Samples.returns_promise)
      (Dialog.initial Samples.professor) [Dialog.ClickSubmit] in
  isSubmitting (Dialog.state s) = true
  /\ trace (Dialog.state s)
     = [SetIsSubmitting true; Gateway Samples.professor]
  /\ List.length (Dialog.in_flight s) = 1
  /\ step s Dialog.ClickSubmit = s
  /\ step s Dialog.ClickCancel = s.
Proof.
  intros step s.
  assert (Hbusy : isSubmitting (Dialog.state s) = true)
    by (vm_compute; reflexivity).
  destruct (proj2 (single_flight_submission Samples.no_numeric_strings
                     Samples.has_at_sign (Some Samples.professor)
                     Samples.period_clock Samples.professor_clock
                     Samples.returns_promise [Dialog.ClickSubmit]))
    as (Hcount & Hnoop & _).
  split; [exact Hbusy|]. split; [vm_compute; reflexivity|]. split.
  - exact Hcount.
  - exact (Hnoop Hbusy).
Defined.

Lemma period_id_sent_as_code_witness :
  lookup (Samples.period_fields "2024-T1" 1711929600000%Z) "id"
  = VString (lit "2024-T1")
  /\ get_prop
       (Stated.period_payload
          (Samples.period_fields "2024-T1" 1711929600000%Z)) "code"
     = Normal (VString (lit "2024-T1")).
Proof.
  split; [reflexivity|].
  exact (proj2 (proj2 (period_id_sent_as_code None Samples.period_clock
                         Samples.returns_promise
                         (Samples.period_fields "2024-T1" 1711929600000%Z)
                         (Samples.idle Samples.period)))
           eq_refl).
Defined.

End Submission.

(* ================================================================== *)
(** * More on the rules of the fields *)
(* ================================================================== *)

Module FieldRules.

Import Zod Effects ZodFacts Stated Widgets Entity.
Local Open Scope string_scope.
Local Open Scope list_scope.

Lemma string_min_accepts (req msg : option string) (L : nat) (v : value) :
  accepts (z_string req [min L msg]) v
  <-> exists s, v = VString s /\ L <= List.length s.
Proof.
  unfold accepts, z_string. split.
  - intros [out H]. destruct v; try (destruct req; discriminate H);
      try discriminate H.
    simpl in H. exists s. split; [reflexivity|].
    destruct (Nat.ltb_spec (List.length s) L) as [Hlt|Hge]; [|exact Hge].
    simpl in H. discriminate H.
  - intros (s & -> & Hlen). exists (VString s). simpl.
    destruct (Nat.ltb_spec (List.length s) L) as [Hlt|Hge]; [lia|reflexivity].
Qed.

(** X1.  Each field declared with a minimum length accepts exactly the
    strings of at least that length, whatever their characters, and
    nothing that is not a string. *)
Theorem min_length_fields_exact (v : value) :
  (accepts PeriodForm.id_schema v
   <-> exists s, v = VString s /\ 1 <= List.length s)
  /\ (accepts PeriodForm.name_schema v
      <-> exists s, v = VString s /\ 3 <= List.length s)
  /\ (accepts ProfessorForm.id_schema v
      <-> exists s, v = VString s /\ 2 <= List.length s)
  /\ (accepts ProfessorForm.firstName_schema v
      <-> exists s, v = VString s /\ 2 <= List.length s)
  /\ (accepts ProfessorForm.lastName_schema v
      <-> exists s, v = VString s /\ 2 <= List.length s)
  /\ (accepts ProfessorForm.education_schema v
      <-> exists s, v = VString s /\ 2 <= List.length s)
  /\ (accepts ProfessorForm.specialization_schema v
      <-> exists s, v = VString s /\ 2 <= List.length s)
  /\ (accepts ProfessorForm.phone_schema v
      <-> exists s, v = VString s /\ 10 <= List.length s).
Proof.
  repeat split; try (apply string_min_accepts);
    apply (proj2 (string_min_accepts _ _ _ _)).
Qed.

Lemma enum_accepts (options : list jsstring) (v : value) :
  accepts (z_enum options) v <-> exists s, v = VString s /\ In s options.
Proof.
  assert (Hmem : forall s, existsb (jsstring_eqb s) options = true
                           <-> In s options).
  { intros s. rewrite existsb_exists. unfold jsstring_eqb. split.
    - intros (x & Hin & Hx).
      destruct (list_eq_dec N.eq_dec s x); [subst; exact Hin|discriminate].
    - intros Hin. exists s. split; [exact Hin|].
      destruct (list_eq_dec N.eq_dec s s); [reflexivity|congruence]. }
  unfold accepts, z_enum. split.
  - intros [out H]. destruct v; try discriminate H.
    exists s. split; [reflexivity|]. apply Hmem.
    destruct (existsb (jsstring_eqb s) options); [reflexivity|discriminate H].
  - intros (s & -> & Hin). apply Hmem in Hin. rewrite Hin. eauto.
Qed.

(** X2.  The three choice fields accept exactly their tokens, as strings:
    the trimester "1", "2" or "3", the contract type "tiempo_completo",
    "tiempo_parcial" or "por_hora", the status "activo", "inactivo",
    "sabático" or "permiso".  Another string is an [invalid_enum_value],
    and a number, even 1, 2 or 3, is an [invalid_type]. *)
Theorem choice_fields_exact (v : value) :
  (accepts PeriodForm.trimester_schema v
   <-> v = VString (lit "1") \/ v = VString (lit "2")
       \/ v = VString (lit "3"))
  /\ (accepts ProfessorForm.contractType_schema v
      <-> v = VString (lit "tiempo_completo")
          \/ v = VString (lit "tiempo_parcial")
          \/ v = VString (lit "por_hora"))
  /\ (accepts ProfessorForm.status_schema v
      <-> v = VString (lit "activo") \/ v = VString (lit "inactivo")
          \/ v = VString (lit "sab" ++ [225%N] ++ lit "tico")
          \/ v = VString (lit "permiso"))
  /\ (forall s,
        ~ accepts PeriodForm.trimester_schema (VString s) ->
        PeriodForm.trimester_schema (VString s)
        = Normal (Invalid [raise invalid_enum_value None]))
  /\ (forall n,
        PeriodForm.trimester_schema (VNumber n)
        = Normal (Invalid [raise invalid_type None])).
Proof.
  unfold PeriodForm.trimester_schema, ProfessorForm.contractType_schema,
    ProfessorForm.status_schema.
  rewrite !enum_accepts. repeat split.
  - intros (s & -> & [ <- | [ <- | [ <- | [] ] ] ]); auto.
  - intros [ -> | [ -> | -> ] ]; eexists; split; try reflexivity; simpl; auto.
  - intros (s & -> & [ <- | [ <- | [ <- | [] ] ] ]); auto.
  - intros [ -> | [ -> | -> ] ]; eexists; split; try reflexivity; simpl; auto.
  - intros (s & -> & [ <- | [ <- | [ <- | [ <- | [] ] ] ] ]); auto.
  - intros [ -> | [ -> | [ -> | -> ] ] ]; eexists; split; try reflexivity; simpl; auto.
  - intros s Hno. unfold z_enum.
    destruct (existsb _ _) eqn:E; [|reflexivity].
    exfalso; apply Hno. exists (VString s). unfold z_enum. rewrite E.
    reflexivity.
Qed.

(** X3.  The two start-date fields accept exactly the valid dates, of any
    time, and hand them on unchanged; a missing date is reported with the
    message of the field and an invalid date as [invalid_date].  The
    calendars disable the days before 2000-01-01, but the schema has no such
    bound: a date the calendar disables is accepted all the same. *)
Theorem date_fields_unbounded (StringToNumber : jsstring -> number)
  (v : value) :
  (accepts PeriodForm.startDate_schema v <-> exists t, v = VDate (Some t))
  /\ (accepts PeriodForm.enrollmentStartDate_schema v
      <-> exists t, v = VDate (Some t))
  /\ (forall t,
        PeriodForm.startDate_schema (VDate (Some t))
        = Normal (Parsed (VDate (Some t)) [])
        /\ calendar_disabled StringToNumber (VDate (Some t))
           = (t <? 946684800000)%Z)
  /\ PeriodForm.startDate_schema VUndefined
     = Normal (Invalid [raise invalid_type
                          (Some "La fecha de inicio es obligatoria.")])
  /\ PeriodForm.enrollmentStartDate_schema VUndefined
     = Normal (Invalid
                 [raise invalid_type
                    (Some "La fecha de inicio de inscripciones es obligatoria.")])
  /\ PeriodForm.startDate_schema (VDate None)
     = Normal (Invalid [raise invalid_date None])
  /\ calendar_disabled StringToNumber (VDate None) = false.
Proof.
  assert (Hdate : forall req, accepts (z_date req) v
                              <-> exists t, v = VDate (Some t)).
  { intros req. unfold accepts, z_date. split.
    - intros [out H]. destruct v as [| | | | |[t|]|];
        try (destruct req; discriminate H); try discriminate H. eauto.
    - intros [t ->]. eauto. }
  repeat split; try apply Hdate; try apply (proj2 (Hdate _)).
  unfold calendar_disabled, js_lt, first_day; simpl.
  unfold Qle_bool; simpl. rewrite !Z.mul_1_r.
  rewrite Z.ltb_antisym. reflexivity.
Qed.

(** X4.  [isActive] may be left out: a missing value is accepted and comes
    out as [false]; a boolean is accepted and kept; anything else, [null]
    included, is rejected as an [invalid_type]. *)
Theorem isActive_defaults_to_false (v : value) :
  PeriodForm.isActive_schema VUndefined
  = Normal (Parsed (VBoolean false) [])
  /\ (forall b, PeriodForm.isActive_schema (VBoolean b)
                = Normal (Parsed (VBoolean b) []))
  /\ (accepts PeriodForm.isActive_schema v
      <-> v = VUndefined \/ exists b, v = VBoolean b)
  /\ (~ accepts PeriodForm.isActive_schema v ->
      PeriodForm.isActive_schema v
      = Normal (Invalid [raise invalid_type None])).
Proof.
  unfold accepts, PeriodForm.isActive_schema, default, z_boolean.
  repeat split.
  - intros [out H]. destruct v; try discriminate H; eauto.
  - intros [ -> | [b ->] ]; eauto.
  - intros Hno. destruct v; try reflexivity; exfalso; apply Hno; eauto.
Qed.

(** ** The theorems at sample inputs *)

Lemma min_length_fields_exact_witness :
  accepts ProfessorForm.phone_schema (VString (lit "          "))
  /\ ~ accepts ProfessorForm.phone_schema (VString (lit "04121234")).
Proof.
  split.
  - apply (proj2 (proj2 (proj2 (proj2 (proj2 (proj2 (proj2 (proj2
             (min_length_fields_exact (VString (lit "          "))))))))))).
    exists (lit "          "). split; [reflexivity|]. simpl. lia.
  - intros H.
    apply (proj1 (proj2 (proj2 (proj2 (proj2 (proj2 (proj2 (proj2
             (min_length_fields_exact (VString (lit "04121234"))))))))))) in H.
    destruct H as (s & E & Hlen). injection E as <-. simpl in Hlen. lia.
Defined.

Lemma choice_fields_exact_witness :
  accepts PeriodForm.trimester_schema (VString (lit "2"))
  /\ PeriodForm.trimester_schema (VString (lit "4"))
     = Normal (Invalid [raise invalid_enum_value None]).
Proof.
  split.
  - apply (proj2 (proj1 (choice_fields_exact (VString (lit "2"))))).
    right; left; reflexivity.
  - apply (proj1 (proj2 (proj2 (proj2 (choice_fields_exact VUndefined))))).
    intros H.
    apply (proj1 (proj1 (choice_fields_exact (VString (lit "4"))))) in H.
    destruct H as [H|[H|H]]; discriminate H.
Defined.

Lemma date_fields_unbounded_witness :
  accepts PeriodForm.startDate_schema (VDate (Some 0%Z))
  /\ calendar_disabled Samples.no_numeric_strings (VDate (Some 0%Z)) = true.
Proof.
  split.
  - apply (proj2 (proj1 (date_fields_unbounded Samples.no_numeric_strings
                           (VDate (Some 0%Z))))).
    exists 0%Z. reflexivity.
  - rewrite (proj2 (proj1 (proj2 (proj2
               (date_fields_unbounded Samples.no_numeric_strings VUndefined)))
               0%Z)).
    reflexivity.
Defined.

Lemma isActive_defaults_to_false_witness :
  ~ accepts PeriodForm.isActive_schema VNull
  /\ PeriodForm.isActive_schema VNull
     = Normal (Invalid [raise invalid_type None]).
Proof.
  assert (H : ~ accepts PeriodForm.isActive_schema VNull).
  { intros H.
    apply (proj1 (proj1 (proj2 (proj2 (isActive_defaults_to_false VNull)))))
      in H.
    destruct H as [H|[b H]]; discriminate H. }
  split; [exact H|].
  exact (proj2 (proj2 (proj2 (isActive_defaults_to_false VNull))) H).
Defined.

End FieldRules.

(* ================================================================== *)
(** * The professor entity as a whole *)
(* ================================================================== *)

Module EntityRules.

Import Zod Effects ZodFacts Stated Widgets Entity.
Local Open Scope string_scope.
Local Open Scope list_scope.

Lemma z_string_keeps_input (req : option string)
  (checks : list string_check) : keeps_input (z_string req checks).
Proof.
  intros input out issues H. unfold z_string in H.
  destruct input; try (destruct req; discriminate H); try discriminate H.
  injection H as <- _. split; [reflexivity|discriminate].
Qed.

Lemma z_enum_keeps_input (options : list jsstring) :
  keeps_input (z_enum options).
Proof.
  intros input out issues H. unfold z_enum in H.
  destruct input; try discriminate H.
  destruct (existsb _ _); [|discriminate H].
  injection H as <- _. split; [reflexivity|discriminate].
Qed.

(** The output of an object of such schemas: the fields of the input under
    the keys of the shape. *)
Lemma parse_shape_fields (shape : list (string * schema))
  (data : list (string * value)) :
  (forall key s, In (key, s) shape -> keeps_input s) ->
  forall out errs,
    parse_shape shape data = Normal (Some out, errs) ->
    out = fields_of shape data.
Proof.
  induction shape as [|[k0 s0] rest IH]; intros Hkeep out errs; simpl.
  - intros H; injection H as <- _. reflexivity.
  - destruct (s0 (lookup data k0)) as [r0|e0] eqn:E0; simpl; [|discriminate].
    destruct (parse_shape rest data) as [[out' errs']|e1] eqn:E1; simpl;
      [|discriminate].
    destruct r0 as [v issues|issues]; [|intros H; discriminate H].
    destruct out' as [o|]; [|intros H; discriminate H].
    destruct (Hkeep k0 s0 (or_introl eq_refl) _ _ _ E0) as [-> Hdef].
    intros H.
    assert (Ho : o = fields_of rest data).
    { apply (IH (fun key s Hin => Hkeep key s (or_intror Hin)) o errs').
      reflexivity. }
    destruct (lookup data k0) eqn:El; try congruence;
      injection H as <- _; unfold fields_of, keys_of; simpl;
      rewrite El, Ho; reflexivity.
Qed.

(** An object of schemas that do not throw is valid exactly when each of
    its fields is accepted. *)
Lemma parse_shape_valid (shape : list (string * schema))
  (data : list (string * value)) :
  (forall key s, In (key, s) shape ->
     exists r, s (lookup data key) = Normal r) ->
  (exists out, parse_shape shape data = Normal (Some out, []))
  <-> (forall key s, In (key, s) shape -> accepts s (lookup data key)).
Proof.
  induction shape as [|[k0 s0] rest IH]; intros Hret; simpl.
  - split; [intros _ key s []|eauto].
  - destruct (Hret k0 s0 (or_introl eq_refl)) as [r0 E0]. rewrite E0. simpl.
    assert (Hret' : forall key s, In (key, s) rest ->
                      exists r, s (lookup data key) = Normal r).
    { intros key s Hin. apply Hret. right; exact Hin. }
    specialize (IH Hret').
    destruct (parse_shape_returns rest data Hret') as [[out' errs'] E1].
    rewrite E1. simpl. split.
    + intros [out H].
      destruct r0 as [v issues|issues]; [|destruct out'; discriminate H].
      destruct out' as [o|]; [|discriminate H].
      injection H as _ Herrs. apply app_eq_nil in Herrs as [Hi ->].
      apply map_eq_nil in Hi. subst issues.
      intros key s [Hhd|Htl].
      * injection Hhd as <- <-. exists v. exact E0.
      * apply (proj1 IH); eauto.
    + intros Hall.
      destruct (Hall k0 s0 (or_introl eq_refl)) as [v Hv].
      rewrite E0 in Hv; injection Hv as ->.
      destruct (proj2 IH (fun key s Hin => Hall key s (or_intror Hin)))
        as [o Ho].
      rewrite E1 in Ho. injection Ho as -> ->. simpl. eauto.
Qed.

Lemma professor_fields_keep_input (emailRegex : jsstring -> bool)
  (key : string) (s : schema) :
  In (key, s) (ProfessorForm.shape emailRegex) -> keeps_input s.
Proof.
  unfold ProfessorForm.shape. simpl.
  intros [H|[H|[H|[H|[H|[H|[H|[H|[H|[H|[H|[H|[H|[]]]]]]]]]]]]]];
    injection H as <- <-;
    first [apply z_string_keeps_input | apply z_enum_keeps_input].
Qed.

Lemma resolver_values (shape : list (string * schema))
  (data : list (string * value)) (values : value) :
  zodResolver (z_object shape) (VObject data) = Normal (Values values)
  <-> exists out, parse_shape shape data = Normal (Some out, [])
                  /\ values = VObject out.
Proof.
  unfold zodResolver, z_object.
  destruct (parse_shape shape data) as [[[out|] errs]|e]; simpl.
  - destruct errs; split.
    + intros H; injection H as <-. eauto.
    + intros (o & H & ->). injection H as <-. reflexivity.
    + discriminate.
    + intros (o & H & _); discriminate H.
  - split; [discriminate|intros (o & H & _); discriminate H].
  - split; [discriminate|intros (o & H & _); discriminate H].
Qed.

(** X5.  A professor is validated exactly when each of the thirteen fields
    is accepted by the schema declared for it, and the validated entity is
    then made of these thirteen fields as they were entered, in the order
    of the schema: validation changes no value, and keys the schema does not
    declare are left out. *)
Theorem professor_valid_when_fields_are (emailRegex : jsstring -> bool)
  (data : list (string * value)) :
  ((exists values,
      zodResolver (ProfessorForm.formSchema emailRegex) (VObject data)
      = Normal (Values values))
   <-> (forall key s,
          In (key, s) (ProfessorForm.shape emailRegex) ->
          accepts s (lookup data key)))
  /\ (forall values,
        zodResolver (ProfessorForm.formSchema emailRegex) (VObject data)
        = Normal (Values values) ->
        values = VObject (fields_of (ProfessorForm.shape emailRegex) data)).
Proof.
  assert (Hret : forall key s,
            In (key, s) (ProfessorForm.shape emailRegex) ->
            exists r, s (lookup data key) = Normal r).
  { intros key s Hin. apply (Validation.professor_fields_return Hin). }
  unfold ProfessorForm.formSchema. split.
  - rewrite <- (parse_shape_valid _ data Hret). split.
    + intros [values H]. apply resolver_values in H as (out & H & _). eauto.
    + intros [out H]. exists (VObject out). apply resolver_values. eauto.
  - intros values H. apply resolver_values in H as (out & H & ->).
    f_equal. apply (parse_shape_fields _ data) with (errs := []); [|exact H].
    intros key s Hin. apply (professor_fields_keep_input Hin).
Qed.

(** X6.  A professor form opened to create and left untouched does not
    validate: the resolver reports an error under [id], [firstName],
    [lastName], [cedula], [education], [specialization] and [phone] (and
    under [email] unless the library's pattern accepts the empty string).
    It reports none under [department], whose empty default is a string and
    so never meets the "Por favor seleccione un departamento." message, nor
    under the hire date, the contract type and the status, which have valid
    defaults.  A click on submit stores these errors and calls nothing. *)
Theorem untouched_professor_form_rejected
  (emailRegex : jsstring -> bool) (mounted : ProfessorForm.clock)
  (throws : list event -> value -> option exn) :
  exists errs,
    zodResolver (ProfessorForm.formSchema emailRegex)
      (ProfessorForm.defaultValues None mounted)
    = Normal (Errors errs)
    /\ map (fun key => has_error key errs)
         ["id"; "firstName"; "lastName"; "cedula"; "education";
          "specialization"; "phone"]
       = [true; true; true; true; true; true; true]
    /\ has_error "email" errs = negb (emailRegex [])
    /\ map (fun key => has_error key errs)
         ["department"; "hireDateMonth"; "hireDateYear"; "contractType";
          "status"]
       = [false; false; false; false; false]
    /\ Dialog.step (ProfessorForm.formSchema emailRegex)
         (ProfessorForm.handleSubmit None mounted throws)
         (Dialog.initial (ProfessorForm.defaultValues None mounted))
         Dialog.ClickSubmit
       = Dialog.mkInstance
           (mkWorld false (ProfessorForm.defaultValues None mounted) errs [])
           [].
Proof.
  exists
    ([ mkIssue ["id"] too_small
         (Some "El ID debe tener al menos 2 caracteres.");
       mkIssue ["firstName"] too_small
         (Some "El nombre debe tener al menos 2 caracteres.");
       mkIssue ["lastName"] too_small
         (Some "El apellido debe tener al menos 2 caracteres.");
       mkIssue ["cedula"] invalid_string
         (Some "La cédula debe tener el formato V-1234567 o E-1234567.");
       mkIssue ["education"] too_small
         (Some "El grado académico debe tener al menos 2 caracteres.");
       mkIssue ["specialization"] too_small
         (Some "La especialización debe tener al menos 2 caracteres.") ]
     ++ (if emailRegex []
         then []
         else [mkIssue ["email"] invalid_string
                 (Some "Correo electrónico inválido.")])
     ++ [ mkIssue ["phone"] too_small
            (Some "Número de teléfono inválido.") ]).
  assert (Hres :
    zodResolver (ProfessorForm.formSchema emailRegex)
      (ProfessorForm.defaultValues None mounted)
    = Normal (Errors
        ([ mkIssue ["id"] too_small
             (Some "El ID debe tener al menos 2 caracteres.");
           mkIssue ["firstName"] too_small
             (Some "El nombre debe tener al menos 2 caracteres.");
           mkIssue ["lastName"] too_small
             (Some "El apellido debe tener al menos 2 caracteres.");
           mkIssue ["cedula"] invalid_string
             (Some "La cédula debe tener el formato V-1234567 o E-1234567.");
           mkIssue ["education"] too_small
             (Some "El grado académico debe tener al menos 2 caracteres.");
           mkIssue ["specialization"] too_small
             (Some "La especialización debe tener al menos 2 caracteres.") ]
         ++ (if emailRegex []
             then []
             else [mkIssue ["email"] invalid_string
                     (Some "Correo electrónico inválido.")])
         ++ [ mkIssue ["phone"] too_small
                (Some "Número de teléfono inválido.") ]))).
  { cbv [zodResolver ProfessorForm.formSchema z_object
         ProfessorForm.defaultValues ProfessorForm.shape parse_shape
         JS.bind lookup ProfessorForm.id_schema
         ProfessorForm.firstName_schema ProfessorForm.lastName_schema
         ProfessorForm.cedula_schema ProfessorForm.department_schema
         ProfessorForm.education_schema
         ProfessorForm.specialization_schema ProfessorForm.email_schema
         ProfessorForm.phone_schema ProfessorForm.hireDateMonth_schema
         ProfessorForm.hireDateYear_schema
         ProfessorForm.contractType_schema ProfessorForm.status_schema
         z_string z_enum].
    cbn. unfold jsstring, code_unit in *.
    destruct (emailRegex []); reflexivity. }
  split; [exact Hres|].
  split; [destruct (emailRegex []); reflexivity|].
  split; [destruct (emailRegex []); reflexivity|].
  split; [destruct (emailRegex []); reflexivity|].
  unfold Dialog.step, Dialog.submit, Dialog.initial.
  cbn [Dialog.state isSubmitting fieldValues trace errors Dialog.in_flight].
  rewrite Hres. reflexivity.
Qed.

(** ** The theorems at sample inputs *)

Lemma professor_valid_when_fields_are_witness :
  zodResolver (ProfessorForm.formSchema Samples.has_at_sign) Samples.professor
  = Normal (Values Samples.professor)
  /\ (forall key s,
        In (key, s) (ProfessorForm.shape Samples.has_at_sign) ->
        accepts s
          (lookup (Samples.professor_fields "PROF-001" "V-12345678" "3" "2015")
             key))
  /\ (forall values,
        zodResolver (ProfessorForm.formSchema Samples.has_at_sign)
          (VObject
             (("nickname", VString (lit "Anita"))
              :: Samples.professor_fields "PROF-001" "V-12345678" "3" "2015"))
        = Normal (Values values) ->
        values = Samples.professor).
Proof.
  assert (H : zodResolver (ProfessorForm.formSchema Samples.has_at_sign)
                Samples.professor
              = Normal (Values Samples.professor))
    by (vm_compute; reflexivity).
  split; [exact H|]. split.
  - apply (proj1 (proj1 (professor_valid_when_fields_are Samples.has_at_sign
                           (Samples.professor_fields "PROF-001" "V-12345678"
                              "3" "2015")))).
    exists Samples.professor. exact H.
  - intros values Hv.
    rewrite (proj2 (professor_valid_when_fields_are Samples.has_at_sign
                      (("nickname", VString (lit "Anita"))
                       :: Samples.professor_fields "PROF-001" "V-12345678"
                            "3" "2015")) values Hv).
    vm_compute. reflexivity.
Defined.

End EntityRules.


(* ================================================================== *)
(** * The options of the hire-date selects *)
(* ================================================================== *)

Module SelectOptions.

Import Zod Stated.
Local Open Scope string_scope.
Local Open Scope list_scope.

Lemma nth_error_map_seq {A} (f : nat -> A) (a n i : nat) :
  i < n -> nth_error (map f (seq a n)) i = Some (f (a + i)).
Proof.
  revert a i; induction n as [|n IH]; intros a i Hi; [lia|].
  destruct i as [|i]; simpl.
  - rewrite Nat.add_0_r. reflexivity.
  - rewrite IH by lia. f_equal. f_equal. lia.
Qed.

(** X7.  The year select offers the years from the current one down to
    1990, each once per position and in this order, and nothing when the
    current year is before 1990; the month select offers the twelve indexes
    "0" to "11".  The defaults of a form opened to create, the month and
    the year of that moment, are among the options whenever the month is
    one of 0 to 11 and the year is 1990 or later. *)
Theorem hire_date_options (currentYear : Z) (mounted : ProfessorForm.clock) :
  List.length (ProfessorForm.years currentYear)
  = Z.to_nat (currentYear - 1990 + 1)
  /\ (forall i,
        i < List.length (ProfessorForm.years currentYear) ->
        nth_error (ProfessorForm.years currentYear) i
        = Some (ProfessorForm.toString (currentYear - Z.of_nat i)))
  /\ ((currentYear < 1990)%Z -> ProfessorForm.years currentYear = [])
  /\ (forall n,
        (1990 <= n <= currentYear)%Z ->
        In (ProfessorForm.toString n) (ProfessorForm.years currentYear))
  /\ (forall m,
        (0 <= m <= 11)%Z ->
        In (ProfessorForm.toString m) ProfessorForm.month_options)
  /\ get_prop (ProfessorForm.defaultValues None mounted) "hireDateMonth"
     = Normal (VString (ProfessorForm.toString (ProfessorForm.month mounted)))
  /\ get_prop (ProfessorForm.defaultValues None mounted) "hireDateYear"
     = Normal
         (VString (ProfessorForm.toString (ProfessorForm.fullYear mounted))).
Proof.
  assert (Hlen : List.length (ProfessorForm.years currentYear)
                 = Z.to_nat (currentYear - 1990 + 1)).
  { unfold ProfessorForm.years. rewrite length_map, length_seq. reflexivity. }
  split; [exact Hlen|]. split; [|split; [|split; [|split]]].
  - intros i Hi. rewrite Hlen in Hi. unfold ProfessorForm.years.
    rewrite nth_error_map_seq by exact Hi. reflexivity.
  - intros Hlt. unfold ProfessorForm.years.
    replace (Z.to_nat (currentYear - 1990 + 1)) with 0 by lia. reflexivity.
  - intros n Hn. unfold ProfessorForm.years. apply in_map_iff.
    exists (Z.to_nat (currentYear - n)). split.
    + f_equal. lia.
    + apply in_seq. lia.
  - intros m Hm. unfold ProfessorForm.month_options. apply in_map_iff.
    exists (Z.to_nat m). split.
    + f_equal. lia.
    + apply in_seq. simpl. lia.
  - split; reflexivity.
Qed.

(** ** The theorem at sample inputs *)

Lemma hire_date_options_witness :
  In (ProfessorForm.toString 2015) (ProfessorForm.years 2026)
  /\ ProfessorForm.years 1989 = [].
Proof.
  split.
  - apply (proj1 (proj2 (proj2 (proj2
             (hire_date_options 2026 Samples.professor_clock))))).
    lia.
  - apply (proj1 (proj2 (proj2
             (hire_date_options 1989 Samples.professor_clock)))).
    lia.
Defined.

End SelectOptions.

(* ================================================================== *)
(** * Whole attempts *)
(* ================================================================== *)

Module Attempts.

Import Effects Dialog HandlerFacts Course.
Local Open Scope string_scope.
Local Open Scope list_scope.

(** ** While a call is in flight *)

Lemma midflight_step (formSchema : Zod.schema)
  (handleSubmit : value -> M unit) (s : instance)
  (k : settlement -> world -> proc unit) (e : ui_event) :
  isSubmitting (state s) = true ->
  in_flight s = [k] ->
  is_settlement e = false ->
  isSubmitting (state (step formSchema handleSubmit s e)) = true
  /\ in_flight (step formSchema handleSubmit s e) = [k]
  /\ gateway_calls (trace (state (step formSchema handleSubmit s e)))
     = gateway_calls (trace (state s)).
Proof.
  intros Hbusy Hk He. destruct e as [| | |name v|i r]; simpl in *;
    rewrite ?Hbusy; try discriminate.
  - auto.
  - auto.
  - repeat split; auto. rewrite DialogFacts.gateway_calls_app.
    unfold gateway_calls; simpl. lia.
  - unfold change. destruct (fieldValues (state s)); simpl; auto.
Qed.

Lemma midflight_run (formSchema : Zod.schema)
  (handleSubmit : value -> M unit) (es : list ui_event) (s : instance)
  (k : settlement -> world -> proc unit) :
  isSubmitting (state s) = true ->
  in_flight s = [k] ->
  no_settlement es = true ->
  isSubmitting (state (run formSchema handleSubmit s es)) = true
  /\ in_flight (run formSchema handleSubmit s es) = [k]
  /\ gateway_calls (trace (state (run formSchema handleSubmit s es)))
     = gateway_calls (trace (state s)).
Proof.
  revert s; induction es as [|e es IH]; intros s Hbusy Hk Hes; simpl.
  - auto.
  - simpl in Hes. apply andb_true_iff in Hes as [He Hes].
    apply negb_true_iff in He.
    destruct (midflight_step formSchema handleSubmit s e Hbusy Hk He)
      as (Hb & Hk' & Hg).
    destruct (IH _ Hb Hk' Hes) as (Hb2 & Hk2 & Hg2).
    repeat split; auto. congruence.
Qed.

Section Professor.

Variable emailRegex : jsstring -> bool.
Variable initialData : option value.
Variable mounted : ProfessorForm.clock.
Variable throws : list event -> value -> option exn.

(** The professor form, idle, clicked on submit with a field mapping that
    validates and a gateway that hands back a promise, then left to
    anything but a settlement. *)
Lemma professor_in_flight (s : instance) (values : value)
  (es : list ui_event) :
  isSubmitting (state s) = false ->
  in_flight s = [] ->
  Zod.zodResolver (ProfessorForm.formSchema emailRegex)
    (fieldValues (state s)) = Normal (Zod.Values values) ->
  throws (trace (state s) ++ [SetIsSubmitting true]) values = None ->
  no_settlement es = true ->
  let handler := ProfessorForm.handleSubmit initialData mounted throws in
  let clicked :=
    step (ProfessorForm.formSchema emailRegex) handler s ClickSubmit in
  let later := run (ProfessorForm.formSchema emailRegex) handler clicked es in
  let p :=
    handler values
      (mkWorld false (fieldValues (state s)) [] (trace (state s))) in
  is_suspended p = true
  /\ state clicked
     = mkWorld true (fieldValues (state s)) []
         (trace (state s) ++ [SetIsSubmitting true; Gateway values])
  /\ isSubmitting (state later) = true
  /\ gateway_calls (trace (state later))
     = gateway_calls (trace (state s)) + 1
  /\ forall r,
       step (ProfessorForm.formSchema emailRegex) handler later (Settle 0 r)
       = settle_in (resume p r (state later)) [].
Proof.
  intros Hidle Hnone Hres Hthrows Hes handler clicked later p.
  assert (Hs : is_suspended p = true).
  { apply professor_suspended. exact Hthrows. }
  pose proof (professor_call_pending initialData mounted throws values _ Hs)
    as Hstate.
  assert (Hclicked : clicked = settle_in p []).
  { unfold clicked, step, submit. rewrite Hidle, Hres, Hnone. reflexivity. }
  fold handler in Hstate. fold p in Hstate.
  destruct p as [w1 c|w1 k] eqn:Hp; [discriminate Hs|].
  cbn [state_of fieldValues errors trace] in Hstate. subst w1.
  assert (Hc_state : state clicked
                     = mkWorld true (fieldValues (state s)) []
                         (trace (state s)
                          ++ [SetIsSubmitting true; Gateway values])).
  { rewrite Hclicked. reflexivity. }
  assert (Hc_flight : in_flight clicked = [k]).
  { rewrite Hclicked. reflexivity. }
  assert (Hc_busy : isSubmitting (state clicked) = true).
  { rewrite Hc_state. reflexivity. }
  destruct (midflight_run (ProfessorForm.formSchema emailRegex) handler es
              clicked Hc_busy Hc_flight Hes) as (Hb & Hk & Hg).
  fold later in Hb, Hk, Hg.
  split; [reflexivity|]. split; [exact Hc_state|]. split; [exact Hb|]. split.
  - rewrite Hg, Hc_state. cbn [trace].
    rewrite DialogFacts.gateway_calls_app. unfold gateway_calls at 2; simpl.
    unfold gateway_calls. simpl. lia.
  - intros r. cbn [step]. rewrite Hk. reflexivity.
Qed.

(** X8.  A whole successful attempt of the professor form.  From an idle
    form whose field mapping validates, a click on submit sets the flag and
    calls the gateway with the validated entity, once; whatever the user
    and the dialog do before the promise settles, the call stays the only
    one in flight; and when the promise resolves with success the form ends
    idle, with nothing in flight, its field mapping back at the default
    values (the edits made meanwhile are discarded), and the success
    toast, [onSubmit] with the entity that was sent, the reset, [onClose]
    and the clearing of the flag as the calls added. *)
Theorem professor_attempt_succeeds (s : instance) (values : value)
  (es : list ui_event) (r : result) :
  isSubmitting (state s) = false ->
  in_flight s = [] ->
  Zod.zodResolver (ProfessorForm.formSchema emailRegex)
    (fieldValues (state s)) = Normal (Zod.Values values) ->
  throws (trace (state s) ++ [SetIsSubmitting true]) values = None ->
  no_settlement es = true ->
  success r = true ->
  let handler := ProfessorForm.handleSubmit initialData mounted throws in
  let clicked :=
    step (ProfessorForm.formSchema emailRegex) handler s ClickSubmit in
  let later := run (ProfessorForm.formSchema emailRegex) handler clicked es in
  state clicked
  = mkWorld true (fieldValues (state s)) []
      (trace (state s) ++ [SetIsSubmitting true; Gateway values])
  /\ isSubmitting (state later) = true
  /\ gateway_calls (trace (state later))
     = gateway_calls (trace (state s)) + 1
  /\ step (ProfessorForm.formSchema emailRegex) handler later
       (Settle 0 (Resolved r))
     = mkInstance
         (mkWorld false (ProfessorForm.defaultValues initialData mounted) []
            (trace (state later) ++
             [ ToastShown
                 (mkToast plain
                    (if given initialData then "Profesor actualizado"
                     else "Profesor registrado")
                    (if given initialData
                     then "Los datos del profesor han sido actualizados correctamente."
                     else "El profesor ha sido registrado correctamente."));
               OnSubmit values; FormReset; OnClose;
               SetIsSubmitting false ]))
         [].
Proof.
  intros Hidle Hnone Hres Hthrows Hes Hr handler clicked later.
  destruct (@professor_in_flight s values es Hidle Hnone Hres Hthrows Hes)
    as (Hs & Hc & Hb & Hg & Hsettle).
  subst later clicked handler.
  split; [exact Hc|]. split; [exact Hb|]. split; [exact Hg|].
  rewrite Hsettle.
  rewrite (professor_resolved_success initialData mounted throws values _
             _ r Hs Hr).
  reflexivity.
Qed.

(** X9.  A failed attempt of the professor form, and the next one.  When
    the promise of the call in flight is rejected or resolves without
    success, the form ends idle with nothing in flight and with the field
    mapping and the field errors it had at that moment, edits made
    meanwhile included; only the error toast (after the console log of a
    rejection) and the clearing of the flag are added.  The submit button
    works again: if the field mapping validates, the next click calls the
    gateway anew. *)
Theorem professor_attempt_fails_then_retries (s : instance)
  (values : value) (es : list ui_event) :
  isSubmitting (state s) = false ->
  in_flight s = [] ->
  Zod.zodResolver (ProfessorForm.formSchema emailRegex)
    (fieldValues (state s)) = Normal (Zod.Values values) ->
  throws (trace (state s) ++ [SetIsSubmitting true]) values = None ->
  no_settlement es = true ->
  let handler := ProfessorForm.handleSubmit initialData mounted throws in
  let clicked :=
    step (ProfessorForm.formSchema emailRegex) handler s ClickSubmit in
  let later := run (ProfessorForm.formSchema emailRegex) handler clicked es in
  (forall e,
     step (ProfessorForm.formSchema emailRegex) handler later
       (Settle 0 (Rejected e))
     = mkInstance
         (mkWorld false (fieldValues (state later)) (errors (state later))
            (trace (state later) ++
             [ ConsoleError "Error al guardar profesor:" e;
               ToastShown
                 (mkToast destructive "Error"
                    "Ocurrió un error al procesar la solicitud.");
               SetIsSubmitting false ]))
         [])
  /\ (forall r,
        success r = false ->
        step (ProfessorForm.formSchema emailRegex) handler later
          (Settle 0 (Resolved r))
        = mkInstance
            (mkWorld false (fieldValues (state later)) (errors (state later))
               (trace (state later) ++
                [ ToastShown
                    (mkToast destructive "Error"
                       (or_else (error r)
                          "No se pudo guardar los datos del profesor."));
                  SetIsSubmitting false ]))
            [])
  /\ (forall e again,
        let failed :=
          step (ProfessorForm.formSchema emailRegex) handler later
            (Settle 0 (Rejected e)) in
        Zod.zodResolver (ProfessorForm.formSchema emailRegex)
          (fieldValues (state later)) = Normal (Zod.Values again) ->
        throws (trace (state failed) ++ [SetIsSubmitting true]) again
        = None ->
        state
          (step (ProfessorForm.formSchema emailRegex) handler failed
             ClickSubmit)
        = mkWorld true (fieldValues (state later)) []
            (trace (state failed) ++ [SetIsSubmitting true; Gateway again])).
Proof.
  intros Hidle Hnone Hres Hthrows Hes handler clicked later.
  destruct (@professor_in_flight s values es Hidle Hnone Hres Hthrows Hes)
    as (Hs & Hc & Hb & Hg & Hsettle).
  subst handler. fold clicked in Hsettle. fold later in Hsettle.
  assert (Hrej : forall e,
            step (ProfessorForm.formSchema emailRegex)
              (ProfessorForm.handleSubmit initialData mounted throws)
              later (Settle 0 (Rejected e))
            = mkInstance
                (mkWorld false (fieldValues (state later))
                   (errors (state later))
                   (trace (state later) ++
                    [ ConsoleError "Error al guardar profesor:" e;
                      ToastShown
                        (mkToast destructive "Error"
                           "Ocurrió un error al procesar la solicitud.");
                      SetIsSubmitting false ]))
                []).
  { intros e. rewrite Hsettle.
    rewrite (professor_rejected initialData mounted throws values _ _ e Hs).
    reflexivity. }
  split; [exact Hrej|]. split.
  - intros r Hr. rewrite Hsettle.
    rewrite (professor_resolved_failure initialData mounted throws values _
               _ r Hs Hr).
    reflexivity.
  - intros e again failed Hagain Hthrows2.
    assert (Hf : failed = _) by (apply (Hrej e)).
    destruct (@professor_in_flight failed again []) as (_ & Hc2 & _).
    + rewrite Hf. reflexivity.
    + rewrite Hf. reflexivity.
    + rewrite Hf. exact Hagain.
    + exact Hthrows2.
    + reflexivity.
    + rewrite Hc2. rewrite Hf. reflexivity.
Qed.

(** X10.  The two ways out of the dialog differ while a call is in
    flight.  The Cancel button is disabled and a click on it changes
    nothing; a close request of the dialog itself (Escape, a click
    outside) is not held back: [onClose] is called at once, the call stays
    in flight, and when its promise resolves with success [onSubmit] is
    still called, the form is reset and [onClose] is called a second
    time. *)
Theorem close_request_is_not_held_back (s : instance) (values : value)
  (r : result) :
  isSubmitting (state s) = false ->
  in_flight s = [] ->
  Zod.zodResolver (ProfessorForm.formSchema emailRegex)
    (fieldValues (state s)) = Normal (Zod.Values values) ->
  throws (trace (state s) ++ [SetIsSubmitting true]) values = None ->
  success r = true ->
  let handler := ProfessorForm.handleSubmit initialData mounted throws in
  let step := step (ProfessorForm.formSchema emailRegex) handler in
  let clicked := step s ClickSubmit in
  step clicked ClickCancel = clicked
  /\ state (step clicked OpenChange)
     = mkWorld true (fieldValues (state s)) []
         (trace (state s) ++ [SetIsSubmitting true; Gateway values; OnClose])
  /\ in_flight (step clicked OpenChange) = in_flight clicked
  /\ trace (state (step (step clicked OpenChange) (Settle 0 (Resolved r))))
     = trace (state s) ++
       [ SetIsSubmitting true; Gateway values; OnClose;
         ToastShown
           (mkToast plain
              (if given initialData then "Profesor actualizado"
               else "Profesor registrado")
              (if given initialData
               then "Los datos del profesor han sido actualizados correctamente."
               else "El profesor ha sido registrado correctamente."));
         OnSubmit values; FormReset; OnClose; SetIsSubmitting false ].
Proof.
  intros Hidle Hnone Hres Hthrows Hr handler step0 clicked.
  destruct (@professor_in_flight s values [OpenChange] Hidle Hnone Hres
              Hthrows eq_refl)
    as (Hs & Hc & Hb & Hg & Hsettle).
  cbn [run fold_left] in Hsettle.
  subst clicked step0 handler.
  assert (Hopen :
    state
      (step (ProfessorForm.formSchema emailRegex)
         (ProfessorForm.handleSubmit initialData mounted throws)
         (step (ProfessorForm.formSchema emailRegex)
            (ProfessorForm.handleSubmit initialData mounted throws)
            s ClickSubmit)
         OpenChange)
    = mkWorld true (fieldValues (state s)) []
        (trace (state s)
         ++ [SetIsSubmitting true; Gateway values; OnClose])).
  { change (state (step ?f ?h ?c OpenChange)) with (log OnClose (state c)).
    rewrite Hc. unfold log.
    cbn [isSubmitting fieldValues errors trace].
    rewrite <- app_assoc. reflexivity. }
  split.
  - apply DialogFacts.busy_click. rewrite Hc. reflexivity.
  - split; [exact Hopen|]. split; [reflexivity|].
    rewrite Hsettle.
    rewrite (professor_resolved_success initialData mounted throws values _
               _ r Hs Hr).
    cbn [settle_in state trace]. rewrite Hopen. cbn [trace].
    rewrite <- app_assoc. reflexivity.
Qed.

End Professor.

(** ** The theorems at sample inputs *)

Lemma professor_attempt_succeeds_witness :
  Zod.zodResolver (ProfessorForm.formSchema Samples.has_at_sign)
    Samples.professor
  = Normal (Zod.Values Samples.professor)
  /\ step (ProfessorForm.formSchema Samples.has_at_sign)
       (ProfessorForm.handleSubmit (Some Samples.professor)
          Samples.professor_clock Samples.returns_promise)
       (run (ProfessorForm.formSchema Samples.has_at_sign)
          (ProfessorForm.handleSubmit (Some Samples.professor)
             Samples.professor_clock Samples.returns_promise)
          (step (ProfessorForm.formSchema Samples.has_at_sign)
             (ProfessorForm.handleSubmit (Some Samples.professor)
                Samples.professor_clock Samples.returns_promise)
             (initial Samples.professor) ClickSubmit)
          [Change "firstName" (VString (lit "Eva")); ClickSubmit; OpenChange])
       (Settle 0 (Resolved (mkResult true None)))
     = mkInstance
         (mkWorld false Samples.professor []
            [ SetIsSubmitting true; Gateway Samples.professor; OnClose;
              ToastShown
                (mkToast plain "Profesor actualizado"
                   "Los datos del profesor han sido actualizados correctamente.");
              OnSubmit Samples.professor; FormReset; OnClose;
              SetIsSubmitting false ])
         [].
Proof.
  assert (H : Zod.zodResolver (ProfessorForm.formSchema Samples.has_at_sign)
                Samples.professor
              = Normal (Zod.Values Samples.professor))
    by (vm_compute; reflexivity).
  split; [exact H|].
  exact (proj2 (proj2 (proj2
           (@professor_attempt_succeeds Samples.has_at_sign
              (Some Samples.professor) Samples.professor_clock
              Samples.returns_promise (initial Samples.professor)
              Samples.professor
              [Change "firstName" (VString (lit "Eva")); ClickSubmit;
               OpenChange]
              (mkResult true None) eq_refl eq_refl H eq_refl eq_refl
              eq_refl)))).
Defined.

Lemma professor_attempt_fails_then_retries_witness :
  Zod.zodResolver (ProfessorForm.formSchema Samples.has_at_sign)
    Samples.professor
  = Normal (Zod.Values Samples.professor)
  /\ state
       (step (ProfessorForm.formSchema Samples.has_at_sign)
          (ProfessorForm.handleSubmit None Samples.professor_clock
             Samples.returns_promise)
          (step (ProfessorForm.formSchema Samples.has_at_sign)
             (ProfessorForm.handleSubmit None Samples.professor_clock
                Samples.returns_promise)
             (run (ProfessorForm.formSchema Samples.has_at_sign)
                (ProfessorForm.handleSubmit None Samples.professor_clock
                   Samples.returns_promise)
                (step (ProfessorForm.formSchema Samples.has_at_sign)
                   (ProfessorForm.handleSubmit None Samples.professor_clock
                      Samples.returns_promise)
                   (initial Samples.professor) ClickSubmit)
                [ClickCancel])
             (Settle 0 (Rejected (Fault "offline"))))
          ClickSubmit)
     = mkWorld true Samples.professor []
         [ SetIsSubmitting true; Gateway Samples.professor;
           ConsoleError "Error al guardar profesor:" (Fault "offline");
           ToastShown
             (mkToast destructive "Error"
                "Ocurrió un error al procesar la solicitud.");
           SetIsSubmitting false;
           SetIsSubmitting true; Gateway Samples.professor ].
Proof.
  assert (H : Zod.zodResolver (ProfessorForm.formSchema Samples.has_at_sign)
                Samples.professor
              = Normal (Zod.Values Samples.professor))
    by (vm_compute; reflexivity).
  split; [exact H|].
  exact (proj2 (proj2
           (@professor_attempt_fails_then_retries Samples.has_at_sign
              None Samples.professor_clock Samples.returns_promise
              (initial Samples.professor) Samples.professor [ClickCancel]
              eq_refl eq_refl H eq_refl eq_refl))
           (Fault "offline") Samples.professor H eq_refl).
Defined.

Lemma close_request_is_not_held_back_witness :
  Zod.zodResolver (ProfessorForm.formSchema Samples.has_at_sign)
    Samples.professor
  = Normal (Zod.Values Samples.professor)
  /\ trace
       (state
          (step (ProfessorForm.formSchema Samples.has_at_sign)
             (ProfessorForm.handleSubmit None Samples.professor_clock
                Samples.returns_promise)
             (step (ProfessorForm.formSchema Samples.has_at_sign)
                (ProfessorForm.handleSubmit None Samples.professor_clock
                   Samples.returns_promise)
                (step (ProfessorForm.formSchema Samples.has_at_sign)
                   (ProfessorForm.handleSubmit None Samples.professor_clock
                      Samples.returns_promise)
                   (initial Samples.professor) ClickSubmit)
                OpenChange)
             (Settle 0 (Resolved (mkResult true None)))))
     = [ SetIsSubmitting true; Gateway Samples.professor; OnClose;
         ToastShown
           (mkToast plain "Profesor registrado"
              "El profesor ha sido registrado correctamente.");
         OnSubmit Samples.professor; FormReset; OnClose;
         SetIsSubmitting false ].
Proof.
  assert (H : Zod.zodResolver (ProfessorForm.formSchema Samples.has_at_sign)
                Samples.professor
              = Normal (Zod.Values Samples.professor))
    by (vm_compute; reflexivity).
  split; [exact H|].
  exact (proj2 (proj2 (proj2
           (@close_request_is_not_held_back Samples.has_at_sign
              None Samples.professor_clock Samples.returns_promise
              (initial Samples.professor) Samples.professor
              (mkResult true None) eq_refl eq_refl H eq_refl eq_refl)))).
Defined.

End Attempts.

(* ================================================================== *)
(** * Every course of events *)
(* ================================================================== *)

Module Ledger.

Import Effects Dialog HandlerFacts Course.
Local Open Scope string_scope.
Local Open Scope list_scope.

Lemma count_app (kind : event -> bool) (a b : list event) :
  count kind (a ++ b) = count kind a + count kind b.
Proof. unfold count. rewrite filter_app, length_app. reflexivity. Qed.

Lemma count_cons (kind : event -> bool) (e : event) (t : list event) :
  count kind (e :: t) = (if kind e then 1 else 0) + count kind t.
Proof. unfold count. simpl. destruct (kind e); reflexivity. Qed.

Lemma count_nil (kind : event -> bool) : count kind [] = 0.
Proof. reflexivity. Qed.

Ltac tally :=
  rewrite ?count_app, ?count_cons, ?count_nil;
  cbn [is_gateway is_onSubmit is_reset].

Lemma only_closing_no_gateway (t : list event) :
  Forall (fun e => e = OnClose) t -> gateway_calls t = 0.
Proof.
  induction 1 as [|e t He _ IH]; [reflexivity|].
  subst e. exact IH.
Qed.

(** ** The period form *)

Section Period.

Variable StringToNumber : jsstring -> number.
Variable initialData : option value.
Variable mounted : PeriodForm.clock.
Variable throws : list event -> value -> option exn.

Lemma period_step_only_closes (s : instance) (e : ui_event) :
  isSubmitting (state s) = false ->
  in_flight s = [] ->
  Forall (fun e => e = OnClose) (trace (state s)) ->
  let s' :=
    step (PeriodForm.formSchema StringToNumber)
      (PeriodForm.handleSubmit initialData mounted throws) s e in
  isSubmitting (state s') = false
  /\ in_flight s' = []
  /\ Forall (fun e => e = OnClose) (trace (state s')).
Proof.
  intros Hidle Hnone Ht. destruct e as [| | |name v|i r]; cbn [step].
  - rewrite Hidle. unfold submit.
    pose proof (@Validation.period_never_valid StringToNumber
                  (fieldValues (state s))) as Hnever.
    destruct (Zod.zodResolver (PeriodForm.formSchema StringToNumber)
                (fieldValues (state s))) as [[values|errs]|ex].
    + exfalso. exact (Hnever values eq_refl).
    + cbn [state in_flight isSubmitting trace]. auto.
    + auto.
  - rewrite Hidle. cbn [state in_flight]. unfold log.
    cbn [isSubmitting trace]. repeat split; auto.
    apply Forall_app; split; auto.
  - cbn [state in_flight]. unfold log.
    cbn [isSubmitting trace]. repeat split; auto.
    apply Forall_app; split; auto.
  - cbn [state in_flight]. unfold change.
    destruct (fieldValues (state s)); cbn [isSubmitting trace]; auto.
  - rewrite Hnone. destruct i; cbn [nth_error]; auto.
Qed.

(** X11.  The period dialog never saves.  Whatever is typed, clicked and
    settled, in whatever order, from the moment the dialog is mounted: the
    gateway is never called, [onSubmit] is never called, no toast is
    shown, the flag is never set and nothing is ever in flight; [onClose]
    is the only call the dialog ever makes.  (No field mapping passes the
    resolver of the period schema, whose end-date checks throw on every
    valid date.) *)
Theorem period_dialog_never_saves (defaults : value)
  (es : list ui_event) :
  let s :=
    run (PeriodForm.formSchema StringToNumber)
      (PeriodForm.handleSubmit initialData mounted throws)
      (initial defaults) es in
  isSubmitting (state s) = false
  /\ in_flight s = []
  /\ Forall (fun e => e = OnClose) (trace (state s))
  /\ gateway_calls (trace (state s)) = 0
  /\ count is_onSubmit (trace (state s)) = 0.
Proof.
  cbv zeta.
  assert (H : forall es s,
            isSubmitting (state s) = false ->
            in_flight s = [] ->
            Forall (fun e => e = OnClose) (trace (state s)) ->
            isSubmitting
              (state
                 (run (PeriodForm.formSchema StringToNumber)
                    (PeriodForm.handleSubmit initialData mounted throws)
                    s es)) = false
            /\ in_flight
                 (run (PeriodForm.formSchema StringToNumber)
                    (PeriodForm.handleSubmit initialData mounted throws)
                    s es) = []
            /\ Forall (fun e => e = OnClose)
                 (trace
                    (state
                       (run (PeriodForm.formSchema StringToNumber)
                          (PeriodForm.handleSubmit initialData mounted throws)
                          s es)))).
  { clear es. induction es as [|e es IH]; intros s Hi Hn Ht.
    - auto.
    - destruct (period_step_only_closes s e Hi Hn Ht) as (Hi' & Hn' & Ht').
      exact (IH _ Hi' Hn' Ht'). }
  destruct (H es (initial defaults) eq_refl eq_refl (Forall_nil _))
    as (Hi & Hn & Ht).
  repeat split; auto.
  - apply only_closing_no_gateway. exact Ht.
  - clear -Ht. induction Ht as [|e t He _ IH]; [reflexivity|].
    subst e. exact IH.
Qed.

End Period.

(** ** The professor form *)

Section Professor.

Variable emailRegex : jsstring -> bool.
Variable initialData : option value.
Variable mounted : ProfessorForm.clock.
Variable throws : list event -> value -> option exn.

Lemma professor_continuation_quiet (values : value) (w w1 : world)
  (k : settlement -> world -> proc unit) :
  ProfessorForm.handleSubmit initialData mounted throws values w
  = Await w1 k ->
  completes_quietly k.
Proof.
  intros H r w'.
  assert (Hs : is_suspended
                 (ProfessorForm.handleSubmit initialData mounted throws
                    values w) = true) by (rewrite H; reflexivity).
  destruct r as [r|e].
  - destruct (success r) eqn:Hr.
    + pose proof (professor_resolved_success initialData mounted throws
                    values w w' r Hs Hr) as E.
      rewrite H in E. cbn [resume] in E.
      do 3 eexists. split; [exact E|].
      cbn [isSubmitting trace]. split; [reflexivity|].
      split; [reflexivity|]. tally. auto.
    + pose proof (professor_resolved_failure initialData mounted throws
                    values w w' r Hs Hr) as E.
      rewrite H in E. cbn [resume] in E.
      do 3 eexists. split; [exact E|].
      cbn [isSubmitting trace]. split; [reflexivity|].
      split; [reflexivity|]. tally. auto.
  - pose proof (professor_rejected initialData mounted throws
                  values w w' e Hs) as E.
    rewrite H in E. cbn [resume] in E.
    do 3 eexists. split; [exact E|].
    cbn [isSubmitting trace]. split; [reflexivity|].
    split; [reflexivity|]. tally. auto.
Qed.

Lemma professor_step_accounted (s : instance) (e : ui_event) :
  accounted s ->
  accounted
    (step (ProfessorForm.formSchema emailRegex)
       (ProfessorForm.handleSubmit initialData mounted throws) s e).
Proof.
  intros Hacc. pose proof Hacc as (Hflight & Hle & Hreset).
  destruct e as [| | |name v|i r]; cbn [step].
  - destruct (isSubmitting (state s)) eqn:Hbusy.
    { exact Hacc. }
    unfold submit. cbv zeta. rewrite Hbusy.
    destruct (Zod.zodResolver (ProfessorForm.formSchema emailRegex)
                (fieldValues (state s))) as [[values|errs]|ex].
    + rewrite Hflight in *. cbn [List.length] in Hle.
      destruct (ProfessorForm.handleSubmit initialData mounted throws values
                  (mkWorld false (fieldValues (state s)) []
                     (trace (state s)))) as [w1 c|w1 k] eqn:Hp.
      * assert (Hs : is_suspended
                       (ProfessorForm.handleSubmit initialData mounted throws
                          values
                          (mkWorld false (fieldValues (state s)) []
                             (trace (state s)))) = false)
          by (rewrite Hp; reflexivity).
        destruct (throws (trace (state s) ++ [SetIsSubmitting true]) values)
          as [ex|] eqn:Hthrows.
        -- pose proof (@professor_call_throws initialData mounted throws
                         values
                         (mkWorld false (fieldValues (state s)) []
                            (trace (state s))) ex Hthrows) as E.
           rewrite Hp in E. injection E as -> _.
           unfold accounted.
           cbn [settle_in state in_flight isSubmitting trace List.length].
           tally.
           repeat split; lia.
        -- apply (proj2 (professor_suspended initialData mounted throws
                           values
                           (mkWorld false (fieldValues (state s)) []
                              (trace (state s))))) in Hthrows.
           congruence.
      * assert (Hs : is_suspended
                       (ProfessorForm.handleSubmit initialData mounted throws
                          values
                          (mkWorld false (fieldValues (state s)) []
                             (trace (state s)))) = true)
          by (rewrite Hp; reflexivity).
        pose proof (professor_call_pending initialData mounted throws values
                      _ Hs) as E.
        rewrite Hp in E. cbn [state_of fieldValues errors trace] in E.
        subst w1. unfold accounted.
        cbn [settle_in state in_flight isSubmitting trace List.length app].
        split.
        { exists k. split; [reflexivity|].
          exact (professor_continuation_quiet _ _ Hp). }
        tally.
        split; lia.
    + unfold accounted. cbn [state in_flight isSubmitting trace].
      repeat split; auto.
    + unfold accounted. rewrite Hbusy. repeat split; auto.
  - destruct (isSubmitting (state s)) eqn:Hbusy.
    { exact Hacc. }
    unfold accounted, log. cbn [state in_flight isSubmitting trace].
    rewrite Hbusy. tally.
    repeat split; auto; lia.
  - unfold accounted, log. cbn [state in_flight isSubmitting trace].
    tally.
    repeat split; auto; lia.
  - unfold accounted, change.
    destruct (fieldValues (state s));
      cbn [state in_flight isSubmitting trace]; auto.
  - destruct (isSubmitting (state s)) eqn:Hbusy.
    + destruct Hflight as (k & Hk & Hquiet). rewrite Hk in *.
      destruct i as [|i]; cbn [nth_error].
      * destruct (Hquiet r (state s))
          as (w'' & c & added & E & Hclear & Htrace & Hg & Ho & Hr).
        rewrite E. unfold accounted.
        cbn [settle_in remove_nth state in_flight List.length].
        rewrite Hclear, Htrace. tally. cbn [List.length] in Hle.
        repeat split; auto; lia.
      * destruct i; exact Hacc.
    + rewrite Hflight. destruct i; exact Hacc.
Qed.

(** X12.  The books of the professor dialog balance over every course of
    events.  Whatever is typed, clicked and settled, in whatever order,
    from the moment the dialog is mounted: [onSubmit] has been called at
    most as often as the gateway, counting the call still in flight
    against it (so the parent is told of a saved professor at most once
    per gateway call, and never before its promise settled); the form was
    reset exactly as often as [onSubmit] was called; and at most one call
    is in flight, exactly when the flag is set. *)
Theorem professor_dialog_accounts (defaults : value)
  (es : list ui_event) :
  let s :=
    run (ProfessorForm.formSchema emailRegex)
      (ProfessorForm.handleSubmit initialData mounted throws)
      (initial defaults) es in
  count is_onSubmit (trace (state s)) + List.length (in_flight s)
  <= count is_gateway (trace (state s))
  /\ count is_reset (trace (state s)) = count is_onSubmit (trace (state s))
  /\ List.length (in_flight s)
     = (if isSubmitting (state s) then 1 else 0).
Proof.
  cbv zeta.
  assert (H : forall es s,
            accounted s ->
            accounted
              (run (ProfessorForm.formSchema emailRegex)
                 (ProfessorForm.handleSubmit initialData mounted throws)
                 s es)).
  { clear es. induction es as [|e es IH]; intros s Hs; [exact Hs|].
    exact (IH _ (professor_step_accounted e Hs)). }
  destruct (H es (initial defaults)) as (Hflight & Hle & Hreset).
  { unfold accounted, initial, count. simpl. auto. }
  repeat split; auto.
  destruct (isSubmitting _).
  - destruct Hflight as (k & -> & _). reflexivity.
  - rewrite Hflight. reflexivity.
Qed.

End Professor.

End Ledger.
